(** * ComplyPilot backend: scoring engine, risk register and document analysis

    A shallow embedding of [backend/server.py].  Python [str] values are
    modelled as ASCII strings, the [bytes] of an uploaded file as a string
    of 8-bit characters, Python [int] as [Z], the [float] arithmetic of
    the percentage computation as IEEE 754 binary64 through [SpecFloat], the
    dict built from the submitted answers as a [gmap], and the MongoDB
    collections as lists of documents in insertion order.  The request
    handlers are written in a small state-and-exception monad over the
    database; values drawn from outside the process ([uuid.uuid4()], the
    reply of the external analyzer) are read from the environment part of the
    state or passed to the handler.  Timestamps ([created_at], [updated_at],
    [analyzed_at]) are left out of the stored documents: no property below
    reads them. *)

From Stdlib Require Import ZArith Lia List Bool Ascii String Permutation Sorted.
From Stdlib Require Import Floats.SpecFloat.
From stdpp Require Import base option list strings gmap.

Set Warnings "-register-all".

Local Open Scope string_scope.
Local Open Scope list_scope.
Local Open Scope Z_scope.

(** ** Python numerics used by the handlers *)

Module Float64.

Definition prec : Z := 53.
Definition emax : Z := 1024.

(** [float(n)] for a Python int. *)
Definition of_int (n : Z) : spec_float := binary_normalize prec emax n 0 false.

Definition mul : spec_float -> spec_float -> spec_float := SFmul prec emax.
Definition div : spec_float -> spec_float -> spec_float := SFdiv prec emax.

(** [a / b] on two ints.  CPython rounds the exact quotient once; for
    operands below 2^53 in magnitude, which is all the handlers ever
    produce, that is the binary64 division of the two converted operands.
    [None] stands for [ZeroDivisionError]. *)
Definition int_truediv (a b : Z) : option spec_float :=
  if b =? 0 then None else Some (div (of_int a) (of_int b)).

(** Nearest integer of [m * 2^e] for [m >= 0], ties to the even one. *)
Definition nearest_even (m e : Z) : Z :=
  if 0 <=? e then m * 2 ^ e
  else
    let d := 2 ^ (- e) in
    let q := m / d in
    let r := m mod d in
    match 2 * r ?= d with
    | Lt => q
    | Gt => q + 1
    | Eq => if Z.even q then q else q + 1
    end.

(** The builtin [round(x)] with one argument: an int, halves going to the
    even neighbour; it raises on infinities and NaN ([None]). *)
Definition round (x : spec_float) : option Z :=
  match x with
  | S754_zero _ => Some 0
  | S754_finite s m e =>
      let n := nearest_even (Z.pos m) e in
      Some (if s then - n else n)
  | S754_infinity _ | S754_nan => None
  end.

End Float64.

(** ** Question catalog *)

Record Question := {
  q_id : string;
  q_category : string;
  q_subcategory : string;
  q_question : string;
  q_weight : Z;
  q_guidance : string;
}.

Definition GDPR_QUESTIONS : list Question := [
  {| q_id := "gdpr_1"; q_category := "GDPR"; q_subcategory := "Data Inventory";
     q_question := "Do you maintain a record of all personal data you collect and process?";
     q_weight := 3;
     q_guidance := "Article 30 of GDPR requires maintaining records of processing activities." |};
  {| q_id := "gdpr_2"; q_category := "GDPR"; q_subcategory := "Lawful Basis";
     q_question := "Have you identified and documented a lawful basis for each processing activity?";
     q_weight := 3;
     q_guidance := "You must have a valid lawful basis under Article 6 for processing personal data." |};
  {| q_id := "gdpr_3"; q_category := "GDPR"; q_subcategory := "Privacy Notice";
     q_question := "Do you have a clear, accessible privacy notice that explains how you use personal data?";
     q_weight := 2;
     q_guidance := "Articles 13-14 require transparent communication about data processing." |};
  {| q_id := "gdpr_4"; q_category := "GDPR"; q_subcategory := "Consent";
     q_question := "Where you rely on consent, can individuals easily withdraw it?";
     q_weight := 2;
     q_guidance := "Consent must be freely given, specific, informed, and unambiguous." |};
  {| q_id := "gdpr_5"; q_category := "GDPR"; q_subcategory := "Data Subject Rights";
     q_question := "Do you have procedures to respond to data subject access requests within 30 days?";
     q_weight := 3;
     q_guidance := "Individuals have the right to access their personal data under Article 15." |};
  {| q_id := "gdpr_6"; q_category := "GDPR"; q_subcategory := "Data Subject Rights";
     q_question := "Can you fulfil requests to erase personal data (right to be forgotten)?";
     q_weight := 2;
     q_guidance := "Article 17 gives individuals the right to erasure in certain circumstances." |};
  {| q_id := "gdpr_7"; q_category := "GDPR"; q_subcategory := "Data Retention";
     q_question := "Do you have a data retention policy specifying how long you keep personal data?";
     q_weight := 2;
     q_guidance := "Personal data should not be kept longer than necessary for the purposes for which it is processed." |};
  {| q_id := "gdpr_8"; q_category := "GDPR"; q_subcategory := "Data Security";
     q_question := "Have you implemented appropriate technical measures to protect personal data?";
     q_weight := 3;
     q_guidance := "Article 32 requires implementing appropriate technical and organisational security measures." |};
  {| q_id := "gdpr_9"; q_category := "GDPR"; q_subcategory := "Data Security";
     q_question := "Do you encrypt personal data in transit and at rest?";
     q_weight := 2;
     q_guidance := "Encryption is a recommended security measure under GDPR." |};
  {| q_id := "gdpr_10"; q_category := "GDPR"; q_subcategory := "Breach Response";
     q_question := "Do you have a data breach response procedure in place?";
     q_weight := 3;
     q_guidance := "You must report certain breaches to the ICO within 72 hours under Article 33." |};
  {| q_id := "gdpr_11"; q_category := "GDPR"; q_subcategory := "DPO";
     q_question := "Have you assessed whether you need to appoint a Data Protection Officer?";
     q_weight := 1;
     q_guidance := "Article 37 specifies when a DPO is required." |};
  {| q_id := "gdpr_12"; q_category := "GDPR"; q_subcategory := "International Transfers";
     q_question := "Do you have appropriate safeguards for transferring personal data outside the UK?";
     q_weight := 2;
     q_guidance := "International transfers require adequate protection mechanisms." |};
  {| q_id := "gdpr_13"; q_category := "GDPR"; q_subcategory := "Staff Training";
     q_question := "Do all staff who handle personal data receive data protection training?";
     q_weight := 2;
     q_guidance := "Staff awareness is a key organisational measure for compliance." |};
  {| q_id := "gdpr_14"; q_category := "GDPR"; q_subcategory := "Third Parties";
     q_question := "Do you have written contracts with all processors who handle personal data on your behalf?";
     q_weight := 3;
     q_guidance := "Article 28 requires contracts with data processors specifying processing terms." |};
  {| q_id := "gdpr_15"; q_category := "GDPR"; q_subcategory := "DPIA";
     q_question := "Do you conduct Data Protection Impact Assessments for high-risk processing?";
     q_weight := 2;
     q_guidance := "DPIAs are required under Article 35 for processing likely to result in high risk." |}
].

Definition CYBER_ESSENTIALS_QUESTIONS : list Question := [
  {| q_id := "ce_1"; q_category := "Cyber Essentials"; q_subcategory := "Firewalls";
     q_question := "Do you have a properly configured firewall protecting your network boundary?";
     q_weight := 3;
     q_guidance := "Firewalls are the first line of defence against network attacks." |};
  {| q_id := "ce_2"; q_category := "Cyber Essentials"; q_subcategory := "Firewalls";
     q_question := "Are all firewall rules documented and reviewed regularly?";
     q_weight := 2;
     q_guidance := "Regular reviews ensure firewall rules remain appropriate and secure." |};
  {| q_id := "ce_3"; q_category := "Cyber Essentials"; q_subcategory := "Secure Configuration";
     q_question := "Do you remove or disable unnecessary user accounts?";
     q_weight := 2;
     q_guidance := "Reducing attack surface by removing unused accounts." |};
  {| q_id := "ce_4"; q_category := "Cyber Essentials"; q_subcategory := "Secure Configuration";
     q_question := "Do you change default passwords on all devices and software?";
     q_weight := 3;
     q_guidance := "Default credentials are a common attack vector." |};
  {| q_id := "ce_5"; q_category := "Cyber Essentials"; q_subcategory := "Secure Configuration";
     q_question := "Is auto-run disabled for media and network drives?";
     q_weight := 2;
     q_guidance := "Prevents automatic execution of malicious code." |};
  {| q_id := "ce_6"; q_category := "Cyber Essentials"; q_subcategory := "Access Control";
     q_question := "Do users only have access to the data and systems they need for their role?";
     q_weight := 3;
     q_guidance := "Principle of least privilege reduces risk of data breaches." |};
  {| q_id := "ce_7"; q_category := "Cyber Essentials"; q_subcategory := "Access Control";
     q_question := "Do you use multi-factor authentication for accessing cloud services?";
     q_weight := 3;
     q_guidance := "MFA significantly reduces the risk of account compromise." |};
  {| q_id := "ce_8"; q_category := "Cyber Essentials"; q_subcategory := "Access Control";
     q_question := "Are administrator accounts separate from normal user accounts?";
     q_weight := 2;
     q_guidance := "Separation prevents privilege escalation attacks." |};
  {| q_id := "ce_9"; q_category := "Cyber Essentials"; q_subcategory := "Malware Protection";
     q_question := "Is anti-malware software installed on all devices?";
     q_weight := 3;
     q_guidance := "Essential protection against viruses and malware." |};
  {| q_id := "ce_10"; q_category := "Cyber Essentials"; q_subcategory := "Malware Protection";
     q_question := "Is your anti-malware software set to update automatically?";
     q_weight := 2;
     q_guidance := "Regular updates ensure protection against new threats." |};
  {| q_id := "ce_11"; q_category := "Cyber Essentials"; q_subcategory := "Malware Protection";
     q_question := "Is your anti-malware software configured to scan files automatically?";
     q_weight := 2;
     q_guidance := "Automatic scanning catches threats before they execute." |};
  {| q_id := "ce_12"; q_category := "Cyber Essentials"; q_subcategory := "Patch Management";
     q_question := "Are operating systems set to update automatically?";
     q_weight := 3;
     q_guidance := "Patching fixes known vulnerabilities that attackers exploit." |};
  {| q_id := "ce_13"; q_category := "Cyber Essentials"; q_subcategory := "Patch Management";
     q_question := "Do you apply high-risk security patches within 14 days of release?";
     q_weight := 3;
     q_guidance := "Timely patching is critical for preventing exploitation." |};
  {| q_id := "ce_14"; q_category := "Cyber Essentials"; q_subcategory := "Patch Management";
     q_question := "Do you remove unsupported software from your systems?";
     q_weight := 2;
     q_guidance := "Unsupported software no longer receives security updates." |};
  {| q_id := "ce_15"; q_category := "Cyber Essentials"; q_subcategory := "Password Policy";
     q_question := "Do you enforce a minimum password length of at least 12 characters?";
     q_weight := 2;
     q_guidance := "Longer passwords are significantly harder to crack." |}
].
Definition ALL_QUESTIONS : list Question := GDPR_QUESTIONS ++ CYBER_ESSENTIALS_QUESTIONS.

(** ** Submitted answers *)

(** The pydantic model [HealthCheckResponse]. *)
Record HealthCheckResponse := {
  question_id : string;
  answer : bool;
  notes : option string;
}.

(** The pydantic model [HealthCheckSubmit]. *)
Record HealthCheckSubmit := {
  responses : list HealthCheckResponse;
}.

(** One entry of the gap list. *)
Record Gap := {
  gap_question_id : string;
  gap_category : string;
  gap_subcategory : string;
  gap_question : string;
  gap_guidance : string;
  gap_priority : string;
}.

(** ** Scoring loop of [submit_health_check] *)

(** [{r.question_id: r for r in submission.responses}]: a later entry with
    the same key overwrites the earlier one. *)
Definition responses_dict_of (rs : list HealthCheckResponse) : gmap string HealthCheckResponse :=
  foldl (fun d r => <[question_id r := r]> d) ∅ rs.

(** ["high" if weight >= 3 else "medium" if weight >= 2 else "low"] *)
Definition priority_of_weight (weight : Z) : string :=
  if 3 <=? weight then "high" else if 2 <=? weight then "medium" else "low".

Definition make_gap (q : Question) : Gap :=
  {| gap_question_id := q_id q;
     gap_category := q_category q;
     gap_subcategory := q_subcategory q;
     gap_question := q_question q;
     gap_guidance := q_guidance q;
     gap_priority := priority_of_weight (q_weight q) |}.

(** The local variables the loop over the catalog updates. *)
Record Tally := {
  gdpr_score : Z;
  gdpr_max : Z;
  cyber_score : Z;
  cyber_max : Z;
  gaps : list Gap;
}.

Definition tally0 : Tally :=
  {| gdpr_score := 0; gdpr_max := 0; cyber_score := 0; cyber_max := 0; gaps := [] |}.

(** Body of [for q in ALL_QUESTIONS].  A pydantic model instance is always
    truthy, so [response and response.answer] is "an answer is present and
    it is True". *)
Definition score_question (responses_dict : gmap string HealthCheckResponse)
    (t : Tally) (q : Question) : Tally :=
  let response := responses_dict !! q_id q in
  let weight := q_weight q in
  if String.eqb (q_category q) "GDPR" then
    let t := {| gdpr_score := gdpr_score t; gdpr_max := gdpr_max t + weight;
                cyber_score := cyber_score t; cyber_max := cyber_max t;
                gaps := gaps t |} in
    match response with
    | Some r =>
        if answer r then
          {| gdpr_score := gdpr_score t + weight; gdpr_max := gdpr_max t;
             cyber_score := cyber_score t; cyber_max := cyber_max t;
             gaps := gaps t |}
        else
          {| gdpr_score := gdpr_score t; gdpr_max := gdpr_max t;
             cyber_score := cyber_score t; cyber_max := cyber_max t;
             gaps := gaps t ++ [make_gap q] |}
    | None => t
    end
  else
    let t := {| gdpr_score := gdpr_score t; gdpr_max := gdpr_max t;
                cyber_score := cyber_score t; cyber_max := cyber_max t + weight;
                gaps := gaps t |} in
    match response with
    | Some r =>
        if answer r then
          {| gdpr_score := gdpr_score t; gdpr_max := gdpr_max t;
             cyber_score := cyber_score t + weight; cyber_max := cyber_max t;
             gaps := gaps t |}
        else
          {| gdpr_score := gdpr_score t; gdpr_max := gdpr_max t;
             cyber_score := cyber_score t; cyber_max := cyber_max t;
             gaps := gaps t ++ [make_gap q] |}
    | None => t
    end.

Definition score_catalog (catalog : list Question)
    (responses_dict : gmap string HealthCheckResponse) : Tally :=
  foldl (score_question responses_dict) tally0 catalog.

(** [round((score / max) * 100) if max > 0 else 0]; [None] when the
    expression raises. *)
Definition percentage (score max : Z) : option Z :=
  if 0 <? max then
    match Float64.int_truediv score max with
    | Some x => Float64.round (Float64.mul x (Float64.of_int 100))
    | None => None
    end
  else Some 0.

(** The [if]/[elif] chain on [overall_percentage]. *)
Definition risk_level_of (overall_percentage : Z) : string :=
  if 80 <=? overall_percentage then "low"
  else if 60 <=? overall_percentage then "medium"
  else if 40 <=? overall_percentage then "high"
  else "critical".

(** [priority_order.get(x["priority"], 3)] *)
Definition priority_order (p : string) : Z :=
  if String.eqb p "high" then 0
  else if String.eqb p "medium" then 1
  else if String.eqb p "low" then 2
  else 3.

(** [list.sort(key=...)] is a stable sort, so its result is fixed by the
    keys: the elements in ascending key order, equal keys in their original
    order.  It is written here as a stable insertion sort. *)
Fixpoint insert_by_key {A} (key : A -> Z) (x : A) (l : list A) : list A :=
  match l with
  | [] => [x]
  | y :: l' => if key x <=? key y then x :: y :: l' else y :: insert_by_key key x l'
  end.

Definition sort_by_key {A} (key : A -> Z) (l : list A) : list A :=
  foldr (insert_by_key key) [] l.

Definition sort_gaps (gs : list Gap) : list Gap :=
  sort_by_key (fun x => priority_order (gap_priority x)) gs.

(** ** Persistent state and the handler monad *)

(** The pydantic model [User], as resolved by [get_current_user]. *)
Record User := {
  user_id : string;
  email : string;
  name : string;
  company_name : option string;
  business_type : option string;
  industry : option string;
}.

(** A document of the [health_checks] collection. *)
Record HealthCheck := {
  hc_id : string;
  hc_user_id : string;
  hc_responses : list HealthCheckResponse;
  hc_compliance_score : Z;
  hc_gdpr_score : Z;
  hc_cyber_essentials_score : Z;
  hc_risk_level : string;
  hc_gaps : list Gap;
  hc_total_gaps : Z;
}.

(** An entry of [RISK_TEMPLATES]. *)
Record RiskTemplateEntry := {
  t_risk_id : string;
  t_title : string;
  t_description : string;
  t_likelihood : string;
  t_impact : string;
  t_category : string;
  t_mitigation : string;
}.

(** A risk of a stored register: the template's keys, [risk_id]
    overwritten, and the four tracking keys. *)
Record Risk := {
  risk_id : string;
  title : string;
  description : string;
  likelihood : string;
  impact : string;
  category : string;
  mitigation : string;
  status : string;
  owner : option string;
  due_date : option string;
  risk_notes : option string;
}.

(** A document of the [risk_registers] collection, without its
    [created_at] and [updated_at]. *)
Record RiskRegister := {
  rr_id : string;
  rr_user_id : string;
  rr_business_type : string;
  rr_industry : option string;
  risks : list Risk;
  total_risks : Z;
}.

(** A parsed JSON value, as [json.loads] returns it. *)
Inductive Json :=
| JNull
| JBool (b : bool)
| JNumber (n : Z)
| JString (s : string)
| JArray (items : list Json)
| JObject (members : list (string * Json)).

(** A document of the [documents] collection.  [content] is the key
    [content_base64], the base64 text of the uploaded bytes; the key
    [analysis_error] is absent ([None]) until an analysis fails. *)
Record Document := {
  doc_id : string;
  doc_user_id : string;
  filename : string;
  file_type : string;
  file_size : Z;
  content : string;
  analysis_status : string;
  analysis_result : option Json;
  analysis_error : option string;
}.

(** The MongoDB database: each collection in insertion order. *)
Record Database := {
  users : list User;
  health_checks : list HealthCheck;
  documents : list Document;
  risk_registers : list RiskRegister;
}.

(** The database together with the source of [uuid.uuid4()]: the values it
    will return, and how many have been drawn. *)
Record World := {
  db : Database;
  uuid_source : nat -> string;
  uuid_drawn : nat;
}.

(** What a handler can raise: an [HTTPException], or any other Python
    exception, which the framework turns into a 500 response. *)
Inductive Raised :=
| HTTPException (status_code : Z) (detail : string)
| PythonError (kind : string).

Definition Handler (A : Type) : Type := World -> (Raised + A) * World.

#[global] Instance Handler_ret : MRet Handler := fun A a w => (inr a, w).
#[global] Instance Handler_bind : MBind Handler := fun A B k m w =>
  match m w with
  | (inl e, w') => (inl e, w')
  | (inr a, w') => k a w'
  end.

Definition raise {A} (e : Raised) : Handler A := fun w => (inl e, w).

Definition read_db : Handler Database := fun w => (inr (db w), w).

Definition write_db (f : Database -> Database) : Handler unit := fun w =>
  (inr tt, {| db := f (db w); uuid_source := uuid_source w; uuid_drawn := uuid_drawn w |}).

(** [str(uuid.uuid4())] *)
Definition uuid4 : Handler string := fun w =>
  (inr (uuid_source w (uuid_drawn w)),
   {| db := db w; uuid_source := uuid_source w; uuid_drawn := S (uuid_drawn w) |}).

(** A Python expression that either has a value or raises. *)
Definition eval {A} (kind : string) (v : option A) : Handler A :=
  match v with
  | Some a => mret a
  | None => raise (PythonError kind)
  end.

Definition set_health_checks (f : list HealthCheck -> list HealthCheck) (d : Database) : Database :=
  {| users := users d; health_checks := f (health_checks d);
     documents := documents d; risk_registers := risk_registers d |}.

Definition set_documents (f : list Document -> list Document) (d : Database) : Database :=
  {| users := users d; health_checks := health_checks d;
     documents := f (documents d); risk_registers := risk_registers d |}.

Definition set_risk_registers (f : list RiskRegister -> list RiskRegister) (d : Database) : Database :=
  {| users := users d; health_checks := health_checks d;
     documents := documents d; risk_registers := f (risk_registers d) |}.

Definition set_users (f : list User -> list User) (d : Database) : Database :=
  {| users := f (users d); health_checks := health_checks d;
     documents := documents d; risk_registers := risk_registers d |}.

(** [collection.insert_one(doc)] *)
Definition insert_one {A} (doc : A) (coll : list A) : list A := coll ++ [doc].

(** [collection.find_one(filter)]: the first match. *)
Definition find_one {A} (filter : A -> bool) (coll : list A) : option A :=
  List.find filter coll.

(** [collection.delete_many(filter)] *)
Definition delete_many {A} (filter : A -> bool) (coll : list A) : list A :=
  List.filter (fun x => negb (filter x)) coll.

(** [collection.update_one(filter, {"$set": ...})]: the first match is
    changed, nothing happens without one. *)
Fixpoint update_one {A} (filter : A -> bool) (set : A -> A) (coll : list A) : list A :=
  match coll with
  | [] => []
  | x :: coll' => if filter x then set x :: coll' else x :: update_one filter set coll'
  end.

(** [collection.delete_one(filter)]: the remaining documents and
    [deleted_count]. *)
Fixpoint delete_one {A} (filter : A -> bool) (coll : list A) : list A * Z :=
  match coll with
  | [] => ([], 0)
  | x :: coll' =>
      if filter x then (coll', 1)
      else let '(rest, n) := delete_one filter coll' in (x :: rest, n)
  end.

(** ** [POST /health-check/submit] *)

(** The handler, with the catalog the loop runs over as a parameter. *)
Definition submit_health_check_on (catalog : list Question)
    (submission : HealthCheckSubmit) (user : User) : Handler HealthCheck :=
  let responses_dict := responses_dict_of (responses submission) in
  let t := score_catalog catalog responses_dict in
  gdpr_percentage ← eval "round" (percentage (gdpr_score t) (gdpr_max t));
  cyber_percentage ← eval "round" (percentage (cyber_score t) (cyber_max t));
  overall_percentage ←
    eval "round" (percentage (gdpr_score t + cyber_score t) (gdpr_max t + cyber_max t));
  let risk_level := risk_level_of overall_percentage in
  let gaps := sort_gaps (gaps t) in
  id ← uuid4;
  let health_check :=
    {| hc_id := id;
       hc_user_id := user_id user;
       hc_responses := responses submission;
       hc_compliance_score := overall_percentage;
       hc_gdpr_score := gdpr_percentage;
       hc_cyber_essentials_score := cyber_percentage;
       hc_risk_level := risk_level;
       hc_gaps := gaps;
       hc_total_gaps := Z.of_nat (length gaps) |} in
  _ ← write_db (set_health_checks (insert_one health_check));
  mret health_check.

Definition submit_health_check : HealthCheckSubmit -> User -> Handler HealthCheck :=
  submit_health_check_on ALL_QUESTIONS.

(** ** Risk templates *)

Definition template_retail : list RiskTemplateEntry := [
  {| t_risk_id := "retail_1"; t_title := "Customer Payment Data Breach";
     t_description := "Unauthorised access to stored payment card details";
     t_likelihood := "medium"; t_impact := "high"; t_category := "Data Security";
     t_mitigation := "Implement PCI DSS compliance measures, tokenise card data" |};
  {| t_risk_id := "retail_2"; t_title := "E-commerce Platform Vulnerability";
     t_description := "Security vulnerabilities in online shopping systems";
     t_likelihood := "medium"; t_impact := "high"; t_category := "Cyber Security";
     t_mitigation := "Regular security testing, WAF implementation, secure coding practices" |};
  {| t_risk_id := "retail_3"; t_title := "Customer Data Marketing Misuse";
     t_description := "Using customer data for marketing without proper consent";
     t_likelihood := "high"; t_impact := "medium"; t_category := "GDPR Compliance";
     t_mitigation := "Implement consent management platform, review marketing permissions" |};
  {| t_risk_id := "retail_4"; t_title := "Third-Party Delivery Partner Data Sharing";
     t_description := "Inadequate data protection with delivery partners";
     t_likelihood := "medium"; t_impact := "medium"; t_category := "Third Party Risk";
     t_mitigation := "Review contracts, implement data processing agreements" |};
  {| t_risk_id := "retail_5"; t_title := "Point of Sale System Compromise";
     t_description := "Malware infection on POS systems";
     t_likelihood := "medium"; t_impact := "high"; t_category := "Cyber Security";
     t_mitigation := "POS system hardening, network segmentation, regular scanning" |}
].

Definition template_professional_services : list RiskTemplateEntry := [
  {| t_risk_id := "ps_1"; t_title := "Client Confidentiality Breach";
     t_description := "Unauthorised disclosure of sensitive client information";
     t_likelihood := "medium"; t_impact := "high"; t_category := "Data Security";
     t_mitigation := "Access controls, encryption, staff training on confidentiality" |};
  {| t_risk_id := "ps_2"; t_title := "Email Phishing Attack";
     t_description := "Staff falling victim to sophisticated phishing attempts";
     t_likelihood := "high"; t_impact := "high"; t_category := "Cyber Security";
     t_mitigation := "Phishing awareness training, email filtering, MFA enforcement" |};
  {| t_risk_id := "ps_3"; t_title := "Document Retention Non-Compliance";
     t_description := "Retaining client documents beyond legal requirements";
     t_likelihood := "high"; t_impact := "medium"; t_category := "GDPR Compliance";
     t_mitigation := "Implement retention schedules, automated deletion, regular audits" |};
  {| t_risk_id := "ps_4"; t_title := "Remote Working Data Exposure";
     t_description := "Data leakage through insecure remote working practices";
     t_likelihood := "high"; t_impact := "medium"; t_category := "Cyber Security";
     t_mitigation := "VPN usage, device encryption, secure file sharing policies" |};
  {| t_risk_id := "ps_5"; t_title := "Subcontractor Data Handling";
     t_description := "Inadequate data protection by subcontracted parties";
     t_likelihood := "medium"; t_impact := "medium"; t_category := "Third Party Risk";
     t_mitigation := "Due diligence, contractual obligations, periodic audits" |}
].

Definition template_healthcare : list RiskTemplateEntry := [
  {| t_risk_id := "hc_1"; t_title := "Patient Record Breach";
     t_description := "Unauthorised access to sensitive health records";
     t_likelihood := "medium"; t_impact := "high"; t_category := "Data Security";
     t_mitigation := "Role-based access, audit logging, encryption" |};
  {| t_risk_id := "hc_2"; t_title := "Medical Device Vulnerability";
     t_description := "Security flaws in connected medical equipment";
     t_likelihood := "medium"; t_impact := "high"; t_category := "Cyber Security";
     t_mitigation := "Device inventory, network segmentation, patch management" |};
  {| t_risk_id := "hc_3"; t_title := "Special Category Data Mishandling";
     t_description := "Processing health data without appropriate safeguards";
     t_likelihood := "medium"; t_impact := "high"; t_category := "GDPR Compliance";
     t_mitigation := "Article 9 compliance review, DPIA for processing activities" |};
  {| t_risk_id := "hc_4"; t_title := "Ransomware Attack";
     t_description := "Encryption of patient records by malicious actors";
     t_likelihood := "high"; t_impact := "high"; t_category := "Cyber Security";
     t_mitigation := "Offline backups, endpoint protection, incident response plan" |};
  {| t_risk_id := "hc_5"; t_title := "Consent Management Failure";
     t_description := "Processing patient data without valid consent";
     t_likelihood := "medium"; t_impact := "medium"; t_category := "GDPR Compliance";
     t_mitigation := "Consent audit, digital consent capture, staff training" |}
].

Definition template_technology : list RiskTemplateEntry := [
  {| t_risk_id := "tech_1"; t_title := "Source Code Theft";
     t_description := "Unauthorised access to proprietary software code";
     t_likelihood := "medium"; t_impact := "high"; t_category := "Data Security";
     t_mitigation := "Code repository security, access controls, DLP solutions" |};
  {| t_risk_id := "tech_2"; t_title := "Cloud Infrastructure Misconfiguration";
     t_description := "Security gaps in cloud service setup";
     t_likelihood := "high"; t_impact := "high"; t_category := "Cyber Security";
     t_mitigation := "Cloud security posture management, configuration audits" |};
  {| t_risk_id := "tech_3"; t_title := "Customer Data Processing Scope Creep";
     t_description := "Processing customer data beyond agreed purposes";
     t_likelihood := "medium"; t_impact := "medium"; t_category := "GDPR Compliance";
     t_mitigation := "Data mapping, processing registers, privacy by design" |};
  {| t_risk_id := "tech_4"; t_title := "API Security Breach";
     t_description := "Exploitation of API vulnerabilities exposing data";
     t_likelihood := "high"; t_impact := "high"; t_category := "Cyber Security";
     t_mitigation := "API security testing, authentication, rate limiting" |};
  {| t_risk_id := "tech_5"; t_title := "International Data Transfer Issues";
     t_description := "Non-compliant data transfers to overseas development teams";
     t_likelihood := "high"; t_impact := "medium"; t_category := "GDPR Compliance";
     t_mitigation := "SCCs, adequacy decisions, data localisation" |}
].

Definition template_manufacturing : list RiskTemplateEntry := [
  {| t_risk_id := "mfg_1"; t_title := "Industrial Control System Attack";
     t_description := "Cyber attack on operational technology systems";
     t_likelihood := "medium"; t_impact := "high"; t_category := "Cyber Security";
     t_mitigation := "OT/IT segregation, ICS security monitoring" |};
  {| t_risk_id := "mfg_2"; t_title := "Supply Chain Data Breach";
     t_description := "Compromise through supplier systems";
     t_likelihood := "medium"; t_impact := "medium"; t_category := "Third Party Risk";
     t_mitigation := "Supplier security assessments, access restrictions" |};
  {| t_risk_id := "mfg_3"; t_title := "Employee Personal Data Exposure";
     t_description := "HR system vulnerabilities exposing staff data";
     t_likelihood := "medium"; t_impact := "medium"; t_category := "GDPR Compliance";
     t_mitigation := "HR system security review, access controls" |};
  {| t_risk_id := "mfg_4"; t_title := "Legacy System Vulnerabilities";
     t_description := "Unpatched legacy systems creating security gaps";
     t_likelihood := "high"; t_impact := "medium"; t_category := "Cyber Security";
     t_mitigation := "Legacy system audit, upgrade planning, compensating controls" |};
  {| t_risk_id := "mfg_5"; t_title := "CCTV Compliance Issues";
     t_description := "Non-compliant use of workplace surveillance";
     t_likelihood := "medium"; t_impact := "low"; t_category := "GDPR Compliance";
     t_mitigation := "CCTV policy review, signage, retention limits" |}
].

Definition template_general : list RiskTemplateEntry := [
  {| t_risk_id := "gen_1"; t_title := "Ransomware Attack";
     t_description := "Malicious encryption of business data";
     t_likelihood := "high"; t_impact := "high"; t_category := "Cyber Security";
     t_mitigation := "Regular backups, endpoint protection, staff training" |};
  {| t_risk_id := "gen_2"; t_title := "Phishing and Social Engineering";
     t_description := "Staff manipulation to disclose credentials or data";
     t_likelihood := "high"; t_impact := "high"; t_category := "Cyber Security";
     t_mitigation := "Security awareness training, email filtering, MFA" |};
  {| t_risk_id := "gen_3"; t_title := "Data Subject Rights Non-Compliance";
     t_description := "Failure to respond to data subject requests timely";
     t_likelihood := "medium"; t_impact := "medium"; t_category := "GDPR Compliance";
     t_mitigation := "DSR procedures, staff training, request tracking" |};
  {| t_risk_id := "gen_4"; t_title := "Third Party Data Breach";
     t_description := "Data exposure through supplier or partner systems";
     t_likelihood := "medium"; t_impact := "medium"; t_category := "Third Party Risk";
     t_mitigation := "Vendor assessments, contractual obligations, monitoring" |};
  {| t_risk_id := "gen_5"; t_title := "Unencrypted Data Storage";
     t_description := "Personal data stored without encryption";
     t_likelihood := "medium"; t_impact := "medium"; t_category := "Data Security";
     t_mitigation := "Encryption at rest implementation, security audits" |}
].
Definition RISK_TEMPLATES : gmap string (list RiskTemplateEntry) :=
  list_to_map [
    ("retail", template_retail);
    ("professional_services", template_professional_services);
    ("healthcare", template_healthcare);
    ("technology", template_technology);
    ("manufacturing", template_manufacturing);
    ("general", template_general)
  ].

(** ** Risk register endpoints *)

(** The pydantic model [RiskRegisterGenerate]. *)
Record RiskRegisterGenerate := {
  rg_business_type : string;
  rg_industry : option string;
}.

(** The pydantic model [RiskUpdate]: [status] is declared as a plain
    [str]. *)
Record RiskUpdate := {
  ru_status : string;
  ru_notes : option string;
}.

(** [str.lower()] on ASCII text. *)
Definition ascii_lower (c : ascii) : ascii :=
  let n := N_of_ascii c in
  if ((65 <=? n) && (n <=? 90))%N then ascii_of_N (n + 32) else c.

Fixpoint str_lower (s : string) : string :=
  match s with
  | EmptyString => EmptyString
  | String c s' => String (ascii_lower c) (str_lower s')
  end.

(** [str.replace(old, new)] for one-character [old] and [new]. *)
Fixpoint str_replace (old new : ascii) (s : string) : string :=
  match s with
  | EmptyString => EmptyString
  | String c s' => String (if Ascii.eqb c old then new else c) (str_replace old new s')
  end.

(** [data.business_type.lower().replace(" ", "_")] *)
Definition normalize_business_type (business_type : string) : string :=
  str_replace " " "_" (str_lower business_type).

(** [{**risk, "risk_id": ..., "status": "identified", "owner": None,
    "due_date": None, "notes": None}] *)
Definition instantiate_risk (risk : RiskTemplateEntry) (new_id : string) : Risk :=
  {| risk_id := new_id;
     title := t_title risk;
     description := t_description risk;
     likelihood := t_likelihood risk;
     impact := t_impact risk;
     category := t_category risk;
     mitigation := t_mitigation risk;
     status := "identified";
     owner := None;
     due_date := None;
     risk_notes := None |}.

(** [for risk in template_risks: risks.append({...})], one [uuid4] per
    entry, in order. *)
Fixpoint instantiate_risks (template_risks : list RiskTemplateEntry) : Handler (list Risk) :=
  match template_risks with
  | [] => mret []
  | risk :: rest =>
      new_id ← uuid4;
      risks ← instantiate_risks rest;
      mret (instantiate_risk risk new_id :: risks)
  end.

Definition owned_by (user : User) (r : RiskRegister) : bool :=
  String.eqb (rr_user_id r) (user_id user).

Definition is_user (user : User) (u : User) : bool :=
  String.eqb (user_id u) (user_id user).

Definition set_profile (data : RiskRegisterGenerate) (u : User) : User :=
  {| user_id := user_id u; email := email u; name := name u;
     company_name := company_name u;
     business_type := Some (rg_business_type data);
     industry := rg_industry data |}.

(** [POST /risk-register/generate] *)
Definition generate_risk_register (data : RiskRegisterGenerate) (user : User)
    : Handler RiskRegister :=
  let business_type := normalize_business_type (rg_business_type data) in
  general ← eval "KeyError" (RISK_TEMPLATES !! "general");
  let template_risks := default general (RISK_TEMPLATES !! business_type) in
  risks ← instantiate_risks template_risks;
  id ← uuid4;
  let risk_register :=
    {| rr_id := id;
       rr_user_id := user_id user;
       rr_business_type := rg_business_type data;
       rr_industry := rg_industry data;
       risks := risks;
       total_risks := Z.of_nat (length risks) |} in
  _ ← write_db (set_risk_registers (delete_many (owned_by user)));
  _ ← write_db (set_risk_registers (insert_one risk_register));
  _ ← write_db (set_users (update_one (is_user user) (set_profile data)));
  mret risk_register.

(** [GET /risk-register]: the register or [None]. *)
Definition get_risk_register (user : User) : Handler (option RiskRegister) :=
  d ← read_db;
  mret (find_one (owned_by user) (risk_registers d)).

(** Truthiness of an [Optional[str]]: [None] and the empty string are
    falsy. *)
Definition truthy (s : option string) : bool :=
  match s with
  | None => false
  | Some EmptyString => false
  | Some _ => true
  end.

(** [risk["status"] = update.status] and, [if update.notes],
    [risk["notes"] = update.notes]. *)
Definition apply_update (update : RiskUpdate) (risk : Risk) : Risk :=
  {| risk_id := risk_id risk;
     title := title risk;
     description := description risk;
     likelihood := likelihood risk;
     impact := impact risk;
     category := category risk;
     mitigation := mitigation risk;
     status := ru_status update;
     owner := owner risk;
     due_date := due_date risk;
     risk_notes := if truthy (ru_notes update) then ru_notes update else risk_notes risk |}.

(** The loop of [update_risk]: the first risk with the given id is
    changed, then [break]; the flag is [updated]. *)
Fixpoint update_first_risk (id : string) (update : RiskUpdate) (rs : list Risk)
    : list Risk * bool :=
  match rs with
  | [] => ([], false)
  | risk :: rest =>
      if String.eqb (risk_id risk) id then (apply_update update risk :: rest, true)
      else
        let '(rest', updated) := update_first_risk id update rest in
        (risk :: rest', updated)
  end.

Definition set_risks (rs : list Risk) (r : RiskRegister) : RiskRegister :=
  {| rr_id := rr_id r; rr_user_id := rr_user_id r;
     rr_business_type := rr_business_type r; rr_industry := rr_industry r;
     risks := rs; total_risks := total_risks r |}.

(** The reply of [update_risk]. *)
Record RiskUpdated := {
  message : string;
  updated_risk_id : string;
  updated_status : string;
}.

(** [PUT /risk-register/{risk_id}].  The [$set] of the source also writes
    [updated_at], which the stored register of the model does not have;
    what is modelled of the write is the new list of risks. *)
Definition update_risk (id : string) (update : RiskUpdate) (user : User)
    : Handler RiskUpdated :=
  d ← read_db;
  match find_one (owned_by user) (risk_registers d) with
  | None => raise (HTTPException 404 "Risk register not found")
  | Some risk_register =>
      let '(risks', updated) := update_first_risk id update (risks risk_register) in
      if negb updated then raise (HTTPException 404 "Risk not found")
      else
        _ ← write_db (set_risk_registers (update_one (owned_by user) (set_risks risks')));
        mret {| message := "Risk updated successfully";
                updated_risk_id := id;
                updated_status := ru_status update |}
  end.

(** ** Document endpoints *)

(** The uploaded file, as the handler reads it: [uf_content] is the
    [bytes] that [file.read()] returns. *)
Record UploadFile := {
  uf_filename : string;
  uf_content_type : string;
  uf_content : string;
}.

Definition allowed_types : list string := [
  "application/pdf"; "text/plain"; "application/msword";
  "application/vnd.openxmlformats-officedocument.wordprocessingml.document"
].

(** [base64.b64encode(content).decode("utf-8")]: RFC 4648 base64 with the
    standard alphabet and [=] padding.  Three bytes give four characters;
    a last group of one or two bytes is padded.  The result is ASCII, so
    decoding it as UTF-8 gives the same characters. *)
Definition b64_alphabet : string :=
  "ABCDEFGHIJKLMNOPQRSTUVWXYZabcdefghijklmnopqrstuvwxyz0123456789+/".

Definition b64_char (n : N) : ascii :=
  match String.get (N.to_nat n) b64_alphabet with
  | Some c => c
  | None => "="%char
  end.

Fixpoint b64encode_bytes (bs : list N) : list ascii :=
  match bs with
  | [] => []
  | [a] =>
      [b64_char (a / 4); b64_char ((a mod 4) * 16); "="%char; "="%char]
  | [a; b] =>
      [b64_char (a / 4); b64_char ((a mod 4) * 16 + b / 16);
       b64_char ((b mod 16) * 4); "="%char]
  | a :: b :: c :: rest =>
      b64_char (a / 4) :: b64_char ((a mod 4) * 16 + b / 16)
      :: b64_char ((b mod 16) * 4 + c / 64) :: b64_char (c mod 64)
      :: b64encode_bytes rest
  end%N.

Definition b64encode (content : string) : string :=
  string_of_list_ascii (b64encode_bytes (map N_of_ascii (list_ascii_of_string content))).

(** [POST /documents/upload]: the document stores the base64 text of the
    uploaded bytes and the number of those bytes. *)
Definition upload_document (file : UploadFile) (user : User) : Handler Document :=
  if negb (existsb (String.eqb (uf_content_type file)) allowed_types) then
    raise (HTTPException 400 "Invalid file type. Please upload PDF, TXT, DOC, or DOCX files.")
  else
    id ← uuid4;
    let document :=
      {| doc_id := id;
         doc_user_id := user_id user;
         filename := uf_filename file;
         file_type := uf_content_type file;
         file_size := Z.of_nat (String.length (uf_content file));
         content := b64encode (uf_content file);
         analysis_status := "pending";
         analysis_result := None;
         analysis_error := None |} in
    _ ← write_db (set_documents (insert_one document));
    mret document.

Definition has_id (document_id : string) (x : Document) : bool :=
  String.eqb (doc_id x) document_id.

Definition has_id_and_owner (document_id : string) (user : User) (x : Document) : bool :=
  String.eqb (doc_id x) document_id && String.eqb (doc_user_id x) (user_id user).

Definition set_completed (analysis_data : Json) (x : Document) : Document :=
  {| doc_id := doc_id x; doc_user_id := doc_user_id x; filename := filename x;
     file_type := file_type x; file_size := file_size x; content := content x;
     analysis_status := "completed";
     analysis_result := Some analysis_data;
     analysis_error := analysis_error x |}.

Definition set_failed (e : string) (x : Document) : Document :=
  {| doc_id := doc_id x; doc_user_id := doc_user_id x; filename := filename x;
     file_type := file_type x; file_size := file_size x; content := content x;
     analysis_status := "failed";
     analysis_result := analysis_result x;
     analysis_error := Some e |}.

(** The reply of [analyze_document]. *)
Record Analysis := {
  an_document_id : string;
  an_filename : string;
  an_analysis : Json;
}.

Section Analyze.

(** [json.loads]: the parsed value, or the message of the exception it
    raises. *)
Variable json_loads : string -> string + Json.

(** The body of the [try] block up to the database write:
    [completion] is what the call of the external analyzer and the read
    of [response.choices[0].message.content] produce, the message of the
    exception raised ([inl]) or the reply text ([inr]). *)
Definition analysis_attempt (completion : string + string) : string + Json :=
  match completion with
  | inl e => inl e
  | inr analysis_result => json_loads analysis_result
  end.

(** [POST /documents/{document_id}/analyze].  The prompt is built from
    the stored content and only reaches the external analyzer, whose
    answer is the argument [completion]. *)
Definition analyze_document (completion : string + string)
    (document_id : string) (user : User) : Handler Analysis :=
  d ← read_db;
  match find_one (has_id_and_owner document_id user) (documents d) with
  | None => raise (HTTPException 404 "Document not found")
  | Some document =>
      match analysis_attempt completion with
      | inr analysis_data =>
          _ ← write_db (set_documents
                 (update_one (has_id document_id) (set_completed analysis_data)));
          mret {| an_document_id := document_id;
                  an_filename := filename document;
                  an_analysis := analysis_data |}
      | inl e =>
          _ ← write_db (set_documents (update_one (has_id document_id) (set_failed e)));
          raise (HTTPException 500 ("Analysis failed: " ++ e))
      end
  end.

End Analyze.

(** [DELETE /documents/{document_id}] *)
Definition delete_document (document_id : string) (user : User) : Handler string :=
  d ← read_db;
  let '(rest, deleted_count) := delete_one (has_id_and_owner document_id user) (documents d) in
  _ ← write_db (set_documents (fun _ => rest));
  if deleted_count =? 0 then raise (HTTPException 404 "Document not found")
  else mret "Document deleted successfully".

(** ** Requests *)

(** The requests that write to the database, and the state they leave. *)
Inductive Request :=
| SubmitHealthCheck (submission : HealthCheckSubmit) (user : User)
| UploadDocument (file : UploadFile) (user : User)
| AnalyzeDocument (completion : string + string) (document_id : string) (user : User)
| DeleteDocument (document_id : string) (user : User)
| GenerateRiskRegister (data : RiskRegisterGenerate) (user : User)
| UpdateRisk (id : string) (update : RiskUpdate) (user : User).

Definition serve (json_loads : string -> string + Json) (r : Request) (w : World) : World :=
  match r with
  | SubmitHealthCheck submission user => snd (submit_health_check submission user w)
  | UploadDocument file user => snd (upload_document file user w)
  | AnalyzeDocument completion document_id user =>
      snd (analyze_document json_loads completion document_id user w)
  | DeleteDocument document_id user => snd (delete_document document_id user w)
  | GenerateRiskRegister data user => snd (generate_risk_register data user w)
  | UpdateRisk id update user => snd (update_risk id update user w)
  end.

(** The state after a sequence of requests, served one after the other. *)
Definition serve_all (json_loads : string -> string + Json) (rs : list Request) (w : World) : World :=
  foldl (fun w r => serve json_loads r w) w rs.

Definition empty_db : Database :=
  {| users := []; health_checks := []; documents := []; risk_registers := [] |}.

(** The registers of a subject. *)
Definition registers_of (user : User) (w : World) : list RiskRegister :=
  List.filter (owned_by user) (risk_registers (db w)).

(** ** Vocabulary of the statements *)

(** The last answer of a submission that bears a given question id. *)
Definition last_answer (k : string) (rs : list HealthCheckResponse) : option HealthCheckResponse :=
  last (List.filter (fun r => String.eqb (question_id r) k) rs).

(** Question [q] is answered, and its last answer is [b]. *)
Definition answered_as (b : bool) (rs : list HealthCheckResponse) (q : Question) : bool :=
  match last_answer (q_id q) rs with
  | Some r => Bool.eqb (answer r) b
  | None => false
  end.

(** No answer of the submission bears the id of [q]. *)
Definition unanswered (rs : list HealthCheckResponse) (q : Question) : Prop :=
  Forall (fun r => question_id r ≠ q_id q) rs.

Definition is_gdpr (q : Question) : bool := String.eqb (q_category q) "GDPR".

Definition sum_weights (qs : list Question) : Z :=
  foldr (fun q s => q_weight q + s) 0 qs.

(** The tally after one more question that adds to its category's maximum
    only. *)
Definition add_to_max (q : Question) (t : Tally) : Tally :=
  if is_gdpr q then
    {| gdpr_score := gdpr_score t; gdpr_max := gdpr_max t + q_weight q;
       cyber_score := cyber_score t; cyber_max := cyber_max t; gaps := gaps t |}
  else
    {| gdpr_score := gdpr_score t; gdpr_max := gdpr_max t;
       cyber_score := cyber_score t; cyber_max := cyber_max t + q_weight q;
       gaps := gaps t |}.

(** Two assessments that agree on everything computed from the answers. *)
Definition same_scoring (a b : HealthCheck) : Prop :=
  hc_compliance_score a = hc_compliance_score b ∧
  hc_gdpr_score a = hc_gdpr_score b ∧
  hc_cyber_essentials_score a = hc_cyber_essentials_score b ∧
  hc_risk_level a = hc_risk_level b ∧
  hc_gaps a = hc_gaps b ∧
  hc_total_gaps a = hc_total_gaps b.

(** The gaps of the catalog questions answered false whose priority is [p],
    in catalog order: the GDPR questions as declared, then the Cyber
    Essentials questions as declared. *)
Definition failed_with (p : string) (rs : list HealthCheckResponse) : list Gap :=
  map make_gap
    (List.filter
       (fun q => answered_as false rs q && String.eqb (priority_of_weight (q_weight q)) p)
       (GDPR_QUESTIONS ++ CYBER_ESSENTIALS_QUESTIONS)).

(** The number of gaps that bear the id of question [q]. *)
Definition gaps_for (q : Question) (gs : list Gap) : nat :=
  length (List.filter (fun g => String.eqb (gap_question_id g) (q_id q)) gs).

(** The catalog of the worked example of the specification. *)
Definition example_catalog : list Question :=
  List.filter (fun q => existsb (String.eqb (q_id q)) ["gdpr_1"; "gdpr_2"; "ce_1"]) ALL_QUESTIONS.

Definition example_submission : HealthCheckSubmit :=
  {| responses := [
       {| question_id := "gdpr_1"; answer := true; notes := None |};
       {| question_id := "gdpr_2"; answer := false; notes := None |};
       {| question_id := "ce_1"; answer := true; notes := None |}
     ] |}.

Definition example_user : User :=
  {| user_id := "user_1a2b3c4d5e6f"; email := "owner@example.org"; name := "Owner";
     company_name := None; business_type := None; industry := None |}.

Definition example_world : World :=
  {| db := empty_db;
     uuid_source := fun n => String.append "uuid-" (String.concat EmptyString (replicate n "i"));
     uuid_drawn := 0 |}.

(** The risks instantiated from template entries when [uuid4] returns
    [src n], [src (n + 1)], ... *)
Fixpoint instantiated (ts : list RiskTemplateEntry) (src : nat -> string) (n : nat) : list Risk :=
  match ts with
  | [] => []
  | t :: ts' => instantiate_risk t (src n) :: instantiated ts' src (S n)
  end.

(** Risk [r] carries the fields of template entry [t] and the initial
    tracking fields. *)
Definition copied_from (t : RiskTemplateEntry) (r : Risk) : Prop :=
  title r = t_title t ∧ description r = t_description t ∧
  likelihood r = t_likelihood t ∧ impact r = t_impact t ∧
  category r = t_category t ∧ mitigation r = t_mitigation t ∧
  status r = "identified" ∧ owner r = None ∧ due_date r = None ∧ risk_notes r = None.

(** Two risks that differ in their [risk_id] at most. *)
Definition same_but_id (r r' : Risk) : Prop :=
  title r = title r' ∧ description r = description r' ∧
  likelihood r = likelihood r' ∧ impact r = impact r' ∧
  category r = category r' ∧ mitigation r = mitigation r' ∧
  status r = status r' ∧ owner r = owner r' ∧ due_date r = due_date r' ∧
  risk_notes r = risk_notes r'.

(** Every subject has at most one register. *)
Definition at_most_one_register (w : World) : Prop :=
  ∀ user, (length (registers_of user w) <= 1)%nat.

(** The four values of a risk's status. *)
Definition status_values : list string := ["identified"; "mitigating"; "resolved"; "accepted"].


Definition initial_world (src : nat -> string) : World :=
  {| db := empty_db; uuid_source := src; uuid_drawn := 0 |}.

(** ** Further vocabulary: what the handlers compute *)

(** Every score from 0 to [max] has a percentage, and it lies between 0
    and 100. *)
Definition percentages_in_range (max : Z) : bool :=
  forallb (fun s => match percentage s max with
                    | Some p => (0 <=? p) && (p <=? 100)
                    | None => false
                    end) (seqZ 0 (max + 1)).

(** The record [submit_health_check] builds from the three percentages. *)
Definition assessment_of (cat : list Question) (rs : list HealthCheckResponse)
    (user : User) (id : string) (g c o : Z) : HealthCheck :=
  {| hc_id := id;
     hc_user_id := user_id user;
     hc_responses := rs;
     hc_compliance_score := o;
     hc_gdpr_score := g;
     hc_cyber_essentials_score := c;
     hc_risk_level := risk_level_of o;
     hc_gaps := sort_gaps (map make_gap (List.filter (answered_as false rs) cat));
     hc_total_gaps :=
       Z.of_nat (length (sort_gaps (map make_gap (List.filter (answered_as false rs) cat)))) |}.

(** The weights of the questions of a category whose last answer is true. *)
Definition achieved (p : Question → bool) (cat : list Question)
    (rs : list HealthCheckResponse) : Z :=
  sum_weights (List.filter (fun q => p q && answered_as true rs q) cat).

(** The weights of all the questions of a category, answered or not. *)
Definition maximum (p : Question → bool) (cat : list Question) : Z :=
  sum_weights (List.filter p cat).

(** The [else] branch of the loop: every category that is not GDPR. *)
Definition is_cyber (q : Question) : bool := negb (is_gdpr q).

Definition any_category (q : Question) : bool := true.

(** The elements with key [k], in the order of the list. *)
Definition bucket {A} (key : A → Z) (k : Z) (l : list A) : list A :=
  List.filter (fun x => key x =? k) l.

(** The template [generate_risk_register] instantiates. *)
Definition template_for (business_type : string) : list RiskTemplateEntry :=
  default template_general (RISK_TEMPLATES !! normalize_business_type business_type).

(** The register it builds in world [w]. *)
Definition register_for (data : RiskRegisterGenerate) (user : User) (w : World) : RiskRegister :=
  let ts := template_for (rg_business_type data) in
  {| rr_id := uuid_source w (uuid_drawn w + length ts)%nat;
     rr_user_id := user_id user;
     rr_business_type := rg_business_type data;
     rr_industry := rg_industry data;
     risks := instantiated ts (uuid_source w) (uuid_drawn w);
     total_risks := Z.of_nat (length ts) |}.

(** A register to try the handlers on: the one generated for "Retail" in
    the example world.  Its risks have the ids "uuid-", "uuid-i",
    "uuid-ii", ... *)
Definition retail_world : World :=
  snd (generate_risk_register {| rg_business_type := "Retail"; rg_industry := None |}
         example_user example_world).

(** A subject without a register. *)
Definition stranger : User :=
  {| user_id := "user_000000000000"; email := "other@example.org"; name := "Other";
     company_name := None; business_type := None; industry := None |}.

#[global] Instance RiskTemplateEntry_inhabited : Inhabited RiskTemplateEntry :=
  populate {| t_risk_id := EmptyString; t_title := EmptyString;
              t_description := EmptyString; t_likelihood := EmptyString;
              t_impact := EmptyString; t_category := EmptyString;
              t_mitigation := EmptyString |}.

Definition plan_agreed : RiskUpdate :=
  {| ru_status := "mitigating"; ru_notes := Some "Plan agreed" |}.

(** An update whose status is none of the four values. *)
Definition any_status : RiskUpdate := {| ru_status := "banana"; ru_notes := None |}.

(** A stand-in for [json.loads] that accepts the empty object only. *)
Definition json_loads_stub (s : string) : string + Json :=
  if String.eqb s "{}" then inr (JObject [])
  else inl "Expecting value: line 1 column 1 (char 0)".

Definition policy_file : UploadFile :=
  {| uf_filename := "policy.txt"; uf_content_type := "text/plain";
     uf_content := "We keep personal data safe." |}.

(** The example world after one upload; the document gets the id "uuid-". *)
Definition uploaded_world : World := snd (upload_document policy_file example_user example_world).

Definition uploaded_document : Document :=
  {| doc_id := "uuid-"; doc_user_id := user_id example_user;
     filename := "policy.txt"; file_type := "text/plain";
     file_size := Z.of_nat (String.length (uf_content policy_file));
     content := "V2Uga2VlcCBwZXJzb25hbCBkYXRhIHNhZmUu";
     analysis_status := "pending"; analysis_result := None; analysis_error := None |}.

#[global] Instance Question_inhabited : Inhabited Question :=
  populate {| q_id := EmptyString; q_category := EmptyString; q_subcategory := EmptyString;
              q_question := EmptyString; q_weight := 0; q_guidance := EmptyString |}.

(** A partial submission with an answer to a question that is not in the
    catalog. *)
Definition partial_answers : list HealthCheckResponse := [
  {| question_id := "gdpr_1"; answer := true; notes := None |};
  {| question_id := "legacy_7"; answer := false; notes := Some "from an older form" |};
  {| question_id := "ce_1"; answer := false; notes := None |}
].

(** A submission that answers gdpr_1 twice. *)
Definition repeated_answers : list HealthCheckResponse := [
  {| question_id := "gdpr_1"; answer := false; notes := None |};
  {| question_id := "gdpr_2"; answer := true; notes := None |};
  {| question_id := "gdpr_1"; answer := true; notes := Some "corrected" |}
].

(** ** More vocabulary: the scoring engine *)

(** From each score below [max] to the next one the percentage does not
    decrease, and every score up to [max] has a percentage. *)
Definition percentages_monotone (max : Z) : bool :=
  forallb (fun s =>
    match percentage s max, percentage (s + 1) max with
    | Some p, Some p' => p <=? p'
    | _, _ => false
    end) (seqZ 0 max)
  && match percentage max max with Some _ => true | None => false end.

(** An answer without its note. *)
Definition strip_notes (r : HealthCheckResponse) : HealthCheckResponse :=
  {| question_id := question_id r; answer := answer r; notes := None |}.

(** The submission that answers every catalog question with [b]. *)
Definition answer_all (b : bool) : list HealthCheckResponse :=
  map (fun q => {| question_id := q_id q; answer := b; notes := None |}) ALL_QUESTIONS.

(** ** More vocabulary: the risk register *)

(** What [normalize_business_type] does to one character. *)
Definition normalize_char (c : ascii) : ascii :=
  if Ascii.eqb (ascii_lower c) " " then "_"%char else ascii_lower c.

(** All 256 characters. *)
Definition all_ascii : list ascii := map ascii_of_nat (seq 0 256).

(** An upper-case ASCII letter: code 65 ([A]) to 90 ([Z]). *)
Definition is_upper_letter (c : ascii) : bool :=
  ((65 <=? N_of_ascii c) && (N_of_ascii c <=? 90))%N.

Definition is_separator (c : ascii) : bool :=
  Ascii.eqb c " " || Ascii.eqb c "_".

(** Two characters that differ at most in letter case (an upper-case
    letter and the character 32 codes further on, its lower-case form) or
    as space and underscore. *)
Definition same_letter (c c' : ascii) : bool :=
  Ascii.eqb c c'
  || (is_upper_letter c && (N_of_ascii c' =? N_of_ascii c + 32)%N)
  || (is_upper_letter c' && (N_of_ascii c =? N_of_ascii c' + 32)%N)
  || (is_separator c && is_separator c').

(** Two texts of the same length that are, character by character, the
    same up to letter case and space versus underscore. *)
Definition same_business_type (s s' : string) : Prop :=
  Forall2 (fun c c' => same_letter c c' = true)
    (list_ascii_of_string s) (list_ascii_of_string s').

(** Text of ASCII characters only: every code is below 128. *)
Definition is_ascii_text (s : string) : Prop :=
  Forall (fun c => (N_of_ascii c < 128)%N) (list_ascii_of_string s).

(** A world with one stored user who has a profile. *)
Definition profiled_user : User :=
  {| user_id := "user_1a2b3c4d5e6f"; email := "owner@example.org"; name := "Owner";
     company_name := Some "Corner Shop Ltd"; business_type := Some "retail";
     industry := Some "Groceries" |}.

Definition profiled_world : World :=
  {| db := {| users := [profiled_user]; health_checks := []; documents := [];
              risk_registers := [] |};
     uuid_source := uuid_source example_world;
     uuid_drawn := 0 |}.

(** Two risks agree on everything but the status and the notes, and on
    those too when the id is not [id]. *)
Definition risk_touched_only (id : string) (x x' : Risk) : Prop :=
  risk_id x' = risk_id x ∧ title x' = title x ∧ description x' = description x ∧
  likelihood x' = likelihood x ∧ impact x' = impact x ∧ category x' = category x ∧
  mitigation x' = mitigation x ∧ owner x' = owner x ∧ due_date x' = due_date x ∧
  (risk_id x ≠ id → x' = x).

(** Two registers agree on the id, the subject, the business type, the
    industry and the number of risks, their risks agree one by one as
    above, and a register of another subject than [user] is the same
    document.  (The [updated_at] of a register, which [update_risk]
    rewrites, is not among the modelled fields.) *)
Definition register_touched_only (user : User) (id : string) (r r' : RiskRegister) : Prop :=
  rr_id r' = rr_id r ∧ rr_user_id r' = rr_user_id r ∧
  rr_business_type r' = rr_business_type r ∧ rr_industry r' = rr_industry r ∧
  total_risks r' = total_risks r ∧
  Forall2 (risk_touched_only id) (risks r) (risks r') ∧
  (rr_user_id r ≠ user_id user → r' = r).

(** ** More of the document endpoints *)

(** A stored document without its content: what the queries with the
    projection [{"content_base64": 0}] return. *)
Record DocumentView := {
  dv_id : string;
  dv_user_id : string;
  dv_filename : string;
  dv_file_type : string;
  dv_file_size : Z;
  dv_analysis_status : string;
  dv_analysis_result : option Json;
  dv_analysis_error : option string;
}.

Definition view_of (x : Document) : DocumentView :=
  {| dv_id := doc_id x; dv_user_id := doc_user_id x; dv_filename := filename x;
     dv_file_type := file_type x; dv_file_size := file_size x;
     dv_analysis_status := analysis_status x;
     dv_analysis_result := analysis_result x;
     dv_analysis_error := analysis_error x |}.

(** [GET /documents/{document_id}] *)
Definition get_document (document_id : string) (user : User) : Handler DocumentView :=
  d ← read_db;
  match find_one (has_id_and_owner document_id user) (documents d) with
  | None => raise (HTTPException 404 "Document not found")
  | Some document => mret (view_of document)
  end.

(** Two documents that agree on everything an analysis does not write,
    and on everything when the id is not [document_id]. *)
Definition analysis_touched_only (document_id : string) (x x' : Document) : Prop :=
  doc_id x' = doc_id x ∧ doc_user_id x' = doc_user_id x ∧ filename x' = filename x ∧
  file_type x' = file_type x ∧ file_size x' = file_size x ∧ content x' = content x ∧
  (doc_id x ≠ document_id → x' = x).

(** ** [GET /dashboard] *)

(** An entry of [priority_actions]; a key that an entry does not have is
    [None]. *)
Record PriorityAction := {
  pa_type : string;
  pa_category : string;
  pa_subcategory : option string;
  pa_description : string;
  pa_guidance : option string;
  pa_document_id : option string;
  pa_priority : string;
}.

(** The reply of [get_dashboard], without the user and the time of the
    last assessment. *)
Record Dashboard := {
  d_compliance_score : option Z;
  d_gdpr_score : option Z;
  d_cyber_essentials_score : option Z;
  d_risk_level : option string;
  d_risk_stats : gmap string Z;
  d_total_documents : Z;
  d_analyzed_documents : Z;
  d_priority_actions : list PriorityAction;
  d_recent_documents : list DocumentView;
}.

Definition initial_risk_stats : gmap string Z :=
  list_to_map [("identified", 0); ("mitigating", 0); ("resolved", 0); ("accepted", 0);
               ("total", 0)].

(** The body of [for risk in risk_register["risks"]].  The key "total" is
    in the dict from the start, so reading it never fails. *)
Definition count_risk (risk_stats : gmap string Z) (risk : Risk) : gmap string Z :=
  let status := status risk in
  let risk_stats := <[status := default 0 (risk_stats !! status) + 1]> risk_stats in
  <["total" := default 0 (risk_stats !! "total") + 1]> risk_stats.

Definition risk_stats_of (risk_register : option RiskRegister) : gmap string Z :=
  match risk_register with
  | Some r =>
      match risks r with
      | [] => initial_risk_stats
      | rs => foldl count_risk initial_risk_stats rs
      end
  | None => initial_risk_stats
  end.

Definition gap_action (gap : Gap) : PriorityAction :=
  {| pa_type := "compliance_gap";
     pa_category := gap_category gap;
     pa_subcategory := Some (gap_subcategory gap);
     pa_description := gap_question gap;
     pa_guidance := Some (gap_guidance gap);
     pa_document_id := None;
     pa_priority := gap_priority gap |}.

Definition pending_action (doc : DocumentView) : PriorityAction :=
  {| pa_type := "pending_analysis";
     pa_category := "Documents";
     pa_subcategory := None;
     pa_description := String.append "Analyze document: " (dv_filename doc);
     pa_guidance := None;
     pa_document_id := Some (dv_id doc);
     pa_priority := "medium" |}.

Definition has_status (s : string) (doc : DocumentView) : bool :=
  String.eqb (dv_analysis_status doc) s.

(** [get_dashboard] after its three queries: [latest_health_check] is the
    subject's most recent assessment, [risk_register] the subject's
    register and [documents] the subject's ten most recent documents. *)
Definition dashboard_of (latest_health_check : option HealthCheck)
    (risk_register : option RiskRegister) (documents : list DocumentView) : Dashboard :=
  let risk_stats := risk_stats_of risk_register in
  let gap_actions :=
    match latest_health_check with
    | Some hc => map gap_action (take 5 (hc_gaps hc))
    | None => []
    end in
  let pending_docs := List.filter (has_status "pending") documents in
  let priority_actions := gap_actions ++ map pending_action (take 3 pending_docs) in
  {| d_compliance_score := hc_compliance_score <$> latest_health_check;
     d_gdpr_score := hc_gdpr_score <$> latest_health_check;
     d_cyber_essentials_score := hc_cyber_essentials_score <$> latest_health_check;
     d_risk_level := hc_risk_level <$> latest_health_check;
     d_risk_stats := risk_stats;
     d_total_documents := Z.of_nat (length documents);
     d_analyzed_documents := Z.of_nat (length (List.filter (has_status "completed") documents));
     d_priority_actions := priority_actions;
     d_recent_documents := take 5 documents |}.

(** The number of risks with a given status. *)
Definition count_status (s : string) (rs : list Risk) : Z :=
  Z.of_nat (length (List.filter (fun r => String.eqb (status r) s) rs)).

Definition stat (s : string) (stats : gmap string Z) : Z := default 0 (stats !! s).

(** ** Sessions and user profiles *)

(** A document of the [users] collection with all its keys. *)
Record UserDoc := {
  ud_user_id : string;
  ud_email : string;
  ud_name : string;
  ud_picture : option string;
  ud_company_name : option string;
  ud_business_type : option string;
  ud_employee_count : option Z;
  ud_industry : option string;
}.

(** A document of the [user_sessions] collection; times are in seconds. *)
Record Session := {
  s_user_id : string;
  s_session_token : string;
  s_expires_at : Z;
}.

(** The two collections the authentication endpoints work on. *)
Record Accounts := {
  acc_users : list UserDoc;
  acc_sessions : list Session;
}.

(** What [get_current_user] and [logout] read of the request. *)
Record HttpRequest := {
  cookie_session_token : option string;
  header_authorization : option string;
}.

Definition has_token (token : string) (s : Session) : bool :=
  String.eqb (s_session_token s) token.

Definition has_user_id (id : string) (u : UserDoc) : bool :=
  String.eqb (ud_user_id u) id.

(** The token [get_current_user] settles on: the cookie when it is a
    non-empty string, else what follows ["Bearer "] in the Authorization
    header. *)
Definition session_token_of (request : HttpRequest) : option string :=
  let session_token := cookie_session_token request in
  if truthy session_token then session_token
  else
    match header_authorization request with
    | Some auth_header =>
        if truthy (Some auth_header) && String.prefix "Bearer " auth_header
        then Some (substring 7 (String.length auth_header - 7) auth_header)
        else session_token
    | None => session_token
    end.

(** [get_current_user] at time [now]. *)
Definition get_current_user (request : HttpRequest) (now : Z) (a : Accounts)
    : Raised + UserDoc :=
  match session_token_of request with
  | Some session_token =>
      if negb (truthy (Some session_token)) then inl (HTTPException 401 "Not authenticated")
      else
        match find_one (has_token session_token) (acc_sessions a) with
        | None => inl (HTTPException 401 "Invalid session")
        | Some session_doc =>
            if s_expires_at session_doc <? now then inl (HTTPException 401 "Session expired")
            else
              match find_one (has_user_id (s_user_id session_doc)) (acc_users a) with
              | None => inl (HTTPException 401 "User not found")
              | Some user_doc => inr user_doc
              end
        end
  | None => inl (HTTPException 401 "Not authenticated")
  end.

(** The session data the identity service returns. *)
Record AuthData := {
  ad_email : string;
  ad_name : string;
  ad_picture : option string;
  ad_session_token : option string;
}.

(** The outcome of the request to the identity service: a transport
    error, or a response with its status code and body. *)
Inductive AuthReply :=
| AuthUnreachable
| AuthAnswered (status_code : Z) (auth_data : AuthData).

(** The two collections with the source of [uuid.uuid4().hex]. *)
Record AuthWorld := {
  accounts : Accounts;
  hex_source : nat -> string;
  hex_drawn : nat;
}.

(** The reply of [create_session] and the cookie it sets. *)
Record SessionCreated := {
  sc_message : string;
  sc_user : option UserDoc;
  sc_cookie : string;
}.

Definition has_email (e : string) (u : UserDoc) : bool := String.eqb (ud_email u) e.

Definition session_of (id : string) (s : Session) : bool := String.eqb (s_user_id s) id.

Definition set_name_picture (auth_data : AuthData) (u : UserDoc) : UserDoc :=
  {| ud_user_id := ud_user_id u; ud_email := ud_email u;
     ud_name := ad_name auth_data; ud_picture := ad_picture auth_data;
     ud_company_name := ud_company_name u; ud_business_type := ud_business_type u;
     ud_employee_count := ud_employee_count u; ud_industry := ud_industry u |}.

Definition seven_days : Z := 7 * 24 * 60 * 60.

(** [POST /auth/session] at time [now], given the identity service's
    reply. *)
Definition create_session (reply : AuthReply) (now : Z) (w : AuthWorld)
    : (Raised + SessionCreated) * AuthWorld :=
  match reply with
  | AuthUnreachable => (inl (HTTPException 500 "Authentication service unavailable"), w)
  | AuthAnswered status_code auth_data =>
      if negb (status_code =? 200) then (inl (HTTPException 401 "Invalid session ID"), w)
      else
        let users0 := acc_users (accounts w) in
        let '(user_id, users1, drawn1) :=
          match find_one (has_email (ad_email auth_data)) users0 with
          | Some existing_user =>
              (ud_user_id existing_user,
               update_one (has_email (ad_email auth_data)) (set_name_picture auth_data) users0,
               hex_drawn w)
          | None =>
              let user_id :=
                String.append "user_" (substring 0 12 (hex_source w (hex_drawn w))) in
              (user_id,
               insert_one
                 {| ud_user_id := user_id; ud_email := ad_email auth_data;
                    ud_name := ad_name auth_data; ud_picture := ad_picture auth_data;
                    ud_company_name := None; ud_business_type := None;
                    ud_employee_count := None; ud_industry := None |} users0,
               S (hex_drawn w))
          end in
        let session_token :=
          default (String.append "session_" (hex_source w drawn1))
            (ad_session_token auth_data) in
        let expires_at := now + seven_days in
        let sessions1 := delete_many (session_of user_id) (acc_sessions (accounts w)) in
        let sessions2 :=
          insert_one {| s_user_id := user_id; s_session_token := session_token;
                        s_expires_at := expires_at |} sessions1 in
        let user_doc := find_one (has_user_id user_id) users1 in
        (inr {| sc_message := "Session created"; sc_user := user_doc;
                sc_cookie := session_token |},
         {| accounts := {| acc_users := users1; acc_sessions := sessions2 |};
            hex_source := hex_source w; hex_drawn := S drawn1 |})
  end.

(** The user id [create_session] signs in: the one of the first stored
    user with the email, or a new one. *)
Definition signed_in_id (auth_data : AuthData) (w : AuthWorld) : string :=
  match find_one (has_email (ad_email auth_data)) (acc_users (accounts w)) with
  | Some existing_user => ud_user_id existing_user
  | None => String.append "user_" (substring 0 12 (hex_source w (hex_drawn w)))
  end.

(** The token it issues: the one of the identity service, or a new one. *)
Definition issued_token (auth_data : AuthData) (w : AuthWorld) : string :=
  default
    (String.append "session_"
       (hex_source w
          (match find_one (has_email (ad_email auth_data)) (acc_users (accounts w)) with
           | Some _ => hex_drawn w
           | None => S (hex_drawn w)
           end)))
    (ad_session_token auth_data).

(** [POST /auth/logout] *)
Definition logout (request : HttpRequest) (a : Accounts) : Accounts :=
  let session_token := cookie_session_token request in
  if truthy session_token then
    {| acc_users := acc_users a;
       acc_sessions := delete_many (has_token (default EmptyString session_token))
                         (acc_sessions a) |}
  else a.

(** The pydantic model [UserProfileUpdate]. *)
Record UserProfileUpdate := {
  pu_company_name : option string;
  pu_business_type : option string;
  pu_employee_count : option Z;
  pu_industry : option string;
}.

(** [{"$set": update_data}], where [update_data] holds the fields of the
    request that are not [None]. *)
Definition set_profile_fields (profile : UserProfileUpdate) (u : UserDoc) : UserDoc :=
  {| ud_user_id := ud_user_id u; ud_email := ud_email u; ud_name := ud_name u;
     ud_picture := ud_picture u;
     ud_company_name :=
       match pu_company_name profile with Some v => Some v | None => ud_company_name u end;
     ud_business_type :=
       match pu_business_type profile with Some v => Some v | None => ud_business_type u end;
     ud_employee_count :=
       match pu_employee_count profile with Some v => Some v | None => ud_employee_count u end;
     ud_industry :=
       match pu_industry profile with Some v => Some v | None => ud_industry u end |}.

(** [update_data] is empty. *)
Definition nothing_to_set (profile : UserProfileUpdate) : bool :=
  match pu_company_name profile, pu_business_type profile,
        pu_employee_count profile, pu_industry profile with
  | None, None, None, None => true
  | _, _, _, _ => false
  end.

(** [PUT /users/profile] for the authenticated [user]: the stored user
    after the update, and the new state. *)
Definition update_profile (profile : UserProfileUpdate) (user : UserDoc) (a : Accounts)
    : option UserDoc * Accounts :=
  let a' :=
    if nothing_to_set profile then a
    else {| acc_users := update_one (has_user_id (ud_user_id user))
                           (set_profile_fields profile) (acc_users a);
            acc_sessions := acc_sessions a |} in
  (find_one (has_user_id (ud_user_id user)) (acc_users a'), a').

(** A first sign-in to try the authentication endpoints on. *)
Definition first_reply : AuthReply :=
  AuthAnswered 200
    {| ad_email := "owner@example.org"; ad_name := "Owner"; ad_picture := None;
       ad_session_token := Some "tok_3f9a" |}.

Definition empty_auth_world : AuthWorld :=
  {| accounts := {| acc_users := []; acc_sessions := [] |};
     hex_source := fun n => String.append "0123456789abcdef0123456789abcde"
                              (String.concat EmptyString (replicate n "f"));
     hex_drawn := 0 |}.

(** The accounts after that first sign-in at time 1000, and the user it
    created. *)
Definition signed_in_accounts : Accounts :=
  accounts (snd (create_session first_reply 1000 empty_auth_world)).

Definition owner_doc : UserDoc :=
  {| ud_user_id := "user_0123456789ab"; ud_email := "owner@example.org";
     ud_name := "Owner"; ud_picture := None; ud_company_name := None;
     ud_business_type := None; ud_employee_count := None; ud_industry := None |}.

(** What a profile update may change of a stored user. *)
Definition profile_touched_only (profile : UserProfileUpdate) (id : string)
    (u u' : UserDoc) : Prop :=
  ud_user_id u' = ud_user_id u ∧ ud_email u' = ud_email u ∧ ud_name u' = ud_name u ∧
  ud_picture u' = ud_picture u ∧
  (ud_user_id u ≠ id → u' = u) ∧
  (pu_company_name profile = None → ud_company_name u' = ud_company_name u) ∧
  (pu_business_type profile = None → ud_business_type u' = ud_business_type u) ∧
  (pu_employee_count profile = None → ud_employee_count u' = ud_employee_count u) ∧
  (pu_industry profile = None → ud_industry u' = ud_industry u) ∧
  (is_Some (ud_company_name u) → is_Some (ud_company_name u')) ∧
  (is_Some (ud_business_type u) → is_Some (ud_business_type u')) ∧
  (is_Some (ud_employee_count u) → is_Some (ud_employee_count u')) ∧
  (is_Some (ud_industry u) → is_Some (ud_industry u')).

(** * Properties *)

(** ** The answers dictionary *)

Lemma responses_dict_snoc rs r :
  responses_dict_of (rs ++ [r]) = <[question_id r := r]> (responses_dict_of rs).
Proof. unfold responses_dict_of. by rewrite foldl_snoc. Qed.

Lemma last_answer_snoc k rs r :
  last_answer k (rs ++ [r]) =
  if String.eqb (question_id r) k then Some r else last_answer k rs.
Proof.
  unfold last_answer. rewrite List.filter_app. simpl.
  destruct (String.eqb (question_id r) k).
  - apply last_snoc.
  - by rewrite app_nil_r.
Qed.

(** Looking an id up in the dictionary gives the last answer with that id. *)
Lemma responses_dict_lookup rs k :
  responses_dict_of rs !! k = last_answer k rs.
Proof.
  induction rs as [|r rs IH] using rev_ind; [done|].
  rewrite responses_dict_snoc, last_answer_snoc, lookup_insert.
  destruct (String.eqb_spec (question_id r) k) as [->|Hne].
  - by rewrite decide_True.
  - by rewrite decide_False.
Qed.

Lemma last_answer_unanswered rs q :
  unanswered rs q → last_answer (q_id q) rs = None.
Proof.
  intros H. unfold last_answer.
  replace (List.filter (fun r => String.eqb (question_id r) (q_id q)) rs) with (@nil HealthCheckResponse); [done|].
  symmetry. induction H as [|r rs Hr _ IH]; [done|].
  simpl. destruct (String.eqb_spec (question_id r) (q_id q)); [done|apply IH].
Qed.

(** ** The scoring loop *)

Lemma score_question_spec rs t q :
  let t' := score_question (responses_dict_of rs) t q in
  gdpr_max t' = gdpr_max t + (if is_gdpr q then q_weight q else 0) ∧
  cyber_max t' = cyber_max t + (if is_gdpr q then 0 else q_weight q) ∧
  gdpr_score t' =
    gdpr_score t + (if is_gdpr q && answered_as true rs q then q_weight q else 0) ∧
  cyber_score t' =
    cyber_score t + (if negb (is_gdpr q) && answered_as true rs q then q_weight q else 0) ∧
  gaps t' = gaps t ++ (if answered_as false rs q then [make_gap q] else []).
Proof.
  unfold score_question, answered_as, is_gdpr.
  rewrite responses_dict_lookup.
  destruct (String.eqb (q_category q) "GDPR");
    destruct (last_answer (q_id q) rs) as [r|]; [destruct (answer r)| |destruct (answer r)|];
    simpl; rewrite ?app_nil_r; repeat split; lia.
Qed.

Lemma score_fold_spec rs cat : ∀ t,
  let t' := foldl (score_question (responses_dict_of rs)) t cat in
  gdpr_max t' = gdpr_max t + sum_weights (List.filter is_gdpr cat) ∧
  cyber_max t' = cyber_max t + sum_weights (List.filter (fun q => negb (is_gdpr q)) cat) ∧
  gdpr_score t' =
    gdpr_score t +
    sum_weights (List.filter (fun q => is_gdpr q && answered_as true rs q) cat) ∧
  cyber_score t' =
    cyber_score t +
    sum_weights (List.filter (fun q => negb (is_gdpr q) && answered_as true rs q) cat) ∧
  gaps t' = gaps t ++ map make_gap (List.filter (answered_as false rs) cat).
Proof.
  induction cat as [|q cat IH]; intros t; simpl.
  - rewrite app_nil_r. repeat split; lia.
  - destruct (IH (score_question (responses_dict_of rs) t q)) as (H1 & H2 & H3 & H4 & H5).
    destruct (score_question_spec rs t q) as (S1 & S2 & S3 & S4 & S5).
    rewrite H1, H2, H3, H4, H5, S1, S2, S3, S4, S5. clear.
    destruct (is_gdpr q), (answered_as true rs q), (answered_as false rs q);
      simpl; rewrite <- ?app_assoc, ?app_nil_r; simpl; repeat split; lia.
Qed.

(** What the loop leaves in its five variables. *)
Lemma score_catalog_spec rs cat :
  let t := score_catalog cat (responses_dict_of rs) in
  gdpr_max t = sum_weights (List.filter is_gdpr cat) ∧
  cyber_max t = sum_weights (List.filter (fun q => negb (is_gdpr q)) cat) ∧
  gdpr_score t = sum_weights (List.filter (fun q => is_gdpr q && answered_as true rs q) cat) ∧
  cyber_score t =
    sum_weights (List.filter (fun q => negb (is_gdpr q) && answered_as true rs q) cat) ∧
  gaps t = map make_gap (List.filter (answered_as false rs) cat).
Proof. apply (score_fold_spec rs cat tally0). Qed.

(** The tally depends on the answers through their last answer per
    catalog question only. *)
Lemma score_catalog_ext rs rs' cat :
  (∀ q, q ∈ cat → last_answer (q_id q) rs = last_answer (q_id q) rs') →
  score_catalog cat (responses_dict_of rs) = score_catalog cat (responses_dict_of rs').
Proof.
  unfold score_catalog. generalize tally0.
  induction cat as [|q cat IH]; intros t H; [done|]. simpl.
  assert (score_question (responses_dict_of rs) t q = score_question (responses_dict_of rs') t q)
    as ->.
  { unfold score_question. rewrite !responses_dict_lookup, (H q); [done|by left]. }
  apply IH. intros q' Hq'. apply H. by right.
Qed.

Lemma sum_weights_filter_mono (p p' : Question → bool) qs :
  Forall (fun q => 0 <= q_weight q) qs →
  (∀ q, p q = true → p' q = true) →
  0 <= sum_weights (List.filter p qs) <= sum_weights (List.filter p' qs).
Proof.
  intros Hw Hpp. induction Hw as [|q qs Hq _ IH]; simpl; [lia|].
  destruct (p q) eqn:Hp.
  - rewrite (Hpp q Hp). simpl. lia.
  - destruct (p' q); simpl; lia.
Qed.

(** ** The percentages on the catalog of the program *)

Lemma percentages_in_range_spec max s :
  percentages_in_range max = true → 0 <= s <= max →
  ∃ p, percentage s max = Some p ∧ 0 <= p <= 100.
Proof.
  unfold percentages_in_range. rewrite forallb_forall. intros H Hs.
  specialize (H s). destruct (percentage s max) as [p|].
  - exists p. split; [done|].
    assert (Hin : In s (seqZ 0 (max + 1))).
    { apply list_elem_of_In, elem_of_seqZ. lia. }
    apply H in Hin. apply andb_prop in Hin as [?%Z.leb_le ?%Z.leb_le]. lia.
  - exfalso. assert (Hin : In s (seqZ 0 (max + 1))).
    { apply list_elem_of_In, elem_of_seqZ. lia. }
    apply H in Hin. discriminate.
Qed.

Lemma catalog_weights_nonneg : Forall (fun q => 0 <= q_weight q) ALL_QUESTIONS.
Proof. repeat constructor; simpl; lia. Qed.

Lemma catalog_maxima :
  sum_weights (List.filter is_gdpr ALL_QUESTIONS) = 35 ∧
  sum_weights (List.filter (fun q => negb (is_gdpr q)) ALL_QUESTIONS) = 37.
Proof. split; reflexivity. Qed.

Lemma sum_weights_split (p : Question → bool) qs :
  sum_weights (List.filter p qs) + sum_weights (List.filter (fun q => negb (p q)) qs)
  = sum_weights qs.
Proof.
  induction qs as [|q qs IH]; simpl; [done|]. destruct (p q); simpl; lia.
Qed.

Lemma filter_true {A} (l : list A) : List.filter (fun _ => true) l = l.
Proof. induction l; simpl; congruence. Qed.

Lemma achieved_split cat rs :
  achieved is_gdpr cat rs + achieved is_cyber cat rs = achieved any_category cat rs.
Proof.
  unfold achieved, is_cyber, any_category.
  induction cat as [|q cat IH]; simpl; [done|].
  destruct (is_gdpr q), (answered_as true rs q); simpl in *; lia.
Qed.

Lemma maximum_split cat :
  maximum is_gdpr cat + maximum is_cyber cat = maximum any_category cat.
Proof.
  unfold maximum, is_cyber, any_category. rewrite sum_weights_split.
  by rewrite filter_true.
Qed.

(** The handler, run: when the three percentage expressions have values,
    it stores and returns the assessment built from them. *)
Lemma submit_health_check_on_run cat submission user w g c o :
  percentage (achieved is_gdpr cat (responses submission)) (maximum is_gdpr cat) = Some g →
  percentage (achieved is_cyber cat (responses submission)) (maximum is_cyber cat) = Some c →
  percentage (achieved any_category cat (responses submission)) (maximum any_category cat)
    = Some o →
  let hc := assessment_of cat (responses submission) user (uuid_source w (uuid_drawn w)) g c o in
  submit_health_check_on cat submission user w =
  (inr hc,
   {| db := set_health_checks (insert_one hc) (db w);
      uuid_source := uuid_source w;
      uuid_drawn := S (uuid_drawn w) |}).
Proof.
  intros Hg Hc Ho.
  rewrite <- achieved_split, <- maximum_split in Ho.
  unfold achieved, maximum, is_cyber in *.
  destruct (score_catalog_spec (responses submission) cat) as (H1 & H2 & H3 & H4 & H5).
  unfold submit_health_check_on.
  rewrite H1, H2, H3, H4, H5.
  unfold mbind, Handler_bind.
  rewrite Hg; simpl. rewrite Hc; simpl. rewrite Ho; simpl.
  reflexivity.
Qed.

Lemma real_percentages rs :
  ∃ g c o,
    percentage (achieved is_gdpr ALL_QUESTIONS rs) (maximum is_gdpr ALL_QUESTIONS) = Some g ∧
    percentage (achieved is_cyber ALL_QUESTIONS rs) (maximum is_cyber ALL_QUESTIONS) = Some c ∧
    percentage (achieved any_category ALL_QUESTIONS rs) (maximum any_category ALL_QUESTIONS)
      = Some o ∧
    0 <= g <= 100 ∧ 0 <= c <= 100 ∧ 0 <= o <= 100.
Proof.
  assert (Hb : ∀ p, 0 <= achieved p ALL_QUESTIONS rs <= maximum p ALL_QUESTIONS).
  { intros p. apply sum_weights_filter_mono; [apply catalog_weights_nonneg|].
    intros q. by intros [? _]%andb_prop. }
  pose proof (Hb is_gdpr) as Hg. pose proof (Hb is_cyber) as Hc.
  pose proof (Hb any_category) as Ho.
  change (maximum is_gdpr ALL_QUESTIONS) with 35 in *.
  change (maximum is_cyber ALL_QUESTIONS) with 37 in *.
  change (maximum any_category ALL_QUESTIONS) with 72 in *.
  destruct (percentages_in_range_spec 35 _ eq_refl Hg) as (g & ? & ?).
  destruct (percentages_in_range_spec 37 _ eq_refl Hc) as (c & ? & ?).
  destruct (percentages_in_range_spec 72 _ eq_refl Ho) as (o & ? & ?).
  by exists g, c, o.
Qed.

(** On the catalog of the program the handler never raises. *)
Lemma submit_health_check_run submission user w :
  ∃ g c o,
    percentage (achieved is_gdpr ALL_QUESTIONS (responses submission))
      (maximum is_gdpr ALL_QUESTIONS) = Some g ∧
    percentage (achieved is_cyber ALL_QUESTIONS (responses submission))
      (maximum is_cyber ALL_QUESTIONS) = Some c ∧
    percentage (achieved any_category ALL_QUESTIONS (responses submission))
      (maximum any_category ALL_QUESTIONS) = Some o ∧
    let hc := assessment_of ALL_QUESTIONS (responses submission) user
                (uuid_source w (uuid_drawn w)) g c o in
    submit_health_check submission user w =
    (inr hc,
     {| db := set_health_checks (insert_one hc) (db w);
        uuid_source := uuid_source w;
        uuid_drawn := S (uuid_drawn w) |}).
Proof.
  destruct (real_percentages (responses submission)) as (g & c & o & Hg & Hc & Ho & _).
  exists g, c, o. repeat split; try done.
  by apply submit_health_check_on_run.
Qed.

(** ** The stable sort of the gap list *)

Lemma insert_by_key_perm {A} (key : A → Z) x l :
  Permutation (insert_by_key key x l) (x :: l).
Proof.
  induction l as [|y l IH]; simpl; [done|].
  destruct (key x <=? key y); [done|].
  rewrite IH. apply perm_swap.
Qed.

Lemma sort_by_key_perm {A} (key : A → Z) l :
  Permutation (sort_by_key key l) l.
Proof.
  induction l as [|x l IH]; simpl; [done|].
  rewrite insert_by_key_perm. by constructor.
Qed.

(** Inserting after a prefix of smaller keys and before a suffix of keys
    that are not smaller. *)
Lemma insert_by_key_split {A} (key : A → Z) x l1 l2 :
  Forall (fun y => key y < key x) l1 →
  Forall (fun y => key x <= key y) l2 →
  insert_by_key key x (l1 ++ l2) = l1 ++ x :: l2.
Proof.
  intros H1 H2. induction H1 as [|y l1 Hy _ IH]; simpl.
  - destruct H2 as [|y l2 Hy _]; simpl; [done|].
    by apply Z.leb_le in Hy as ->.
  - apply Z.leb_gt in Hy as ->. by rewrite IH.
Qed.

Lemma bucket_keys {A} (key : A → Z) k l :
  Forall (fun y => key y = k) (bucket key k l).
Proof.
  apply Forall_forall. intros y [_ Hy]%list_elem_of_In%filter_In. by apply Z.eqb_eq.
Qed.

(** With keys among 0, 1 and 2 the sorted list is the three buckets, each
    in the order of the input. *)
Lemma sort_by_key_buckets {A} (key : A → Z) l :
  Forall (fun x => 0 <= key x <= 2) l →
  sort_by_key key l = bucket key 0 l ++ bucket key 1 l ++ bucket key 2 l.
Proof.
  induction 1 as [|x l Hx _ IH]; [done|].
  change (sort_by_key key (x :: l)) with (insert_by_key key x (sort_by_key key l)).
  rewrite IH. unfold bucket at 4 5 6. simpl.
  fold (bucket key 0 l) (bucket key 1 l) (bucket key 2 l).
  pose proof (bucket_keys key 0 l) as B0.
  pose proof (bucket_keys key 1 l) as B1.
  pose proof (bucket_keys key 2 l) as B2.
  assert (key x = 0 ∨ key x = 1 ∨ key x = 2) as [E|[E|E]] by lia; rewrite E; simpl.
  - apply (insert_by_key_split key x []); [constructor|].
    rewrite !Forall_app. repeat split; eapply Forall_impl; eauto; simpl; lia.
  - apply insert_by_key_split.
    + eapply Forall_impl; eauto; simpl; lia.
    + rewrite Forall_app. split; eapply Forall_impl; eauto; simpl; lia.
  - rewrite !app_assoc. apply insert_by_key_split.
    + rewrite Forall_app. split; eapply Forall_impl; eauto; simpl; lia.
    + eapply Forall_impl; eauto; simpl; lia.
Qed.

Lemma priority_order_of_weight w :
  priority_order (priority_of_weight w) =
  if 3 <=? w then 0 else if 2 <=? w then 1 else 2.
Proof. unfold priority_of_weight. by destruct (3 <=? w), (2 <=? w). Qed.

Lemma priority_eqb_of_weight w :
  String.eqb (priority_of_weight w) "high" = (3 <=? w) ∧
  String.eqb (priority_of_weight w) "medium" = negb (3 <=? w) && (2 <=? w) ∧
  String.eqb (priority_of_weight w) "low" = negb (3 <=? w) && negb (2 <=? w).
Proof. unfold priority_of_weight. by destruct (3 <=? w), (2 <=? w). Qed.

Lemma filter_map_comm {A B} (f : A → B) (p : B → bool) l :
  List.filter p (map f l) = map f (List.filter (fun x => p (f x)) l).
Proof.
  induction l as [|x l IH]; simpl; [done|].
  destruct (p (f x)); simpl; by rewrite IH.
Qed.

Lemma filter_filter {A} (p q : A → bool) l :
  List.filter p (List.filter q l) = List.filter (fun x => q x && p x) l.
Proof.
  induction l as [|x l IH]; simpl; [done|].
  destruct (q x); simpl; [destruct (p x)|]; simpl; by rewrite IH.
Qed.

Lemma sort_gaps_failed rs (qs : list Question) :
  sort_gaps (map make_gap (List.filter (answered_as false rs) qs)) =
  map make_gap (List.filter (fun q => answered_as false rs q && String.eqb (priority_of_weight (q_weight q)) "high") qs)
  ++ map make_gap (List.filter (fun q => answered_as false rs q && String.eqb (priority_of_weight (q_weight q)) "medium") qs)
  ++ map make_gap (List.filter (fun q => answered_as false rs q && String.eqb (priority_of_weight (q_weight q)) "low") qs).
Proof.
  unfold sort_gaps. rewrite sort_by_key_buckets.
  - unfold bucket. rewrite !filter_map_comm, !filter_filter.
    assert (E : ∀ k p,
      (∀ w, (priority_order (priority_of_weight w) =? k) = String.eqb (priority_of_weight w) p) →
      List.filter (fun x => answered_as false rs x && (priority_order (gap_priority (make_gap x)) =? k)) qs
      = List.filter (fun q => answered_as false rs q && String.eqb (priority_of_weight (q_weight q)) p) qs).
    { intros k p H. apply filter_ext. intros q. unfold make_gap, gap_priority. by rewrite H. }
    rewrite (E 0 "high"), (E 1 "medium"), (E 2 "low"); [done| | |];
      intros w; unfold priority_of_weight; by destruct (3 <=? w), (2 <=? w).
  - apply Forall_forall. intros g (q & <- & _)%list_elem_of_In%in_map_iff.
    unfold make_gap, gap_priority.
    rewrite priority_order_of_weight.
    destruct (3 <=? q_weight q), (2 <=? q_weight q); lia.
Qed.

Lemma sort_gaps_catalog rs :
  sort_gaps (map make_gap (List.filter (answered_as false rs) ALL_QUESTIONS)) =
  failed_with "high" rs ++ failed_with "medium" rs ++ failed_with "low" rs.
Proof. exact (sort_gaps_failed rs ALL_QUESTIONS). Qed.

Lemma catalog_ids_NoDup : NoDup (map q_id ALL_QUESTIONS).
Proof. apply (bool_decide_unpack (NoDup (map q_id ALL_QUESTIONS))). by vm_compute. Qed.

Lemma gaps_for_filter (p : Question → bool) q qs :
  NoDup (map q_id qs) → q ∈ qs →
  gaps_for q (map make_gap (List.filter p qs)) = if p q then 1%nat else 0%nat.
Proof.
  unfold gaps_for. rewrite filter_map_comm, length_map, filter_filter.
  unfold make_gap, gap_question_id.
  induction qs as [|q' qs IH]; intros Hnd Hq; [by apply elem_of_nil in Hq|].
  apply NoDup_cons in Hnd as [Hq' Hnd]. simpl.
  apply elem_of_cons in Hq as [<-|Hq].
  - rewrite String.eqb_refl, andb_true_r.
    assert (List.filter (fun x => p x && String.eqb (q_id x) (q_id q)) qs = []) as ->.
    { clear IH. induction qs as [|x qs IH]; [done|]. simpl.
      destruct (String.eqb_spec (q_id x) (q_id q)) as [E|_].
      - exfalso. apply Hq'. rewrite <- E. simpl. by left.
      - rewrite andb_false_r. apply IH.
        + intros H. apply Hq'. simpl. by right.
        + by apply NoDup_cons in Hnd as [_ ?]. }
    by destruct (p q).
  - destruct (String.eqb_spec (q_id q') (q_id q)) as [E|_].
    + exfalso. apply Hq'. rewrite E. by apply list_elem_of_In, in_map, list_elem_of_In.
    + rewrite andb_false_r. by apply IH.
Qed.

Lemma gaps_for_perm q gs gs' :
  Permutation gs gs' → gaps_for q gs = gaps_for q gs'.
Proof.
  unfold gaps_for. induction 1; simpl; try done.
  - destruct (String.eqb _ _); simpl; congruence.
  - do 2 destruct (String.eqb _ _); simpl; congruence.
  - congruence.
Qed.

(** ** Last answers *)

Lemma last_answer_app k rs1 rs2 :
  last_answer k (rs1 ++ rs2) =
  match last_answer k rs2 with Some r => Some r | None => last_answer k rs1 end.
Proof. unfold last_answer. rewrite List.filter_app. apply last_app. Qed.

Lemma last_answer_cons_ne k r rs :
  question_id r ≠ k → last_answer k (r :: rs) = last_answer k rs.
Proof.
  intros Hne. unfold last_answer. simpl.
  by destruct (String.eqb_spec (question_id r) k).
Qed.

Lemma last_answer_elem k r rs :
  r ∈ rs → question_id r = k → is_Some (last_answer k rs).
Proof.
  intros Hr Hk. unfold last_answer.
  assert (Hin : r ∈ List.filter (fun r => String.eqb (question_id r) k) rs).
  { apply list_elem_of_In, filter_In. split; [by apply list_elem_of_In|].
    by apply String.eqb_eq. }
  destruct (List.filter _ rs) as [|x l] using rev_ind; [by apply elem_of_nil in Hin|].
  rewrite last_snoc. by eexists.
Qed.

(** An answer with another id does not change the last answer to [k]. *)
Lemma last_answer_drop_other k rs1 r rs2 :
  question_id r ≠ k → last_answer k (rs1 ++ r :: rs2) = last_answer k (rs1 ++ rs2).
Proof.
  intros Hne. rewrite !last_answer_app.
  change (r :: rs2) with ([r] ++ rs2). rewrite last_answer_app.
  destruct (last_answer k rs2); [done|].
  by rewrite last_answer_cons_ne.
Qed.

(** An answer followed by another one with the same id does not change any
    last answer. *)
Lemma last_answer_drop_earlier k rs1 r rs2 r' :
  r' ∈ rs2 → question_id r' = question_id r →
  last_answer k (rs1 ++ r :: rs2) = last_answer k (rs1 ++ rs2).
Proof.
  intros Hr' Hid. destruct (decide (question_id r = k)) as [Hk|Hk].
  - rewrite !last_answer_app.
    change (r :: rs2) with ([r] ++ rs2). rewrite last_answer_app.
    destruct (last_answer_elem k r' rs2 Hr') as [x ->]; [congruence|done].
  - by apply last_answer_drop_other.
Qed.

Lemma answered_as_ext b rs rs' q :
  last_answer (q_id q) rs = last_answer (q_id q) rs' →
  answered_as b rs q = answered_as b rs' q.
Proof. unfold answered_as. by intros ->. Qed.

(** Submissions with the same last answer to every catalog question are
    scored alike. *)
Lemma submit_health_check_on_ext cat rs rs' user user' w w' g c o :
  percentage (achieved is_gdpr cat rs) (maximum is_gdpr cat) = Some g →
  percentage (achieved is_cyber cat rs) (maximum is_cyber cat) = Some c →
  percentage (achieved any_category cat rs) (maximum any_category cat) = Some o →
  (∀ q, q ∈ cat → last_answer (q_id q) rs = last_answer (q_id q) rs') →
  ∃ hc hc' v v',
    submit_health_check_on cat {| responses := rs |} user w = (inr hc, v) ∧
    submit_health_check_on cat {| responses := rs' |} user' w' = (inr hc', v') ∧
    same_scoring hc hc'.
Proof.
  intros Hg Hc Ho H.
  assert (Ha : ∀ p, achieved p cat rs = achieved p cat rs').
  { intros p. unfold achieved. f_equal. apply filter_ext_in.
    intros q Hq%list_elem_of_In. by rewrite (answered_as_ext true rs rs' q (H q Hq)). }
  assert (Hf : List.filter (answered_as false rs) cat
             = List.filter (answered_as false rs') cat).
  { apply filter_ext_in. intros q Hq%list_elem_of_In. apply answered_as_ext. by apply H. }
  eexists _, _, _, _.
  split; [by apply (submit_health_check_on_run cat {| responses := rs |} user w g c o)|].
  split.
  { apply (submit_health_check_on_run cat {| responses := rs' |} user' w' g c o);
      cbn [responses]; by rewrite <- Ha. }
  unfold same_scoring, assessment_of. cbn [hc_compliance_score hc_gdpr_score
    hc_cyber_essentials_score hc_risk_level hc_gaps hc_total_gaps responses].
  by rewrite Hf.
Qed.

Lemma submit_health_check_ext rs rs' user user' w w' :
  (∀ q, q ∈ ALL_QUESTIONS → last_answer (q_id q) rs = last_answer (q_id q) rs') →
  ∃ hc hc' v v',
    submit_health_check {| responses := rs |} user w = (inr hc, v) ∧
    submit_health_check {| responses := rs' |} user' w' = (inr hc', v') ∧
    same_scoring hc hc'.
Proof.
  destruct (real_percentages rs) as (g & c & o & Hg & Hc & Ho & _).
  exact (submit_health_check_on_ext ALL_QUESTIONS rs rs' user user' w w' g c o Hg Hc Ho).
Qed.

(** ** Unanswered questions and answers to unknown questions *)

Lemma unanswered_answered_as b rs q :
  unanswered rs q → answered_as b rs q = false.
Proof. intros H. unfold answered_as. by rewrite last_answer_unanswered. Qed.

Lemma unanswered_step rs q t :
  unanswered rs q → score_question (responses_dict_of rs) t q = add_to_max q t.
Proof.
  intros H. unfold score_question, add_to_max, is_gdpr.
  rewrite responses_dict_lookup, last_answer_unanswered by done.
  by destruct (String.eqb (q_category q) "GDPR").
Qed.

Lemma gap_of_sorted cat rs g :
  g ∈ sort_gaps (map make_gap (List.filter (answered_as false rs) cat)) →
  ∃ q, q ∈ cat ∧ answered_as false rs q = true ∧ g = make_gap q.
Proof.
  unfold sort_gaps. rewrite sort_by_key_perm.
  intros (q & <- & [Hq Ha]%filter_In)%list_elem_of_In%in_map_iff.
  exists q. by rewrite list_elem_of_In.
Qed.

Lemma unanswered_no_gap cat rs q g :
  unanswered rs q →
  g ∈ sort_gaps (map make_gap (List.filter (answered_as false rs) cat)) →
  gap_question_id g ≠ q_id q.
Proof.
  intros Hu (q' & _ & Ha & ->)%gap_of_sorted. unfold make_gap, gap_question_id.
  intros E. unfold answered_as in Ha. rewrite E, last_answer_unanswered in Ha; done.
Qed.

Lemma assessment_of_gaps cat rs user id g c o :
  hc_gaps (assessment_of cat rs user id g c o) =
  sort_gaps (map make_gap (List.filter (answered_as false rs) cat)).
Proof. reflexivity. Qed.

Lemma assessment_of_scores cat rs user id g c o :
  hc_gdpr_score (assessment_of cat rs user id g c o) = g ∧
  hc_cyber_essentials_score (assessment_of cat rs user id g c o) = c ∧
  hc_compliance_score (assessment_of cat rs user id g c o) = o ∧
  hc_risk_level (assessment_of cat rs user id g c o) = risk_level_of o ∧
  hc_responses (assessment_of cat rs user id g c o) = rs.
Proof. by repeat split. Qed.

(** C1: a catalog question that no submitted answer refers to adds its
    weight to the maximum of its category and nothing else: the loop step
    for it is [add_to_max], it is not among the questions counted in
    [achieved], and no gap of the result bears its id.  An answer whose
    question id is not in the catalog is ignored: the submission is
    accepted, and its scores, risk level and gaps are those of the
    submission without that answer. *)
Theorem unanswered_and_unknown_answers (rs : list HealthCheckResponse) user w :
  ∃ hc w',
    submit_health_check {| responses := rs |} user w = (inr hc, w') ∧
    percentage (achieved is_gdpr ALL_QUESTIONS rs) (maximum is_gdpr ALL_QUESTIONS)
      = Some (hc_gdpr_score hc) ∧
    percentage (achieved is_cyber ALL_QUESTIONS rs) (maximum is_cyber ALL_QUESTIONS)
      = Some (hc_cyber_essentials_score hc) ∧
    percentage (achieved any_category ALL_QUESTIONS rs) (maximum any_category ALL_QUESTIONS)
      = Some (hc_compliance_score hc) ∧
    (∀ q, q ∈ ALL_QUESTIONS → unanswered rs q →
       (∀ t, score_question (responses_dict_of rs) t q = add_to_max q t) ∧
       answered_as true rs q = false ∧
       (∀ g, g ∈ hc_gaps hc → gap_question_id g ≠ q_id q)) ∧
    (∀ rs1 r rs2,
       rs = rs1 ++ r :: rs2 →
       (∀ q, q ∈ ALL_QUESTIONS → q_id q ≠ question_id r) →
       ∃ hc0 w0,
         submit_health_check {| responses := rs1 ++ rs2 |} user w = (inr hc0, w0) ∧
         same_scoring hc hc0).
Proof.
  destruct (submit_health_check_run {| responses := rs |} user w)
    as (g & c & o & Hg & Hc & Ho & Hrun).
  cbn [responses] in Hg, Hc, Ho, Hrun.
  eexists _, _. split; [exact Hrun|].
  destruct (assessment_of_scores ALL_QUESTIONS rs user (uuid_source w (uuid_drawn w)) g c o)
    as (-> & -> & -> & _).
  rewrite assessment_of_gaps.
  split; [exact Hg|]. split; [exact Hc|]. split; [exact Ho|]. split.
  - intros q _ Hu. split; [intros t; by apply unanswered_step|].
    split; [by apply unanswered_answered_as|].
    intros gp Hgp. by apply (unanswered_no_gap ALL_QUESTIONS rs).
  - intros rs1 r rs2 -> Hr.
    destruct (submit_health_check_ext (rs1 ++ r :: rs2) (rs1 ++ rs2) user user w w)
      as (hc & hc0 & v & v0 & H1 & H2 & Hsame).
    { intros q Hq. apply last_answer_drop_other. intros E. by apply (Hr q). }
    rewrite Hrun in H1. injection H1 as H1 _.
    exists hc0, v0. split; [exact H2|]. 
    unfold same_scoring in *. rewrite <- H1 in Hsame.
    rewrite assessment_of_gaps in Hsame.
    destruct (assessment_of_scores ALL_QUESTIONS (rs1 ++ r :: rs2) user
                (uuid_source w (uuid_drawn w)) g c o) as (Eg & Ec & Eo & Er & _).
    rewrite Eg, Ec, Eo, Er in Hsame. 
    exact Hsame.
Qed.

Lemma unanswered_and_unknown_answers_witness :
  ∃ hc w',
    submit_health_check {| responses := partial_answers |} example_user example_world
      = (inr hc, w') ∧
    (∀ g, g ∈ hc_gaps hc → gap_question_id g ≠ "gdpr_2") ∧
    ∃ hc0 w0,
      submit_health_check
        {| responses := [
             {| question_id := "gdpr_1"; answer := true; notes := None |};
             {| question_id := "ce_1"; answer := false; notes := None |} ] |}
        example_user example_world = (inr hc0, w0) ∧
      same_scoring hc hc0.
Proof.
  destruct (unanswered_and_unknown_answers partial_answers example_user example_world)
    as (hc & w' & Hrun & _ & _ & _ & Hun & Hunk).
  exists hc, w'. split; [exact Hrun|]. split.
  - destruct (Hun (GDPR_QUESTIONS !!! 1%nat)) as (_ & _ & Hg).
    + apply (list_elem_of_lookup_2 _ 1%nat). reflexivity.
    + repeat constructor; by vm_compute.
    + exact Hg.
  - apply (Hunk [ {| question_id := "gdpr_1"; answer := true; notes := None |} ]
             {| question_id := "legacy_7"; answer := false;
                notes := Some "from an older form" |}
             [ {| question_id := "ce_1"; answer := false; notes := None |} ]);
      [reflexivity|].
    apply Forall_forall. apply (bool_decide_unpack _). by vm_compute.
Defined.

(** ** The gap list *)

(** C2: the gap list holds exactly one entry for each catalog question
    answered false and none for any other question; the entry of a question
    has priority high for a weight of 3 or more, medium for a weight of 2,
    low otherwise; and the list is the high-priority gaps, then the medium
    ones, then the low ones, each group in catalog order (the GDPR
    questions as declared, then the Cyber Essentials questions as
    declared). *)
Theorem gap_list_contents_and_order (rs : list HealthCheckResponse) user w :
  ∃ hc w',
    submit_health_check {| responses := rs |} user w = (inr hc, w') ∧
    (∀ q, q ∈ ALL_QUESTIONS →
       gaps_for q (hc_gaps hc) = if answered_as false rs q then 1%nat else 0%nat) ∧
    (∀ g, g ∈ hc_gaps hc →
       ∃ q, q ∈ ALL_QUESTIONS ∧ answered_as false rs q = true ∧
            gap_question_id g = q_id q ∧
            gap_priority g =
              (if 3 <=? q_weight q then "high"
               else if 2 <=? q_weight q then "medium" else "low")) ∧
    hc_gaps hc = failed_with "high" rs ++ failed_with "medium" rs ++ failed_with "low" rs ∧
    hc_total_gaps hc = Z.of_nat (length (hc_gaps hc)).
Proof.
  destruct (submit_health_check_run {| responses := rs |} user w)
    as (g & c & o & _ & _ & _ & Hrun).
  cbn [responses] in Hrun.
  eexists _, _. split; [exact Hrun|].
  rewrite assessment_of_gaps. split; [|split; [|split]].
  - intros q Hq.
    unfold sort_gaps. rewrite (gaps_for_perm q _ _ (sort_by_key_perm _ _)).
    apply gaps_for_filter; [apply catalog_ids_NoDup|exact Hq].
  - intros gp (q & Hq & Ha & ->)%gap_of_sorted. by exists q.
  - apply sort_gaps_catalog.
  - reflexivity.
Qed.

(** ** The risk level *)

(** C3: the risk level of an assessment is [risk_level_of] of its overall
    percentage, and [risk_level_of] is low from 80 up, medium from 60 to
    79, high from 40 to 59 and critical below 40. *)
Theorem risk_level_from_overall (rs : list HealthCheckResponse) user w :
  (∃ hc w',
     submit_health_check {| responses := rs |} user w = (inr hc, w') ∧
     hc_risk_level hc = risk_level_of (hc_compliance_score hc)) ∧
  (∀ overall,
     (80 <= overall → risk_level_of overall = "low") ∧
     (60 <= overall < 80 → risk_level_of overall = "medium") ∧
     (40 <= overall < 60 → risk_level_of overall = "high") ∧
     (overall < 40 → risk_level_of overall = "critical")) ∧
  risk_level_of 80 = "low" ∧ risk_level_of 79 = "medium" ∧
  risk_level_of 60 = "medium" ∧ risk_level_of 59 = "high" ∧
  risk_level_of 40 = "high" ∧ risk_level_of 39 = "critical".
Proof.
  split; [|split; [|by repeat split]].
  - destruct (submit_health_check_run {| responses := rs |} user w)
      as (g & c & o & _ & _ & _ & Hrun).
    eexists _, _. split; [exact Hrun|reflexivity].
  - intros overall. unfold risk_level_of.
    repeat split; intros H;
      destruct (Z.leb_spec 80 overall), (Z.leb_spec 60 overall), (Z.leb_spec 40 overall);
      first [reflexivity | lia].
Qed.

Lemma risk_level_from_overall_witness :
  risk_level_of 85 = "low" ∧ risk_level_of 72 = "medium" ∧
  risk_level_of 44 = "high" ∧ risk_level_of 12 = "critical".
Proof.
  pose proof (proj1 (proj2 (risk_level_from_overall [] example_user example_world))) as H.
  split; [apply (H 85); lia|]. split; [apply (H 72); lia|].
  split; [apply (H 44); lia|apply (H 12); lia].
Defined.

(** ** The worked example *)

Lemma example_catalog_questions :
  map (fun q => (q_id q, q_category q, q_weight q)) example_catalog =
  [("gdpr_1", "GDPR", 3); ("gdpr_2", "GDPR", 3); ("ce_1", "Cyber Essentials", 3)].
Proof. reflexivity. Qed.

Lemma example_run :
  ∃ hc w',
    submit_health_check_on example_catalog example_submission example_user example_world
      = (inr hc, w') ∧
    hc_gdpr_score hc = 50 ∧ hc_cyber_essentials_score hc = 100 ∧
    map (fun g => (gap_question_id g, gap_priority g)) (hc_gaps hc) = [("gdpr_2", "high")] ∧
    hc_compliance_score hc = 67 ∧ hc_risk_level hc = "medium".
Proof.
  eexists _, _. split.
  - apply (submit_health_check_on_run example_catalog example_submission example_user
             example_world 50 100 67); by vm_compute.
  - by vm_compute.
Qed.

(** C4, as stated: the example does not give an overall percentage of 44
    and a risk level high. *)
Lemma example_not_44_high :
  ¬ ∃ hc w',
      submit_health_check_on example_catalog example_submission example_user example_world
        = (inr hc, w') ∧
      hc_gdpr_score hc = 50 ∧ hc_cyber_essentials_score hc = 100 ∧
      map (fun g => (gap_question_id g, gap_priority g)) (hc_gaps hc) = [("gdpr_2", "high")] ∧
      hc_compliance_score hc = 44 ∧ hc_risk_level hc = "high".
Proof.
  intros (hc & w' & Hrun & _ & _ & _ & Ho & _).
  destruct example_run as (hc0 & w0 & Hrun0 & _ & _ & _ & Ho0 & _).
  rewrite Hrun in Hrun0. injection Hrun0 as -> _. lia.
Qed.

(** C4, amended: on the catalog gdpr_1, gdpr_2, ce_1 (weight 3 each) the
    answers gdpr_1 = true, gdpr_2 = false, ce_1 = true give a GDPR score of
    50, a Cyber Essentials score of 100, the single gap gdpr_2 with
    priority high, an overall percentage of 67 (6 of 9) and the risk level
    medium. *)
Theorem example_assessment :
  map (fun q => (q_id q, q_category q, q_weight q)) example_catalog =
    [("gdpr_1", "GDPR", 3); ("gdpr_2", "GDPR", 3); ("ce_1", "Cyber Essentials", 3)] ∧
  map (fun r => (question_id r, answer r)) (responses example_submission) =
    [("gdpr_1", true); ("gdpr_2", false); ("ce_1", true)] ∧
  ∃ hc w',
    submit_health_check_on example_catalog example_submission example_user example_world
      = (inr hc, w') ∧
    hc_gdpr_score hc = 50 ∧ hc_cyber_essentials_score hc = 100 ∧
    map (fun g => (gap_question_id g, gap_priority g)) (hc_gaps hc) = [("gdpr_2", "high")] ∧
    hc_compliance_score hc = 67 ∧ hc_risk_level hc = "medium".
Proof. split; [reflexivity|]. split; [reflexivity|]. exact example_run. Qed.

(** ** Repeated answers *)

(** C10: the scores, the risk level and the gaps depend on the submitted
    answers through the last answer to each catalog question only: two
    submissions with the same last answers are scored alike, so an answer
    followed by another answer to the same question can be removed without
    changing them; the assessment record, as returned and as stored, keeps
    the submitted list as it was sent. *)
Theorem last_answer_decides (rs : list HealthCheckResponse) user w :
  ∃ hc w',
    submit_health_check {| responses := rs |} user w = (inr hc, w') ∧
    hc_responses hc = rs ∧
    health_checks (db w') = health_checks (db w) ++ [hc] ∧
    (∀ q, responses_dict_of rs !! q_id q = last_answer (q_id q) rs) ∧
    (∀ rs',
       (∀ q, q ∈ ALL_QUESTIONS → last_answer (q_id q) rs' = last_answer (q_id q) rs) →
       ∃ hc0 w0,
         submit_health_check {| responses := rs' |} user w = (inr hc0, w0) ∧
         same_scoring hc hc0) ∧
    (∀ rs1 r rs2 r',
       rs = rs1 ++ r :: rs2 → r' ∈ rs2 → question_id r' = question_id r →
       ∃ hc0 w0,
         submit_health_check {| responses := rs1 ++ rs2 |} user w = (inr hc0, w0) ∧
         same_scoring hc hc0).
Proof.
  destruct (submit_health_check_run {| responses := rs |} user w)
    as (g & c & o & _ & _ & _ & Hrun).
  cbn [responses] in Hrun.
  assert (Hext : ∀ rs',
    (∀ q, q ∈ ALL_QUESTIONS → last_answer (q_id q) rs' = last_answer (q_id q) rs) →
    ∃ hc0 w0,
      submit_health_check {| responses := rs' |} user w = (inr hc0, w0) ∧
      same_scoring (assessment_of ALL_QUESTIONS rs user (uuid_source w (uuid_drawn w)) g c o)
        hc0).
  { intros rs' H.
    destruct (submit_health_check_ext rs rs' user user w w)
      as (hc & hc0 & v & v0 & H1 & H2 & Hsame).
    { intros q Hq. symmetry. by apply H. }
    rewrite Hrun in H1. injection H1 as H1 _. rewrite <- H1 in Hsame.
    by exists hc0, v0. }
  eexists _, _. split; [exact Hrun|].
  split; [reflexivity|]. split; [reflexivity|].
  split; [intros q; apply responses_dict_lookup|].
  split; [exact Hext|].
  intros rs1 r rs2 r' -> Hr' Hid. apply Hext.
  intros q _. symmetry. by apply (last_answer_drop_earlier _ rs1 r rs2 r').
Qed.

Lemma last_answer_decides_witness :
  ∃ hc w' hc0 w0,
    submit_health_check {| responses := repeated_answers |} example_user example_world
      = (inr hc, w') ∧
    hc_responses hc = repeated_answers ∧
    submit_health_check
      {| responses := [
           {| question_id := "gdpr_2"; answer := true; notes := None |};
           {| question_id := "gdpr_1"; answer := true; notes := Some "corrected" |} ] |}
      example_user example_world = (inr hc0, w0) ∧
    same_scoring hc hc0.
Proof.
  destruct (last_answer_decides repeated_answers example_user example_world)
    as (hc & w' & Hrun & Hresp & _ & _ & _ & Hdrop).
  destruct (Hdrop []
              {| question_id := "gdpr_1"; answer := false; notes := None |}
              [ {| question_id := "gdpr_2"; answer := true; notes := None |};
                {| question_id := "gdpr_1"; answer := true; notes := Some "corrected" |} ]
              {| question_id := "gdpr_1"; answer := true; notes := Some "corrected" |})
    as (hc0 & w0 & Hrun0 & Hsame).
  - reflexivity.
  - right. left.
  - reflexivity.
  - exists hc, w', hc0, w0.
    split; [exact Hrun|]. split; [exact Hresp|]. split; [exact Hrun0|exact Hsame].
Defined.

(** ** Risk register: generation *)

Lemma instantiate_risks_run ts w :
  instantiate_risks ts w =
  (inr (instantiated ts (uuid_source w) (uuid_drawn w)),
   {| db := db w; uuid_source := uuid_source w;
      uuid_drawn := (uuid_drawn w + length ts)%nat |}).
Proof.
  revert w. induction ts as [|t ts IH]; intros w.
  - simpl. unfold mret, Handler_ret. destruct w; simpl. by rewrite Nat.add_0_r.
  - cbn [instantiate_risks instantiated length].
    unfold mbind, Handler_bind, uuid4. rewrite IH.
    cbn [db uuid_source uuid_drawn]. unfold mret, Handler_ret.
    by rewrite Nat.add_succ_r.
Qed.

Lemma instantiated_length ts src n : length (instantiated ts src n) = length ts.
Proof. revert n. induction ts; intros n; simpl; [done|]. by rewrite IHts. Qed.

Lemma instantiated_copied ts src n : Forall2 copied_from ts (instantiated ts src n).
Proof.
  revert n. induction ts as [|t ts IH]; intros n; simpl; constructor; [|apply IH].
  by repeat split.
Qed.

Lemma instantiated_ids ts src n :
  map risk_id (instantiated ts src n) = map src (seq n (length ts)).
Proof. revert n. induction ts as [|t ts IH]; intros n; simpl; [done|]. by rewrite IH. Qed.

Lemma instantiated_status ts src n :
  Forall (fun r => status r = "identified") (instantiated ts src n).
Proof. revert n. induction ts as [|t ts IH]; intros n; simpl; constructor; [done|apply IH]. Qed.

Lemma instantiated_same_but_id ts src n src' n' :
  Forall2 same_but_id (instantiated ts src n) (instantiated ts src' n').
Proof.
  revert n n'. induction ts as [|t ts IH]; intros n n'; simpl; constructor; [|apply IH].
  by repeat split.
Qed.

Lemma general_template : RISK_TEMPLATES !! "general" = Some template_general.
Proof. by vm_compute. Qed.

(** The handler, run: it never raises. *)
Lemma generate_risk_register_run data user w :
  generate_risk_register data user w =
  (inr (register_for data user w),
   {| db := set_users (update_one (is_user user) (set_profile data))
              (set_risk_registers (insert_one (register_for data user w))
                 (set_risk_registers (delete_many (owned_by user)) (db w)));
      uuid_source := uuid_source w;
      uuid_drawn := S (uuid_drawn w + length (template_for (rg_business_type data))) |}).
Proof.
  unfold generate_risk_register, register_for, template_for.
  generalize (RISK_TEMPLATES !! normalize_business_type (rg_business_type data)).
  intros o. unfold mbind, Handler_bind.
  rewrite general_template. cbn [eval]. unfold mret at 1, Handler_ret at 1.
  generalize (default template_general o). intros ts.
  rewrite instantiate_risks_run. unfold uuid4, write_db, mret, Handler_ret.
  cbn [db uuid_source uuid_drawn]. by rewrite instantiated_length.
Qed.

Lemma filter_delete_many {A} (p : A → bool) l :
  List.filter p (delete_many p l) = [].
Proof.
  unfold delete_many. induction l as [|x l IH]; simpl; [done|].
  destruct (p x) eqn:E; simpl; [done|]. by rewrite E.
Qed.

Lemma filter_delete_many_other {A} (p p' : A → bool) l :
  (∀ x, p x = true → p' x = false) →
  List.filter p (delete_many p' l) = List.filter p l.
Proof.
  intros H. unfold delete_many. induction l as [|x l IH]; simpl; [done|].
  destruct (p' x) eqn:E'; simpl.
  - destruct (p x) eqn:E; [|done]. apply H in E. congruence.
  - by rewrite IH.
Qed.

Lemma registers_after_generate data user w :
  registers_of user (snd (generate_risk_register data user w)) = [register_for data user w].
Proof.
  rewrite generate_risk_register_run. unfold registers_of, insert_one. cbn.
  rewrite List.filter_app, filter_delete_many. cbn.
  by rewrite String.eqb_refl.
Qed.

Lemma registers_after_generate_other data user user' w :
  user_id user' ≠ user_id user →
  registers_of user' (snd (generate_risk_register data user w)) = registers_of user' w.
Proof.
  intros Hne. rewrite generate_risk_register_run. unfold registers_of, insert_one. cbn.
  rewrite List.filter_app. cbn.
  destruct (String.eqb_spec (user_id user) (user_id user')); [congruence|].
  rewrite app_nil_r. apply filter_delete_many_other.
  unfold owned_by. intros x ->%String.eqb_eq. by apply String.eqb_neq.
Qed.

(** ** Risk register: status updates *)

Lemma update_first_risk_none id upd rs :
  Forall (fun r => risk_id r ≠ id) rs → update_first_risk id upd rs = (rs, false).
Proof.
  induction 1 as [|r rs Hr _ IH]; simpl; [done|].
  destruct (String.eqb_spec (risk_id r) id); [done|]. by rewrite IH.
Qed.

Lemma update_first_risk_found id upd rs1 r rs2 :
  Forall (fun r => risk_id r ≠ id) rs1 → risk_id r = id →
  update_first_risk id upd (rs1 ++ r :: rs2) = (rs1 ++ apply_update upd r :: rs2, true).
Proof.
  intros H Hr. induction H as [|x rs1 Hx _ IH]; simpl.
  - by rewrite (proj2 (String.eqb_eq _ _) Hr).
  - destruct (String.eqb_spec (risk_id x) id); [done|]. by rewrite IH.
Qed.

Lemma find_one_update_one {A} (p : A → bool) (f : A → A) l x :
  find_one p l = Some x → p (f x) = true →
  find_one p (update_one p f l) = Some (f x).
Proof.
  unfold find_one. induction l as [|y l IH]; simpl; [done|].
  destruct (p y) eqn:E; simpl.
  - intros [= ->] Hf. by rewrite Hf.
  - intros Hx Hf. rewrite E. by apply IH.
Qed.

Lemma update_one_length {A} (p : A → bool) (f : A → A) l :
  length (update_one p f l) = length l.
Proof. induction l as [|x l IH]; simpl; [done|]. destruct (p x); simpl; congruence. Qed.

Lemma filter_update_one_length {A} (p q : A → bool) (f : A → A) l :
  (∀ x, q (f x) = q x) →
  length (List.filter q (update_one p f l)) = length (List.filter q l).
Proof.
  intros H. induction l as [|y l IH]; simpl; [done|].
  destruct (p y); simpl; [rewrite H; by destruct (q y)|].
  destruct (q y); simpl; by rewrite IH.
Qed.

(** The three outcomes of [update_risk]. *)
Lemma update_risk_no_register id upd user w :
  find_one (owned_by user) (risk_registers (db w)) = None →
  update_risk id upd user w = (inl (HTTPException 404 "Risk register not found"), w).
Proof.
  intros H. unfold update_risk, mbind, Handler_bind, read_db. by rewrite H.
Qed.

Lemma update_risk_no_risk id upd user w reg :
  find_one (owned_by user) (risk_registers (db w)) = Some reg →
  Forall (fun r => risk_id r ≠ id) (risks reg) →
  update_risk id upd user w = (inl (HTTPException 404 "Risk not found"), w).
Proof.
  intros H Hno. unfold update_risk, mbind, Handler_bind, read_db. rewrite H.
  by rewrite update_first_risk_none.
Qed.

Lemma update_risk_found id upd user w reg rs1 r rs2 :
  find_one (owned_by user) (risk_registers (db w)) = Some reg →
  risks reg = rs1 ++ r :: rs2 →
  Forall (fun r => risk_id r ≠ id) rs1 → risk_id r = id →
  update_risk id upd user w =
  (inr {| message := "Risk updated successfully";
          updated_risk_id := id;
          updated_status := ru_status upd |},
   {| db := set_risk_registers
              (update_one (owned_by user) (set_risks (rs1 ++ apply_update upd r :: rs2)))
              (db w);
      uuid_source := uuid_source w;
      uuid_drawn := uuid_drawn w |}).
Proof.
  intros H Hrs Hno Hr. unfold update_risk, mbind, Handler_bind, read_db. rewrite H, Hrs.
  by rewrite update_first_risk_found.
Qed.

(** ** What each request does to the registers and the documents *)

Lemma update_risk_registers id upd user w :
  ∀ u, length (registers_of u (snd (update_risk id upd user w))) = length (registers_of u w).
Proof.
  intros u. unfold update_risk, mbind, Handler_bind, read_db.
  destruct (find_one _ _) as [reg|]; [|done].
  destruct (update_first_risk id upd (risks reg)) as [rs' []]; [|done].
  cbn. unfold registers_of. cbn. by apply filter_update_one_length.
Qed.


Lemma submit_health_check_registers submission user w :
  risk_registers (db (snd (submit_health_check submission user w))) = risk_registers (db w).
Proof.
  destruct (submit_health_check_run submission user w) as (g & c & o & _ & _ & _ & ->).
  reflexivity.
Qed.


Lemma upload_document_registers file user w :
  risk_registers (db (snd (upload_document file user w))) = risk_registers (db w).
Proof. unfold upload_document. by destruct (negb _). Qed.

Lemma analyze_document_registers jl completion document_id user w :
  risk_registers (db (snd (analyze_document jl completion document_id user w)))
  = risk_registers (db w).
Proof.
  unfold analyze_document, mbind, Handler_bind, read_db.
  destruct (find_one _ _); [|done]. by destruct (analysis_attempt jl completion).
Qed.

Lemma delete_document_registers document_id user w :
  risk_registers (db (snd (delete_document document_id user w))) = risk_registers (db w).
Proof.
  unfold delete_document, mbind, Handler_bind, read_db.
  destruct (delete_one _ _) as [rest n]. cbn. by destruct (n =? 0).
Qed.


Lemma serve_at_most_one_register jl r w :
  at_most_one_register w → at_most_one_register (serve jl r w).
Proof.
  intros H u. specialize (H u). unfold registers_of in *.
  destruct r; cbn [serve].
  - by rewrite submit_health_check_registers.
  - by rewrite upload_document_registers.
  - by rewrite analyze_document_registers.
  - by rewrite delete_document_registers.
  - destruct (decide (user_id u = user_id user)) as [E|E].
    + pose proof (registers_after_generate data user w) as Hg.
      unfold registers_of in Hg.
      replace (owned_by u) with (owned_by user); [by rewrite Hg|].
      unfold owned_by. by rewrite E.
    + pose proof (registers_after_generate_other data user u w E) as Hg.
      unfold registers_of in Hg. by rewrite Hg.
  - pose proof (update_risk_registers id update user w u) as Hu.
    unfold registers_of in Hu. by rewrite Hu.
Qed.

Lemma serve_all_at_most_one_register jl rs w :
  at_most_one_register w → at_most_one_register (serve_all jl rs w).
Proof.
  revert w. induction rs as [|r rs IH]; intros w H; [done|].
  apply IH. by apply serve_at_most_one_register.
Qed.

(** C5: every subject has at most one register in every state reached by
    serving requests one after the other from an empty database; right
    after [generate] the subject has exactly one register, the one just
    built and returned, whatever was stored before, and between the delete
    and the insert it has none; so a second [generate] leaves the register
    of the second call alone, whose number of risks is the length of the
    template of the second call. *)
Theorem one_register_per_subject jl src reqs data1 data2 user :
  let w := serve_all jl reqs (initial_world src) in
  let w1 := snd (generate_risk_register data1 user w) in
  let w2 := snd (generate_risk_register data2 user w1) in
  at_most_one_register w ∧
  registers_of user w1 = [register_for data1 user w] ∧
  fst (generate_risk_register data1 user w) = inr (register_for data1 user w) ∧
  List.filter (owned_by user) (delete_many (owned_by user) (risk_registers (db w1))) = [] ∧
  fst (generate_risk_register data2 user w1) = inr (register_for data2 user w1) ∧
  registers_of user w2 = [register_for data2 user w1] ∧
  length (risks (register_for data2 user w1)) = length (template_for (rg_business_type data2)) ∧
  total_risks (register_for data2 user w1)
    = Z.of_nat (length (template_for (rg_business_type data2))) ∧
  at_most_one_register w2.
Proof.
  intros w w1 w2.
  assert (H0 : at_most_one_register w).
  { apply serve_all_at_most_one_register. intros u. simpl. lia. }
  split; [exact H0|].
  split; [apply registers_after_generate|].
  split; [by rewrite generate_risk_register_run|].
  split; [apply filter_delete_many|].
  split; [by rewrite generate_risk_register_run|].
  split; [apply registers_after_generate|].
  split; [apply instantiated_length|].
  split; [reflexivity|].
  apply (serve_all_at_most_one_register jl
           [GenerateRiskRegister data1 user; GenerateRiskRegister data2 user] w H0).
Qed.

Lemma general_template_for : template_for "general" = template_general.
Proof. by vm_compute. Qed.

(** C6: [generate] looks the template up under the business type in lower
    case with every space replaced by an underscore; when that key is not
    in [RISK_TEMPLATES] it does not raise and instantiates the entries of
    the "general" template: its risks carry the title, description,
    likelihood, impact, category and mitigation of those entries, status
    "identified", no owner, due date or notes, and ids drawn from
    [uuid4], and they agree on every field but [risk_id] with the risks
    generated for the business type "general". *)
Theorem unknown_business_type_uses_general :
  (∀ business_type,
     normalize_business_type business_type = str_replace " " "_" (str_lower business_type)) ∧
  normalize_business_type "Professional Services" = "professional_services" ∧
  (∀ data user w,
     ∃ reg w',
       generate_risk_register data user w = (inr reg, w') ∧
       risks reg =
         instantiated
           (default template_general
              (RISK_TEMPLATES !! normalize_business_type (rg_business_type data)))
           (uuid_source w) (uuid_drawn w)) ∧
  (∀ data user w,
     RISK_TEMPLATES !! normalize_business_type (rg_business_type data) = None →
     ∃ reg w',
       generate_risk_register data user w = (inr reg, w') ∧
       Forall2 copied_from template_general (risks reg) ∧
       map risk_id (risks reg) =
         map (uuid_source w) (seq (uuid_drawn w) (length template_general)) ∧
       ∀ industry0 user0 w0,
         ∃ reg0 w0',
           generate_risk_register
             {| rg_business_type := "general"; rg_industry := industry0 |} user0 w0
             = (inr reg0, w0') ∧
           Forall2 same_but_id (risks reg) (risks reg0)).
Proof.
  split; [done|]. split; [by vm_compute|]. split.
  - intros data user w. eexists _, _. split; [apply generate_risk_register_run|done].
  - intros data user w Hnone.
    eexists _, _. split; [apply generate_risk_register_run|].
    unfold register_for, template_for. cbn [risks]. rewrite Hnone. cbn [default].
    split; [apply instantiated_copied|]. split; [apply instantiated_ids|].
    intros industry0 user0 w0.
    eexists _, _. split; [apply generate_risk_register_run|].
    unfold register_for. cbn [risks rg_business_type]. rewrite general_template_for.
    apply instantiated_same_but_id.
Qed.

Lemma unknown_business_type_uses_general_witness :
  RISK_TEMPLATES !! normalize_business_type "Car Wash" = None ∧
  ∃ reg w',
    generate_risk_register {| rg_business_type := "Car Wash"; rg_industry := None |}
      example_user example_world = (inr reg, w') ∧
    Forall2 copied_from template_general (risks reg) ∧
    map risk_id (risks reg) =
      map (uuid_source example_world)
        (seq (uuid_drawn example_world) (length template_general)) ∧
    ∀ industry0 user0 w0,
      ∃ reg0 w0',
        generate_risk_register
          {| rg_business_type := "general"; rg_industry := industry0 |} user0 w0
          = (inr reg0, w0') ∧
        Forall2 same_but_id (risks reg) (risks reg0).
Proof.
  split; [by vm_compute|].
  apply (proj2 (proj2 (proj2 unknown_business_type_uses_general))
           {| rg_business_type := "Car Wash"; rg_industry := None |}
           example_user example_world).
  by vm_compute.
Defined.

(** C7: [update_risk] answers 404 and leaves the whole state as it was
    when the subject has no register and when no risk of the register has
    the given id.  Otherwise it answers with the new status, and the
    register that is then stored for the subject is the old one with the
    first risk of that id changed: its list of risks is the old list with
    that one risk replaced, in place, and its id, subject, business type,
    industry and number of risks are the old ones.  The status of the
    changed risk is the one sent, its notes are the ones sent when they
    are a non-empty string and stay as they were when they are omitted or
    empty, and its other fields stay as they were.  Users, assessments and
    documents are not written. *)
Theorem update_risk_outcomes id upd user w :
  (find_one (owned_by user) (risk_registers (db w)) = None →
   update_risk id upd user w = (inl (HTTPException 404 "Risk register not found"), w)) ∧
  (∀ reg,
     find_one (owned_by user) (risk_registers (db w)) = Some reg →
     Forall (fun r => risk_id r ≠ id) (risks reg) →
     update_risk id upd user w = (inl (HTTPException 404 "Risk not found"), w)) ∧
  (∀ reg rs1 r rs2,
     find_one (owned_by user) (risk_registers (db w)) = Some reg →
     risks reg = rs1 ++ r :: rs2 →
     Forall (fun r => risk_id r ≠ id) rs1 → risk_id r = id →
     ∃ w' r' reg',
       update_risk id upd user w =
         (inr {| message := "Risk updated successfully";
                 updated_risk_id := id;
                 updated_status := ru_status upd |}, w') ∧
       find_one (owned_by user) (risk_registers (db w')) = Some reg' ∧
       risks reg' = rs1 ++ r' :: rs2 ∧
       rr_id reg' = rr_id reg ∧ rr_user_id reg' = rr_user_id reg ∧
       rr_business_type reg' = rr_business_type reg ∧ rr_industry reg' = rr_industry reg ∧
       total_risks reg' = total_risks reg ∧
       risk_registers (db w') =
         update_one (owned_by user) (set_risks (rs1 ++ r' :: rs2)) (risk_registers (db w)) ∧
       length (risk_registers (db w')) = length (risk_registers (db w)) ∧
       users (db w') = users (db w) ∧
       health_checks (db w') = health_checks (db w) ∧
       documents (db w') = documents (db w) ∧
       status r' = ru_status upd ∧
       (ru_notes upd = None ∨ ru_notes upd = Some EmptyString → risk_notes r' = risk_notes r) ∧
       (∀ s, ru_notes upd = Some s → s ≠ EmptyString → risk_notes r' = Some s) ∧
       risk_id r' = risk_id r ∧ title r' = title r ∧ description r' = description r ∧
       likelihood r' = likelihood r ∧ impact r' = impact r ∧ category r' = category r ∧
       mitigation r' = mitigation r ∧ owner r' = owner r ∧ due_date r' = due_date r).
Proof.
  split; [apply update_risk_no_register|]. split; [apply update_risk_no_risk|].
  intros reg rs1 r rs2 Hfind Hrs Hno Hr.
  eexists _, (apply_update upd r), (set_risks (rs1 ++ apply_update upd r :: rs2) reg).
  split; [by apply (update_risk_found id upd user w reg rs1 r rs2)|].
  split.
  { cbn [db risk_registers set_risk_registers]. apply find_one_update_one; [done|].
    unfold owned_by, set_risks. cbn [rr_user_id].
    unfold find_one in Hfind. by apply find_some in Hfind as [_ ?]. }
  do 6 (split; [reflexivity|]).
  split; [reflexivity|].
  split; [cbn [db risk_registers set_risk_registers]; apply update_one_length|].
  do 3 (split; [reflexivity|]).
  split; [reflexivity|]. split.
  { intros [H|H]; unfold apply_update; cbn [risk_notes]; by rewrite H. }
  split.
  { intros s H Hs. unfold apply_update. cbn [risk_notes]. rewrite H.
    by destruct s. }
  by repeat split.
Qed.

Lemma update_risk_outcomes_witness :
  update_risk "uuid-i" plan_agreed stranger retail_world
    = (inl (HTTPException 404 "Risk register not found"), retail_world) ∧
  update_risk "retail_2" plan_agreed example_user retail_world
    = (inl (HTTPException 404 "Risk not found"), retail_world) ∧
  ∃ w' reg' r',
    update_risk "uuid-i" plan_agreed example_user retail_world
      = (inr {| message := "Risk updated successfully";
                updated_risk_id := "uuid-i";
                updated_status := "mitigating" |}, w') ∧
    find_one (owned_by example_user) (risk_registers (db w')) = Some reg' ∧
    length (risks reg') = 5%nat ∧
    risks reg' !! 1%nat = Some r' ∧
    risk_id r' = "uuid-i" ∧ title r' = "E-commerce Platform Vulnerability" ∧
    status r' = "mitigating" ∧ risk_notes r' = Some "Plan agreed".
Proof.
  split; [|split].
  - apply (proj1 (update_risk_outcomes "uuid-i" plan_agreed stranger retail_world)).
    by vm_compute.
  - eapply (proj1 (proj2 (update_risk_outcomes "retail_2" plan_agreed example_user
                            retail_world))).
    + by vm_compute.
    + repeat constructor; by vm_compute.
  - destruct (proj2 (proj2 (update_risk_outcomes "uuid-i" plan_agreed example_user
                              retail_world))
                (register_for {| rg_business_type := "Retail"; rg_industry := None |}
                   example_user example_world)
                [instantiate_risk (template_retail !!! 0%nat) "uuid-"]
                (instantiate_risk (template_retail !!! 1%nat) "uuid-i")
                (instantiated (drop 2 template_retail) (uuid_source example_world) 2))
      as (w' & r' & reg' & Hrun & Hfind & Hrisks & _ & _ & _ & _ & _ & _ & _ & _ & _ & _ &
          Hst & _ & Hn & Hid & Hti & _).
    + by vm_compute.
    + by vm_compute.
    + repeat constructor; by vm_compute.
    + reflexivity.
    + exists w', reg', r'. split; [exact Hrun|]. split; [exact Hfind|].
      split; [by rewrite Hrisks|]. split; [by rewrite Hrisks|].
      split; [by rewrite Hid|]. split; [by rewrite Hti|].
      split; [exact Hst|]. by apply (Hn "Plan agreed").
Defined.

(** ** Status values *)

(** C8, on the code: [generate] stores risks with status "identified"
    only, but [update_risk] stores the status it is sent unchecked; sent
    "banana" for the first risk of the register, it answers with success
    and the stored register holds a risk whose status is none of the four
    values. *)
Theorem update_risk_stores_any_status :
  (∀ data user w, Forall (fun r => status r ∈ status_values) (risks (register_for data user w))) ∧
  Forall (fun reg => Forall (fun r => status r ∈ status_values) (risks reg))
    (risk_registers (db retail_world)) ∧
  ∃ w' reg r,
    update_risk "uuid-" any_status example_user retail_world
      = (inr {| message := "Risk updated successfully";
                updated_risk_id := "uuid-";
                updated_status := "banana" |}, w') ∧
    find_one (owned_by example_user) (risk_registers (db w')) = Some reg ∧
    r ∈ risks reg ∧ status r = "banana" ∧ status r ∉ status_values.
Proof.
  split; [|split].
  - intros data user w. unfold register_for. cbn [risks].
    eapply Forall_impl; [apply instantiated_status|].
    intros r ->. unfold status_values. set_solver.
  - apply (bool_decide_unpack _). by vm_compute.
  - eexists _, _, _. split; [by vm_compute|]. split; [by vm_compute|].
    split; [by left|]. split; [reflexivity|].
    intros H. apply (bool_decide_pack _) in H. by vm_compute in H.
Qed.

(** ** Documents *)

Lemma find_one_has_id_and_owner document_id user docs d :
  find_one (has_id document_id) docs = Some d →
  doc_user_id d = user_id user →
  find_one (has_id_and_owner document_id user) docs = Some d.
Proof.
  unfold find_one, has_id_and_owner, has_id. intros H Hu.
  induction docs as [|x docs IH]; simpl in *; [done|].
  destruct (String.eqb (doc_id x) document_id); simpl.
  - injection H as ->. by rewrite Hu, String.eqb_refl.
  - by apply IH.
Qed.







Lemma analyze_document_failure jl completion document_id user w d e :
  find_one (has_id document_id) (documents (db w)) = Some d →
  doc_user_id d = user_id user →
  analysis_attempt jl completion = inl e →
  analyze_document jl completion document_id user w =
  (inl (HTTPException 500 ("Analysis failed: " ++ e)),
   {| db := set_documents (update_one (has_id document_id) (set_failed e)) (db w);
      uuid_source := uuid_source w; uuid_drawn := uuid_drawn w |}).
Proof.
  intros Hd Hu He. unfold analyze_document, mbind, Handler_bind, read_db.
  by rewrite (find_one_has_id_and_owner _ _ _ d), He.
Qed.

Lemma analyze_document_success jl completion document_id user w d data :
  find_one (has_id document_id) (documents (db w)) = Some d →
  doc_user_id d = user_id user →
  analysis_attempt jl completion = inr data →
  analyze_document jl completion document_id user w =
  (inr {| an_document_id := document_id; an_filename := filename d; an_analysis := data |},
   {| db := set_documents (update_one (has_id document_id) (set_completed data)) (db w);
      uuid_source := uuid_source w; uuid_drawn := uuid_drawn w |}).
Proof.
  intros Hd Hu He. unfold analyze_document, mbind, Handler_bind, read_db.
  by rewrite (find_one_has_id_and_owner _ _ _ d), He.
Qed.



(** * Further properties of the handlers *)

(** ** Scoring: ranges, extremes and monotonicity *)

Lemma filter_none {A} (f : A → bool) l :
  (∀ x, x ∈ l → f x = false) → List.filter f l = [].
Proof.
  induction l as [|x l IH]; intros H; simpl; [done|].
  rewrite (H x) by (by left). apply IH. intros y Hy. apply H. by right.
Qed.

Lemma filter_all {A} (f : A → bool) l :
  (∀ x, x ∈ l → f x = true) → List.filter f l = l.
Proof.
  induction l as [|x l IH]; intros H; simpl; [done|].
  rewrite (H x) by (by left). f_equal. apply IH. intros y Hy. apply H. by right.
Qed.

Lemma answered_as_exclusive rs q :
  answered_as true rs q = true → answered_as false rs q = false.
Proof.
  unfold answered_as. destruct (last_answer (q_id q) rs) as [r|]; [|done].
  by destruct (answer r).
Qed.

Lemma achieved_none p cat rs :
  (∀ q, q ∈ cat → answered_as true rs q = false) → achieved p cat rs = 0.
Proof.
  intros H. unfold achieved. rewrite filter_none; [done|].
  intros q Hq. rewrite (H q Hq). apply andb_false_r.
Qed.

Lemma achieved_all p cat rs :
  (∀ q, q ∈ cat → answered_as true rs q = true) → achieved p cat rs = maximum p cat.
Proof.
  intros H. unfold achieved, maximum. f_equal. apply filter_ext_in.
  intros q Hq%list_elem_of_In. rewrite (H q Hq). apply andb_true_r.
Qed.

Lemma sum_weights_filter_nonneg (f : Question → bool) qs :
  Forall (fun q => 0 <= q_weight q) qs → 0 <= sum_weights (List.filter f qs).
Proof.
  intros H. by apply (sum_weights_filter_mono f (fun _ => true) qs H).
Qed.

Lemma achieved_mono p cat rs rs' :
  Forall (fun q => 0 <= q_weight q) cat →
  (∀ q, q ∈ cat → answered_as true rs q = true → answered_as true rs' q = true) →
  achieved p cat rs <= achieved p cat rs'.
Proof.
  unfold achieved. induction cat as [|q cat IH]; intros Hw H; simpl; [lia|].
  apply Forall_cons in Hw as [Hq Hw].
  assert (IH' : sum_weights (List.filter (fun q => p q && answered_as true rs q) cat)
                <= sum_weights (List.filter (fun q => p q && answered_as true rs' q) cat)).
  { apply IH; [done|]. intros q' Hq'. apply H. by right. }
  pose proof (sum_weights_filter_nonneg (fun q => p q && answered_as true rs' q) cat Hw).
  assert (Hq' : answered_as true rs q = true → answered_as true rs' q = true).
  { apply H. by left. }
  destruct (p q); simpl; [|exact IH'].
  destruct (answered_as true rs q).
  - rewrite Hq' by done. simpl. lia.
  - destruct (answered_as true rs' q); simpl; lia.
Qed.

Lemma percentages_monotone_step max s :
  percentages_monotone max = true → 0 <= s < max →
  ∃ p p', percentage s max = Some p ∧ percentage (s + 1) max = Some p' ∧ p <= p'.
Proof.
  unfold percentages_monotone. intros [H _]%andb_prop Hs.
  rewrite forallb_forall in H.
  assert (Hin : In s (seqZ 0 max)).
  { apply list_elem_of_In, elem_of_seqZ. lia. }
  specialize (H s Hin).
  destruct (percentage s max) as [p|], (percentage (s + 1) max) as [p'|]; try discriminate.
  exists p, p'. split; [done|]. split; [done|]. by apply Z.leb_le.
Qed.

Lemma percentages_monotone_defined max s :
  percentages_monotone max = true → 0 <= s <= max → is_Some (percentage s max).
Proof.
  intros H Hs. destruct (decide (s = max)) as [->|Hne].
  - unfold percentages_monotone in H. apply andb_prop in H as [_ H].
    destruct (percentage max max); [by eexists|discriminate].
  - destruct (percentages_monotone_step max s H) as (p & _ & -> & _); [lia|by eexists].
Qed.

Lemma percentages_monotone_spec max s s' :
  percentages_monotone max = true → 0 <= s <= s' → s' <= max →
  ∃ p p', percentage s max = Some p ∧ percentage s' max = Some p' ∧ p <= p'.
Proof.
  intros H Hs Hs'.
  assert (G : ∀ n : nat, s + Z.of_nat n <= max →
    ∃ p p', percentage s max = Some p ∧ percentage (s + Z.of_nat n) max = Some p' ∧ p <= p').
  { induction n as [|n IH]; intros Hn.
    - destruct (percentages_monotone_defined max s H) as [p Hp]; [lia|].
      exists p, p. rewrite Z.add_0_r. split; [done|]. split; [done|lia].
    - destruct IH as (p & p' & Hp & Hp' & Hle); [lia|].
      destruct (percentages_monotone_step max (s + Z.of_nat n) H)
        as (q & q' & Hq & Hq' & Hle'); [lia|].
      exists p, q'. split; [done|].
      replace (s + Z.of_nat (S n)) with (s + Z.of_nat n + 1) by lia.
      split; [done|]. rewrite Hp' in Hq. injection Hq as <-. lia. }
  destruct (G (Z.to_nat (s' - s))) as (p & p' & Hp & Hp' & Hle); [lia|].
  replace (s + Z.of_nat (Z.to_nat (s' - s))) with s' in Hp' by lia.
  by exists p, p'.
Qed.

(** X1: whatever is submitted, the three scores of the assessment lie
    between 0 and 100. *)
Theorem scores_between_0_and_100 submission user w :
  ∃ hc w',
    submit_health_check submission user w = (inr hc, w') ∧
    0 <= hc_gdpr_score hc <= 100 ∧
    0 <= hc_cyber_essentials_score hc <= 100 ∧
    0 <= hc_compliance_score hc <= 100.
Proof.
  destruct (real_percentages (responses submission))
    as (g & c & o & Hg & Hc & Ho & Rg & Rc & Ro).
  eexists _, _. split.
  - by apply (submit_health_check_on_run ALL_QUESTIONS submission user w g c o).
  - rewrite !(proj1 (assessment_of_scores _ _ _ _ _ _ _)).
    rewrite !(proj1 (proj2 (assessment_of_scores _ _ _ _ _ _ _))).
    rewrite !(proj1 (proj2 (proj2 (assessment_of_scores _ _ _ _ _ _ _)))).
    done.
Qed.

Lemma sort_gaps_nil : sort_gaps [] = [].
Proof. reflexivity. Qed.

(** The result of the handler in terms of [achieved] and [maximum]. *)
Lemma submit_health_check_scores rs user w :
  ∃ hc w',
    submit_health_check {| responses := rs |} user w = (inr hc, w') ∧
    percentage (achieved is_gdpr ALL_QUESTIONS rs) (maximum is_gdpr ALL_QUESTIONS)
      = Some (hc_gdpr_score hc) ∧
    percentage (achieved is_cyber ALL_QUESTIONS rs) (maximum is_cyber ALL_QUESTIONS)
      = Some (hc_cyber_essentials_score hc) ∧
    percentage (achieved any_category ALL_QUESTIONS rs) (maximum any_category ALL_QUESTIONS)
      = Some (hc_compliance_score hc) ∧
    hc_risk_level hc = risk_level_of (hc_compliance_score hc) ∧
    hc_gaps hc = sort_gaps (map make_gap (List.filter (answered_as false rs) ALL_QUESTIONS)) ∧
    hc_total_gaps hc = Z.of_nat (length (hc_gaps hc)).
Proof.
  destruct (submit_health_check_run {| responses := rs |} user w)
    as (g & c & o & Hg & Hc & Ho & Hrun).
  cbn [responses] in Hg, Hc, Ho, Hrun.
  eexists _, _. split; [exact Hrun|].
  split; [exact Hg|]. split; [exact Hc|]. split; [exact Ho|]. by repeat split.
Qed.

Lemma percentage_of_maxima :
  percentage 0 (maximum is_gdpr ALL_QUESTIONS) = Some 0 ∧
  percentage 0 (maximum is_cyber ALL_QUESTIONS) = Some 0 ∧
  percentage 0 (maximum any_category ALL_QUESTIONS) = Some 0 ∧
  percentage (maximum is_gdpr ALL_QUESTIONS) (maximum is_gdpr ALL_QUESTIONS) = Some 100 ∧
  percentage (maximum is_cyber ALL_QUESTIONS) (maximum is_cyber ALL_QUESTIONS) = Some 100 ∧
  percentage (maximum any_category ALL_QUESTIONS) (maximum any_category ALL_QUESTIONS)
    = Some 100.
Proof. by vm_compute. Qed.

(** X2: a submission that answers no catalog question (an empty one, or
    one with unknown ids only) is accepted and scores 0 in both categories
    and overall, with risk level critical and no gaps. *)
Theorem nothing_answered rs user w :
  (∀ q, q ∈ ALL_QUESTIONS → unanswered rs q) →
  ∃ hc w',
    submit_health_check {| responses := rs |} user w = (inr hc, w') ∧
    hc_gdpr_score hc = 0 ∧ hc_cyber_essentials_score hc = 0 ∧
    hc_compliance_score hc = 0 ∧ hc_risk_level hc = "critical" ∧
    hc_gaps hc = [] ∧ hc_total_gaps hc = 0.
Proof.
  intros H.
  destruct (submit_health_check_scores rs user w)
    as (hc & w' & Hrun & Hg & Hc & Ho & Hr & Hgaps & Ht).
  assert (Ha : ∀ p, achieved p ALL_QUESTIONS rs = 0).
  { intros p. apply achieved_none. intros q Hq. by apply unanswered_answered_as, H. }
  rewrite Ha in Hg, Hc, Ho.
  destruct percentage_of_maxima as (Eg & Ec & Eo & _).
  rewrite Eg in Hg. rewrite Ec in Hc. rewrite Eo in Ho.
  injection Hg as Hg. injection Hc as Hc. injection Ho as Ho.
  rewrite filter_none in Hgaps.
  2:{ intros q Hq. by apply unanswered_answered_as, H. }
  exists hc, w'. split; [exact Hrun|].
  rewrite Ht, Hr, Hgaps, <- Hg, <- Hc, <- Ho. by repeat split.
Qed.

Lemma nothing_answered_witness :
  ∃ hc w',
    submit_health_check {| responses := [] |} example_user example_world = (inr hc, w') ∧
    hc_compliance_score hc = 0 ∧ hc_risk_level hc = "critical" ∧ hc_gaps hc = [].
Proof.
  destruct (nothing_answered [] example_user example_world)
    as (hc & w' & Hrun & _ & _ & Ho & Hr & Hg & _).
  - intros q _. constructor.
  - exists hc, w'. split; [exact Hrun|]. split; [exact Ho|]. split; [exact Hr|exact Hg].
Defined.

(** X3: a submission whose last answer to every catalog question is true
    scores 100 in both categories and overall, with risk level low and no
    gaps. *)
Theorem everything_answered_true rs user w :
  (∀ q, q ∈ ALL_QUESTIONS → answered_as true rs q = true) →
  ∃ hc w',
    submit_health_check {| responses := rs |} user w = (inr hc, w') ∧
    hc_gdpr_score hc = 100 ∧ hc_cyber_essentials_score hc = 100 ∧
    hc_compliance_score hc = 100 ∧ hc_risk_level hc = "low" ∧
    hc_gaps hc = [] ∧ hc_total_gaps hc = 0.
Proof.
  intros H.
  destruct (submit_health_check_scores rs user w)
    as (hc & w' & Hrun & Hg & Hc & Ho & Hr & Hgaps & Ht).
  assert (Ha : ∀ p, achieved p ALL_QUESTIONS rs = maximum p ALL_QUESTIONS).
  { intros p. by apply achieved_all. }
  rewrite Ha in Hg, Hc, Ho.
  destruct percentage_of_maxima as (_ & _ & _ & Eg & Ec & Eo).
  rewrite Eg in Hg. rewrite Ec in Hc. rewrite Eo in Ho.
  injection Hg as Hg. injection Hc as Hc. injection Ho as Ho.
  rewrite filter_none in Hgaps.
  2:{ intros q Hq. by apply answered_as_exclusive, H. }
  exists hc, w'. split; [exact Hrun|].
  rewrite Ht, Hr, Hgaps, <- Hg, <- Hc, <- Ho. by repeat split.
Qed.

Lemma everything_answered_true_witness :
  ∃ hc w',
    submit_health_check {| responses := answer_all true |} example_user example_world
      = (inr hc, w') ∧
    hc_compliance_score hc = 100 ∧ hc_risk_level hc = "low" ∧ hc_gaps hc = [].
Proof.
  destruct (everything_answered_true (answer_all true) example_user example_world)
    as (hc & w' & Hrun & _ & _ & Ho & Hr & Hg & _).
  - apply Forall_forall. apply (bool_decide_unpack _). by vm_compute.
  - exists hc, w'. split; [exact Hrun|]. split; [exact Ho|]. split; [exact Hr|exact Hg].
Defined.

Lemma catalog_percentages_monotone :
  percentages_monotone (maximum is_gdpr ALL_QUESTIONS) = true ∧
  percentages_monotone (maximum is_cyber ALL_QUESTIONS) = true ∧
  percentages_monotone (maximum any_category ALL_QUESTIONS) = true.
Proof. by vm_compute. Qed.

Lemma achieved_bounds p rs :
  0 <= achieved p ALL_QUESTIONS rs <= maximum p ALL_QUESTIONS.
Proof.
  apply sum_weights_filter_mono; [apply catalog_weights_nonneg|].
  intros q. by intros [? _]%andb_prop.
Qed.

(** X4: answering more questions with true never lowers a score: when
    every catalog question whose last answer is true in one submission
    also has a true last answer in another, none of the three scores of
    the second is below the score of the first. *)
Theorem more_true_answers_never_lower_scores rs rs' user user' w w' :
  (∀ q, q ∈ ALL_QUESTIONS → answered_as true rs q = true → answered_as true rs' q = true) →
  ∃ hc hc' v v',
    submit_health_check {| responses := rs |} user w = (inr hc, v) ∧
    submit_health_check {| responses := rs' |} user' w' = (inr hc', v') ∧
    hc_gdpr_score hc <= hc_gdpr_score hc' ∧
    hc_cyber_essentials_score hc <= hc_cyber_essentials_score hc' ∧
    hc_compliance_score hc <= hc_compliance_score hc'.
Proof.
  intros H.
  destruct (submit_health_check_scores rs user w)
    as (hc & v & Hrun & Hg & Hc & Ho & _).
  destruct (submit_health_check_scores rs' user' w')
    as (hc' & v' & Hrun' & Hg' & Hc' & Ho' & _).
  exists hc, hc', v, v'. split; [exact Hrun|]. split; [exact Hrun'|].
  destruct catalog_percentages_monotone as (Mg & Mc & Mo).
  assert (Hm : ∀ p, achieved p ALL_QUESTIONS rs <= achieved p ALL_QUESTIONS rs').
  { intros p. apply achieved_mono; [apply catalog_weights_nonneg|exact H]. }
  pose proof (achieved_bounds is_gdpr rs) as Bg.
  pose proof (achieved_bounds is_cyber rs) as Bc.
  pose proof (achieved_bounds any_category rs) as Bo.
  pose proof (achieved_bounds is_gdpr rs') as Bg'.
  pose proof (achieved_bounds is_cyber rs') as Bc'.
  pose proof (achieved_bounds any_category rs') as Bo'.
  pose proof (Hm is_gdpr) as Lg. pose proof (Hm is_cyber) as Lc.
  pose proof (Hm any_category) as Lo.
  destruct (percentages_monotone_spec _ _ _ Mg (conj (proj1 Bg) Lg) (proj2 Bg'))
    as (x & x' & Ex & Ex' & Hx).
  destruct (percentages_monotone_spec _ _ _ Mc (conj (proj1 Bc) Lc) (proj2 Bc'))
    as (y & y' & Ey & Ey' & Hy).
  destruct (percentages_monotone_spec _ _ _ Mo (conj (proj1 Bo) Lo) (proj2 Bo'))
    as (z & z' & Ez & Ez' & Hz).
  rewrite Ex in Hg. rewrite Ex' in Hg'. rewrite Ey in Hc. rewrite Ey' in Hc'.
  rewrite Ez in Ho. rewrite Ez' in Ho'.
  injection Hg as <-. injection Hg' as <-. injection Hc as <-. injection Hc' as <-.
  injection Ho as <-. injection Ho' as <-.
  by repeat split.
Qed.

Lemma more_true_answers_never_lower_scores_witness :
  ∃ hc hc' v v',
    submit_health_check {| responses := partial_answers |} example_user example_world
      = (inr hc, v) ∧
    submit_health_check {| responses := answer_all true |} example_user example_world
      = (inr hc', v') ∧
    hc_compliance_score hc <= hc_compliance_score hc'.
Proof.
  destruct (more_true_answers_never_lower_scores partial_answers (answer_all true)
              example_user example_user example_world example_world)
    as (hc & hc' & v & v' & Hrun & Hrun' & _ & _ & Ho).
  - apply (proj1 (Forall_forall
             (fun q => answered_as true partial_answers q = true →
                       answered_as true (answer_all true) q = true) ALL_QUESTIONS)).
    apply (bool_decide_unpack _). by vm_compute.
  - exists hc, hc', v, v'. split; [exact Hrun|]. split; [exact Hrun'|exact Ho].
Defined.

(** X5: a submission adds one record to the assessments, the one it
    returns, with the next uuid as id and the caller as subject; the
    assessments stored before stay in place, and the users, the documents
    and the risk registers are not touched. *)
Theorem submit_appends_one_assessment submission user w :
  ∃ hc w',
    submit_health_check submission user w = (inr hc, w') ∧
    health_checks (db w') = health_checks (db w) ++ [hc] ∧
    hc_id hc = uuid_source w (uuid_drawn w) ∧
    hc_user_id hc = user_id user ∧
    users (db w') = users (db w) ∧
    documents (db w') = documents (db w) ∧
    risk_registers (db w') = risk_registers (db w) ∧
    uuid_drawn w' = S (uuid_drawn w).
Proof.
  destruct (submit_health_check_run submission user w)
    as (g & c & o & _ & _ & _ & Hrun).
  eexists _, _. split; [exact Hrun|]. by repeat split.
Qed.

Lemma sort_gaps_length gs : length (sort_gaps gs) = length gs.
Proof. unfold sort_gaps. apply Permutation_length, sort_by_key_perm. Qed.

Lemma catalog_length : length ALL_QUESTIONS = 30%nat.
Proof. reflexivity. Qed.

(** X6: [total_gaps] is the number of catalog questions whose last answer
    is false; it is at most 30, and the gap list is empty exactly when no
    catalog question is answered false. *)
Theorem total_gaps_counts_false_answers rs user w :
  ∃ hc w',
    submit_health_check {| responses := rs |} user w = (inr hc, w') ∧
    hc_total_gaps hc
      = Z.of_nat (length (List.filter (answered_as false rs) ALL_QUESTIONS)) ∧
    0 <= hc_total_gaps hc <= 30 ∧
    (hc_gaps hc = [] ↔ ∀ q, q ∈ ALL_QUESTIONS → answered_as false rs q = false).
Proof.
  destruct (submit_health_check_scores rs user w)
    as (hc & w' & Hrun & _ & _ & _ & _ & Hgaps & Ht).
  exists hc, w'. split; [exact Hrun|].
  assert (Hlen : length (hc_gaps hc)
               = length (List.filter (answered_as false rs) ALL_QUESTIONS)).
  { by rewrite Hgaps, sort_gaps_length, length_map. }
  rewrite Ht, Hlen.
  pose proof (filter_length_le (answered_as false rs) ALL_QUESTIONS) as Hle.
  rewrite catalog_length in Hle.
  split; [done|]. split; [lia|].
  split.
  - intros Hnil q Hq. rewrite Hnil in Hlen. symmetry in Hlen.
    apply length_zero_iff_nil in Hlen.
    destruct (answered_as false rs q) eqn:E; [|done].
    assert (In q (List.filter (answered_as false rs) ALL_QUESTIONS)) as Hin.
    { apply filter_In. split; [by apply list_elem_of_In|done]. }
    rewrite Hlen in Hin. destruct Hin.
  - intros Hall. rewrite filter_none in Hlen by done.
    by apply length_zero_iff_nil in Hlen.
Qed.

Lemma last_answer_strip_notes k rs :
  last_answer k (map strip_notes rs) = strip_notes <$> last_answer k rs.
Proof.
  unfold last_answer.
  replace (List.filter (fun r => String.eqb (question_id r) k) (map strip_notes rs))
    with (strip_notes <$> List.filter (fun r => String.eqb (question_id r) k) rs).
  - apply fmap_last.
  - induction rs as [|r rs IH]; [done|]. simpl.
    destruct (String.eqb (question_id r) k); simpl; by rewrite <- IH.
Qed.

Lemma answered_as_strip_notes b rs q :
  answered_as b (map strip_notes rs) q = answered_as b rs q.
Proof.
  unfold answered_as. rewrite last_answer_strip_notes.
  by destruct (last_answer (q_id q) rs).
Qed.

Lemma submit_health_check_on_scoring_ext cat rs rs' user user' w w' g c o :
  percentage (achieved is_gdpr cat rs) (maximum is_gdpr cat) = Some g →
  percentage (achieved is_cyber cat rs) (maximum is_cyber cat) = Some c →
  percentage (achieved any_category cat rs) (maximum any_category cat) = Some o →
  (∀ b q, q ∈ cat → answered_as b rs q = answered_as b rs' q) →
  ∃ hc hc' v v',
    submit_health_check_on cat {| responses := rs |} user w = (inr hc, v) ∧
    submit_health_check_on cat {| responses := rs' |} user' w' = (inr hc', v') ∧
    same_scoring hc hc' ∧ hc_responses hc = rs ∧ hc_responses hc' = rs'.
Proof.
  intros Hg Hc Ho H.
  assert (Ha : ∀ p, achieved p cat rs = achieved p cat rs').
  { intros p. unfold achieved. f_equal. apply filter_ext_in.
    intros q Hq%list_elem_of_In. by rewrite (H true q Hq). }
  assert (Hf : List.filter (answered_as false rs) cat
             = List.filter (answered_as false rs') cat).
  { apply filter_ext_in. intros q Hq%list_elem_of_In. by apply H. }
  eexists _, _, _, _.
  split; [by apply (submit_health_check_on_run cat {| responses := rs |} user w g c o)|].
  split.
  { apply (submit_health_check_on_run cat {| responses := rs' |} user' w' g c o);
      cbn [responses]; by rewrite <- Ha. }
  unfold same_scoring, assessment_of. cbn [hc_compliance_score hc_gdpr_score
    hc_cyber_essentials_score hc_risk_level hc_gaps hc_total_gaps responses hc_responses].
  by rewrite Hf.
Qed.

(** X7: the notes of the answers, the subject and the state of the
    database have no part in the scoring: a submission and the same
    submission without its notes, sent by any two subjects in any two
    states, get the same scores, risk level and gaps. *)
Theorem scoring_ignores_notes_and_subject rs user user' w w' :
  ∃ hc hc' v v',
    submit_health_check {| responses := rs |} user w = (inr hc, v) ∧
    submit_health_check {| responses := map strip_notes rs |} user' w' = (inr hc', v') ∧
    same_scoring hc hc' ∧
    hc_responses hc = rs ∧ hc_responses hc' = map strip_notes rs.
Proof.
  destruct (real_percentages rs) as (g & c & o & Hg & Hc & Ho & _).
  apply (submit_health_check_on_scoring_ext ALL_QUESTIONS rs (map strip_notes rs)
           user user' w w' g c o Hg Hc Ho).
  intros b q _. symmetry. apply answered_as_strip_notes.
Qed.

(** ** Risk register: round trips, shape and isolation *)

Lemma find_one_filter {A} (p : A → bool) l : find_one p l = head (List.filter p l).
Proof.
  unfold find_one. induction l as [|x l IH]; simpl; [done|]. by destruct (p x).
Qed.

(** X8: after [generate], [get] returns the register just generated and
    changes nothing; for a subject without a register it returns [None];
    and a register it returns always belongs to the caller. *)
Theorem get_returns_generated_register data user w :
  get_risk_register user (snd (generate_risk_register data user w))
    = (inr (Some (register_for data user w)), snd (generate_risk_register data user w)) ∧
  (∀ v, registers_of user v = [] → get_risk_register user v = (inr None, v)) ∧
  (∀ v r, get_risk_register user v = (inr (Some r), v) → rr_user_id r = user_id user).
Proof.
  split; [|split].
  - unfold get_risk_register, mbind, Handler_bind, read_db, mret, Handler_ret.
    rewrite find_one_filter.
    pose proof (registers_after_generate data user w) as H. unfold registers_of in H.
    by rewrite H.
  - intros v H. unfold get_risk_register, mbind, Handler_bind, read_db, mret, Handler_ret.
    rewrite find_one_filter. unfold registers_of in H. by rewrite H.
  - intros v r. unfold get_risk_register, mbind, Handler_bind, read_db, mret, Handler_ret.
    intros [= H]. unfold find_one in H. apply find_some in H as [_ H].
    by apply String.eqb_eq.
Qed.

Lemma templates_have_five_entries :
  map_Forall (fun _ ts => length ts = 5%nat) RISK_TEMPLATES.
Proof. apply (bool_decide_unpack _). by vm_compute. Qed.

Lemma template_for_length business_type : length (template_for business_type) = 5%nat.
Proof.
  unfold template_for.
  destruct (RISK_TEMPLATES !! normalize_business_type business_type) as [ts|] eqn:E.
  - by apply (templates_have_five_entries _ _ E).
  - reflexivity.
Qed.

(** X9: whatever the business type, the generated register has exactly
    five risks and [total_risks] 5; their ids are the next five values of
    [uuid4], the register id is the sixth, and all of them have status
    "identified". *)
Theorem generated_register_has_five_risks data user w :
  ∃ reg w',
    generate_risk_register data user w = (inr reg, w') ∧
    length (risks reg) = 5%nat ∧ total_risks reg = 5 ∧
    map risk_id (risks reg) = map (uuid_source w) (seq (uuid_drawn w) 5) ∧
    rr_id reg = uuid_source w (uuid_drawn w + 5)%nat ∧
    uuid_drawn w' = (uuid_drawn w + 6)%nat ∧
    Forall (fun r => status r = "identified") (risks reg).
Proof.
  eexists _, _. split; [apply generate_risk_register_run|].
  unfold register_for. cbn [risks total_risks rr_id uuid_drawn].
  rewrite instantiated_length, instantiated_ids, !template_for_length.
  split; [done|]. split; [done|]. split; [done|]. split; [done|].
  split; [lia|apply instantiated_status].
Qed.

Lemma normalize_business_type_chars s :
  normalize_business_type s =
  string_of_list_ascii (map normalize_char (list_ascii_of_string s)).
Proof.
  unfold normalize_business_type. induction s as [|c s IH]; [done|].
  simpl. rewrite <- IH. unfold normalize_char. done.
Qed.

Lemma all_ascii_complete c : In c all_ascii.
Proof.
  unfold all_ascii. rewrite <- (ascii_nat_embedding c). apply in_map, in_seq.
  pose proof (nat_ascii_bounded c). lia.
Qed.

Lemma normalize_char_spec c :
  same_letter c (normalize_char c) = true ∧
  normalize_char c ≠ " "%char ∧
  is_upper_letter (normalize_char c) = false ∧
  normalize_char (normalize_char c) = normalize_char c.
Proof.
  assert (H : forallb (fun c =>
     same_letter c (normalize_char c)
     && negb (Ascii.eqb (normalize_char c) " ")
     && negb (is_upper_letter (normalize_char c))
     && Ascii.eqb (normalize_char (normalize_char c)) (normalize_char c)) all_ascii = true)
    by (by vm_compute).
  rewrite forallb_forall in H. specialize (H c (all_ascii_complete c)).
  apply andb_prop in H as [H H4]. apply andb_prop in H as [H H3].
  apply andb_prop in H as [H1 H2].
  apply negb_true_iff, Ascii.eqb_neq in H2. apply negb_true_iff in H3.
  apply Ascii.eqb_eq in H4. done.
Qed.

Lemma normalize_char_same_letter c c' :
  same_letter c c' = true → normalize_char c = normalize_char c'.
Proof.
  assert (H : forallb (fun c => forallb (fun c' =>
     implb (same_letter c c') (Ascii.eqb (normalize_char c) (normalize_char c')))
     all_ascii) all_ascii = true) by (by vm_compute).
  rewrite forallb_forall in H. specialize (H c (all_ascii_complete c)).
  rewrite forallb_forall in H. specialize (H c' (all_ascii_complete c')).
  intros E. rewrite E in H. by apply Ascii.eqb_eq in H.
Qed.

Lemma normalize_same_business_type s s' :
  same_business_type s s' → normalize_business_type s' = normalize_business_type s.
Proof.
  unfold same_business_type. rewrite !normalize_business_type_chars. intros H. f_equal.
  induction H as [|c c' l l' Hc _ IH]; [done|]. simpl.
  by rewrite IH, (normalize_char_same_letter c c').
Qed.

(** X10: for a business type of ASCII characters, the key under which the
    template is looked up is the business type with every upper-case
    letter replaced by its lower-case form and every space by an
    underscore: it differs from the business type, character by
    character, at most in letter case and in space versus underscore, and
    it has no upper-case letter and no space.  Normalizing the key gives
    the key again.  So the template chosen does not depend on letter case
    or on whether words are separated by spaces or underscores: any text
    that differs from the business type only in that way has the same key
    and gets the same template. *)
Theorem template_choice_ignores_case_and_spaces business_type :
  is_ascii_text business_type →
  let key := normalize_business_type business_type in
  same_business_type business_type key ∧
  Forall (fun c => c ≠ " "%char ∧ is_upper_letter c = false) (list_ascii_of_string key) ∧
  normalize_business_type key = key ∧
  template_for key = template_for business_type ∧
  (∀ other, same_business_type business_type other →
     normalize_business_type other = key ∧
     template_for other = template_for business_type).
Proof.
  intros _ key.
  assert (Hsame : same_business_type business_type key).
  { unfold same_business_type, key.
    rewrite normalize_business_type_chars, list_ascii_of_string_of_list_ascii.
    induction (list_ascii_of_string business_type) as [|c l IH]; simpl; constructor;
      [apply normalize_char_spec|exact IH]. }
  assert (Hother : ∀ other, same_business_type business_type other →
                     normalize_business_type other = key).
  { intros other H. by apply normalize_same_business_type. }
  split; [exact Hsame|]. split; [|split; [|split]].
  - unfold key. rewrite normalize_business_type_chars, list_ascii_of_string_of_list_ascii.
    apply Forall_forall. intros c (c0 & <- & _)%list_elem_of_In%in_map_iff.
    split; apply normalize_char_spec.
  - by apply Hother.
  - unfold template_for. by rewrite (Hother key Hsame).
  - intros other H. split; [by apply Hother|].
    unfold template_for. by rewrite (Hother other H).
Qed.

Lemma template_choice_ignores_case_and_spaces_witness :
  normalize_business_type "Professional Services" = "professional_services" ∧
  template_for "Professional Services" = template_professional_services ∧
  template_for "PROFESSIONAL_SERVICES" = template_professional_services ∧
  template_for "professional-services" = template_general.
Proof.
  split; [by vm_compute|].
  assert (E : template_for "Professional Services" = template_professional_services)
    by (by vm_compute).
  split; [exact E|]. split; [|by vm_compute].
  rewrite <- E.
  apply (template_choice_ignores_case_and_spaces "Professional Services").
  - unfold is_ascii_text. cbn [list_ascii_of_string]. repeat constructor.
  - unfold same_business_type. cbn [list_ascii_of_string]. repeat constructor.
Defined.

Lemma apply_update_idempotent upd r :
  apply_update upd (apply_update upd r) = apply_update upd r.
Proof. unfold apply_update. cbn. by destruct (truthy (ru_notes upd)). Qed.

Lemma update_first_risk_again id upd rs rs' :
  update_first_risk id upd rs = (rs', true) → update_first_risk id upd rs' = (rs', true).
Proof.
  revert rs'. induction rs as [|r rs IH]; intros rs'; simpl; [done|].
  destruct (String.eqb (risk_id r) id) eqn:E.
  - intros [= <-]. simpl. rewrite E. by rewrite apply_update_idempotent.
  - destruct (update_first_risk id upd rs) as [rest u]. intros [= <- ->].
    simpl. rewrite E. by rewrite (IH rest).
Qed.

Lemma update_one_again {A} (p : A → bool) (f : A → A) l :
  (∀ x, p x = true → p (f x) = true ∧ f (f x) = f x) →
  update_one p f (update_one p f l) = update_one p f l.
Proof.
  intros H. induction l as [|x l IH]; simpl; [done|].
  destruct (p x) eqn:E; simpl.
  - destruct (H x E) as [-> ->]. done.
  - by rewrite E, IH.
Qed.

Lemma update_risk_run id upd user w :
  update_risk id upd user w =
  match find_one (owned_by user) (risk_registers (db w)) with
  | None => (inl (HTTPException 404 "Risk register not found"), w)
  | Some reg =>
      match update_first_risk id upd (risks reg) with
      | (rs', true) =>
          (inr {| message := "Risk updated successfully";
                  updated_risk_id := id;
                  updated_status := ru_status upd |},
           {| db := set_risk_registers
                      (update_one (owned_by user) (set_risks rs')) (db w);
              uuid_source := uuid_source w;
              uuid_drawn := uuid_drawn w |})
      | (_, false) => (inl (HTTPException 404 "Risk not found"), w)
      end
  end.
Proof.
  unfold update_risk, mbind, Handler_bind, read_db.
  destruct (find_one _ _) as [reg|]; [|done].
  by destruct (update_first_risk id upd (risks reg)) as [rs' []].
Qed.

(** X11: [update_risk] is idempotent on what it answers and on the risks:
    sending the same update for the same risk a second time gives the
    same answer, a failure again a failure and a success again a success,
    and leaves the risks of every register, with their statuses and
    notes, and its id, subject, business type, industry and number of
    risks as the first call left them; the users, the assessments and the
    documents are those of the first call too.  (A successful call also
    rewrites the [updated_at] of the register; that field is not part of
    the stored register of this development and nothing is said of it.) *)
Theorem update_risk_idempotent id upd user w :
  let first := update_risk id upd user w in
  let second := update_risk id upd user (snd first) in
  fst second = fst first ∧
  map risks (risk_registers (db (snd second))) = map risks (risk_registers (db (snd first))) ∧
  map rr_id (risk_registers (db (snd second)))
    = map rr_id (risk_registers (db (snd first))) ∧
  map rr_user_id (risk_registers (db (snd second)))
    = map rr_user_id (risk_registers (db (snd first))) ∧
  map rr_business_type (risk_registers (db (snd second)))
    = map rr_business_type (risk_registers (db (snd first))) ∧
  map rr_industry (risk_registers (db (snd second)))
    = map rr_industry (risk_registers (db (snd first))) ∧
  map total_risks (risk_registers (db (snd second)))
    = map total_risks (risk_registers (db (snd first))) ∧
  users (db (snd second)) = users (db (snd first)) ∧
  health_checks (db (snd second)) = health_checks (db (snd first)) ∧
  documents (db (snd second)) = documents (db (snd first)).
Proof.
  intros first second.
  assert (E : second = first).
  { subst second first. rewrite (update_risk_run id upd user w).
    destruct (find_one (owned_by user) (risk_registers (db w))) as [reg|] eqn:Hfind.
    - destruct (update_first_risk id upd (risks reg)) as [rs' updated] eqn:Hupd.
      destruct updated; cbn [fst snd].
      + rewrite update_risk_run.
        cbn [db risk_registers set_risk_registers uuid_source uuid_drawn].
        rewrite (find_one_update_one _ _ _ reg Hfind).
        2:{ unfold find_one in Hfind. by apply find_some in Hfind as [_ ?]. }
        cbn [risks set_risks]. rewrite (update_first_risk_again id upd _ _ Hupd).
        unfold set_risk_registers. cbn [users health_checks documents risk_registers].
        rewrite update_one_again; [done|]. intros x Hx. by split.
      + by rewrite update_risk_run, Hfind, Hupd.
    - cbn [fst snd]. by rewrite update_risk_run, Hfind. }
  rewrite E. by repeat split.
Qed.

Lemma Forall2_refl_all {A} (R : A → A → Prop) l : (∀ x, R x x) → Forall2 R l l.
Proof. intros H. induction l; constructor; auto. Qed.

Lemma risk_touched_only_refl id x : risk_touched_only id x x.
Proof. by repeat split. Qed.

Lemma register_touched_only_refl user id r : register_touched_only user id r r.
Proof.
  repeat split; try done. apply Forall2_refl_all, risk_touched_only_refl.
Qed.

Lemma update_first_risk_touched id upd rs :
  Forall2 (risk_touched_only id) rs (fst (update_first_risk id upd rs)).
Proof.
  induction rs as [|r rs IH]; simpl; [constructor|].
  destruct (String.eqb_spec (risk_id r) id) as [E|E]; simpl.
  - constructor; [|apply Forall2_refl_all, risk_touched_only_refl].
    unfold risk_touched_only. cbn. by repeat split.
  - destruct (update_first_risk id upd rs) as [rest u]. simpl in *.
    constructor; [apply risk_touched_only_refl|done].
Qed.

(** X12: [update_risk] never adds, removes or reorders registers or
    risks: after any call every register is where it was, with its id,
    subject, business type, industry and number of risks; the registers
    of other subjects are not written at all; and among the risks of a
    register of the caller only the status and the notes of risks with
    the given id can differ.  Users, documents and assessments are not
    touched and no uuid is drawn.  (A successful call also rewrites the
    [updated_at] of the caller's register; that field is not part of the
    stored register of this development and nothing is said of it.) *)
Theorem update_risk_touches_one_risk_only id upd user w :
  let w' := snd (update_risk id upd user w) in
  Forall2 (register_touched_only user id) (risk_registers (db w)) (risk_registers (db w')) ∧
  users (db w') = users (db w) ∧
  documents (db w') = documents (db w) ∧
  health_checks (db w') = health_checks (db w) ∧
  uuid_drawn w' = uuid_drawn w.
Proof.
  rewrite update_risk_run.
  destruct (find_one (owned_by user) (risk_registers (db w))) as [reg|] eqn:Hfind.
  2:{ cbn. split; [|done]. apply Forall2_refl_all, register_touched_only_refl. }
  pose proof (update_first_risk_touched id upd (risks reg)) as Ht.
  destruct (update_first_risk id upd (risks reg)) as [rs' updated].
  destruct updated.
  2:{ cbn. split; [|done]. apply Forall2_refl_all, register_touched_only_refl. }
  cbn. split; [|done].
  revert Hfind. unfold find_one.
  generalize (risk_registers (db w)). intros regs.
  induction regs as [|r regs IH]; simpl; [done|].
  destruct (owned_by user r) eqn:E.
  - intros [= ->]. constructor; [|apply Forall2_refl_all, register_touched_only_refl].
    unfold register_touched_only, set_risks. cbn. repeat split; try done.
    intros Hne. unfold owned_by in E. by apply String.eqb_eq in E.
  - intros Hfind. constructor; [apply register_touched_only_refl|by apply IH].
Qed.

(** X13: [generate] stores the business type in the subject's profile
    exactly as it was sent, not the normalized key, and the industry as it
    was sent, so an omitted industry erases the stored one; the other
    profile fields, the other users, the documents, the assessments and
    the registers of other subjects are not touched. *)
Theorem generate_overwrites_profile data user w :
  let w' := snd (generate_risk_register data user w) in
  users (db w') = update_one (is_user user) (set_profile data) (users (db w)) ∧
  (∀ u, find_one (is_user user) (users (db w)) = Some u →
     ∃ u', find_one (is_user user) (users (db w')) = Some u' ∧
           business_type u' = Some (rg_business_type data) ∧
           industry u' = rg_industry data ∧
           user_id u' = user_id u ∧ email u' = email u ∧ name u' = name u ∧
           company_name u' = company_name u) ∧
  List.filter (fun u => negb (is_user user u)) (users (db w'))
    = List.filter (fun u => negb (is_user user u)) (users (db w)) ∧
  (∀ other, user_id other ≠ user_id user → registers_of other w' = registers_of other w) ∧
  documents (db w') = documents (db w) ∧
  health_checks (db w') = health_checks (db w).
Proof.
  intros w'. subst w'.
  split; [by rewrite generate_risk_register_run|]. split; [|split; [|split]].
  - intros u Hu. exists (set_profile data u). rewrite generate_risk_register_run.
    cbn [snd db users set_users set_risk_registers].
    split; [|by repeat split].
    apply find_one_update_one; [done|].
    unfold find_one in Hu. by apply find_some in Hu as [_ ?].
  - rewrite generate_risk_register_run. cbn [snd db users set_users set_risk_registers].
    generalize (users (db w)). intros us. induction us as [|u us IH]; simpl; [done|].
    destruct (is_user user u) eqn:E; simpl.
    + unfold is_user, set_profile in *. cbn. by rewrite E.
    + by rewrite E, IH.
  - intros other Hne. by apply registers_after_generate_other.
  - by rewrite generate_risk_register_run.
Qed.

Lemma generate_overwrites_profile_witness :
  ∃ u',
    find_one (is_user profiled_user)
      (users (db (snd (generate_risk_register
                         {| rg_business_type := "Car Wash"; rg_industry := None |}
                         profiled_user profiled_world)))) = Some u' ∧
    business_type u' = Some "Car Wash" ∧ industry u' = None ∧
    company_name u' = Some "Corner Shop Ltd".
Proof.
  destruct (proj1 (proj2 (generate_overwrites_profile
              {| rg_business_type := "Car Wash"; rg_industry := None |}
              profiled_user profiled_world)) profiled_user)
    as (u' & Hfind & Hb & Hi & _ & _ & _ & Hc).
  - by vm_compute.
  - exists u'. split; [exact Hfind|]. split; [exact Hb|]. split; [exact Hi|exact Hc].
Defined.

(** ** Documents: upload, read, delete *)

Lemma allowed_types_spec t :
  existsb (String.eqb t) allowed_types = true ↔ t ∈ allowed_types.
Proof.
  rewrite existsb_exists. split.
  - intros (x & Hx & ->%String.eqb_eq). by apply list_elem_of_In.
  - intros H. exists t. split; [by apply list_elem_of_In|apply String.eqb_refl].
Qed.

(** The base64 text of the RFC 4648 test vectors. *)
Lemma b64encode_rfc4648 :
  b64encode EmptyString = EmptyString ∧
  b64encode "f" = "Zg==" ∧ b64encode "fo" = "Zm8=" ∧ b64encode "foo" = "Zm9v" ∧
  b64encode "foob" = "Zm9vYg==" ∧ b64encode "fooba" = "Zm9vYmE=" ∧
  b64encode "foobar" = "Zm9vYmFy".
Proof. by vm_compute. Qed.

Lemma b64encode_bytes_length bs :
  length (b64encode_bytes bs) = (4 * ((length bs + 2) / 3))%nat.
Proof.
  assert (H : ∀ n bs, (length bs < n)%nat →
            length (b64encode_bytes bs) = (4 * ((length bs + 2) / 3))%nat).
  { clear bs. induction n as [|n IH]; intros bs Hn; [lia|].
    destruct bs as [|a [|b [|c rest]]]; [done..|].
    cbn [b64encode_bytes length]. rewrite IH by (cbn [length] in Hn; lia).
    replace (S (S (S (length rest))) + 2)%nat with (length rest + 2 + 1 * 3)%nat by lia.
    rewrite Nat.div_add by lia. lia. }
  by apply (H (S (length bs))); lia.
Qed.

Lemma string_length_of_list l : String.length (string_of_list_ascii l) = length l.
Proof. induction l as [|c l IH]; simpl; congruence. Qed.

Lemma list_length_of_string s : length (list_ascii_of_string s) = String.length s.
Proof. induction s as [|c s IH]; simpl; congruence. Qed.

Lemma b64encode_length content :
  String.length (b64encode content) = (4 * ((String.length content + 2) / 3))%nat.
Proof.
  unfold b64encode.
  by rewrite string_length_of_list, b64encode_bytes_length, length_map, list_length_of_string.
Qed.

(** What an accepted upload returns and stores. *)
Lemma upload_document_run file user w :
  uf_content_type file ∈ allowed_types →
  let document :=
    {| doc_id := uuid_source w (uuid_drawn w);
       doc_user_id := user_id user;
       filename := uf_filename file;
       file_type := uf_content_type file;
       file_size := Z.of_nat (String.length (uf_content file));
       content := b64encode (uf_content file);
       analysis_status := "pending";
       analysis_result := None;
       analysis_error := None |} in
  upload_document file user w =
  (inr document,
   {| db := set_documents (insert_one document) (db w);
      uuid_source := uuid_source w;
      uuid_drawn := S (uuid_drawn w) |}).
Proof.
  intros H. unfold upload_document. by apply allowed_types_spec in H as ->.
Qed.

(** X14: an upload whose media type is not one of the four allowed ones
    (PDF, plain text, Word .doc, Word .docx) is refused with 400 and
    changes nothing, not even the uuid source; any other upload appends
    one document with the next uuid as id, the caller as owner, the name
    and media type of the file, the number of uploaded bytes as size, the
    base64 text of those bytes as content (four characters for every
    three bytes, the last group padded), status "pending" and no result,
    and leaves the documents stored before and the other collections as
    they were. *)
Theorem upload_checks_media_type file user w :
  (uf_content_type file ∉
     ["application/pdf"; "text/plain"; "application/msword";
      "application/vnd.openxmlformats-officedocument.wordprocessingml.document"] →
   upload_document file user w =
   (inl (HTTPException 400 "Invalid file type. Please upload PDF, TXT, DOC, or DOCX files."),
    w)) ∧
  (uf_content_type file ∈
     ["application/pdf"; "text/plain"; "application/msword";
      "application/vnd.openxmlformats-officedocument.wordprocessingml.document"] →
   ∃ doc w',
     upload_document file user w = (inr doc, w') ∧
     documents (db w') = documents (db w) ++ [doc] ∧
     doc_id doc = uuid_source w (uuid_drawn w) ∧
     doc_user_id doc = user_id user ∧
     filename doc = uf_filename file ∧ file_type doc = uf_content_type file ∧
     file_size doc = Z.of_nat (String.length (uf_content file)) ∧
     content doc = b64encode (uf_content file) ∧
     Z.of_nat (String.length (content doc)) = 4 * ((file_size doc + 2) / 3) ∧
     analysis_status doc = "pending" ∧ analysis_result doc = None ∧
     analysis_error doc = None ∧
     users (db w') = users (db w) ∧ health_checks (db w') = health_checks (db w) ∧
     risk_registers (db w') = risk_registers (db w) ∧
     uuid_drawn w' = S (uuid_drawn w)).
Proof.
  split; intros H.
  - unfold upload_document.
    destruct (existsb _ _) eqn:E; [apply allowed_types_spec in E; by destruct H|done].
  - eexists _, _. split; [by apply upload_document_run|].
    do 7 (split; [reflexivity|]). split; [|by repeat split].
    cbn [content file_size]. rewrite b64encode_length.
    rewrite Nat2Z.inj_mul, Nat2Z.inj_div, Nat2Z.inj_add. reflexivity.
Qed.

Lemma upload_checks_media_type_witness :
  upload_document
    {| uf_filename := "logo.png"; uf_content_type := "image/png"; uf_content := "PNG" |}
    example_user example_world
  = (inl (HTTPException 400 "Invalid file type. Please upload PDF, TXT, DOC, or DOCX files."),
     example_world) ∧
  ∃ doc w',
    upload_document policy_file example_user example_world = (inr doc, w') ∧
    documents (db w') = [doc] ∧
    file_size doc = 27 ∧
    content doc = "V2Uga2VlcCBwZXJzb25hbCBkYXRhIHNhZmUu" ∧
    analysis_status doc = "pending".
Proof.
  split.
  - apply (proj1 (upload_checks_media_type _ example_user example_world)).
    intros H. apply (bool_decide_pack _) in H. by vm_compute in H.
  - destruct (proj2 (upload_checks_media_type policy_file example_user example_world))
      as (doc & w' & Hrun & Hdocs & _ & _ & _ & _ & Hsize & Hcontent & _ & Hs & _).
    + apply (bool_decide_unpack _). by vm_compute.
    + exists doc, w'. split; [exact Hrun|]. split; [exact Hdocs|].
      split; [by rewrite Hsize|]. split; [by rewrite Hcontent|exact Hs].
Defined.

Lemma find_one_app_r {A} (p : A → bool) l l' :
  find_one p l = None → find_one p (l ++ l') = find_one p l'.
Proof.
  unfold find_one. induction l as [|y l IH]; simpl; [done|]. by destruct (p y).
Qed.

(** X15: a document read back right after its upload is the uploaded one,
    still pending, provided the caller owns no older document with the
    same id; reading never changes the state, and a document that is read
    always has the id asked for and belongs to the caller. *)
Theorem upload_then_get_document file user w :
  uf_content_type file ∈ allowed_types →
  find_one (has_id_and_owner (uuid_source w (uuid_drawn w)) user) (documents (db w)) = None →
  ∃ doc w',
    upload_document file user w = (inr doc, w') ∧
    get_document (doc_id doc) user w' = (inr (view_of doc), w') ∧
    dv_analysis_status (view_of doc) = "pending" ∧
    dv_filename (view_of doc) = uf_filename file ∧
    (∀ id u v view, get_document id u v = (inr view, v) →
       dv_id view = id ∧ dv_user_id view = user_id u).
Proof.
  intros Hallowed Hfresh.
  eexists _, _. split; [by apply upload_document_run|]. split.
  - unfold get_document, mbind, Handler_bind, read_db.
    unfold set_documents, insert_one. cbn [db documents doc_id].
    rewrite find_one_app_r by done.
    unfold find_one. simpl. unfold has_id_and_owner. cbn [doc_id doc_user_id].
    by rewrite !String.eqb_refl.
  - split; [reflexivity|]. split; [reflexivity|].
    intros id u v view. unfold get_document, mbind, Handler_bind, read_db.
    destruct (find_one (has_id_and_owner id u) (documents (db v))) as [x|] eqn:E;
      [|unfold raise; by intros [=]].
    unfold mret, Handler_ret. intros [= <-].
    unfold find_one in E. apply find_some in E as [_ [H1 H2]%andb_prop].
    apply String.eqb_eq in H1, H2. by split.
Qed.

Lemma upload_then_get_document_witness :
  ∃ doc w',
    upload_document policy_file example_user example_world = (inr doc, w') ∧
    get_document (doc_id doc) example_user w' = (inr (view_of doc), w').
Proof.
  destruct (upload_then_get_document policy_file example_user example_world)
    as (doc & w' & Hrun & Hget & _).
  - apply (bool_decide_unpack _). by vm_compute.
  - reflexivity.
  - by exists doc, w'.
Defined.

Lemma delete_one_none {A} (p : A → bool) l :
  find_one p l = None → delete_one p l = (l, 0).
Proof.
  unfold find_one. induction l as [|x l IH]; simpl; [done|].
  destruct (p x); [done|]. intros H. by rewrite IH.
Qed.

Lemma delete_one_first {A} (p : A → bool) l1 x l2 :
  find_one p l1 = None → p x = true → delete_one p (l1 ++ x :: l2) = (l1 ++ l2, 1).
Proof.
  unfold find_one. intros H Hx. induction l1 as [|y l1 IH]; simpl in *.
  - by rewrite Hx.
  - destruct (p y); [done|]. by rewrite IH.
Qed.

Lemma delete_one_keeps {A} (p q : A → bool) l :
  (∀ x, p x = true → q x = false) →
  List.filter q (fst (delete_one p l)) = List.filter q l.
Proof.
  intros H. induction l as [|x l IH]; simpl; [done|].
  destruct (p x) eqn:E; simpl.
  - by rewrite (H x E).
  - destruct (delete_one p l) as [rest n]. simpl in *. by rewrite IH.
Qed.

Lemma world_eta w :
  {| db := {| users := users (db w); health_checks := health_checks (db w);
              documents := documents (db w); risk_registers := risk_registers (db w) |};
     uuid_source := uuid_source w; uuid_drawn := uuid_drawn w |} = w.
Proof. by destruct w as [[] ? ?]. Qed.

(** X16: [delete] answers 404 and leaves the state as it was when the
    caller owns no document with the id; otherwise it removes the first
    such document and nothing else, the other documents keeping their
    order; the documents of other subjects are never removed. *)
Theorem delete_document_removes_one document_id user w :
  (find_one (has_id_and_owner document_id user) (documents (db w)) = None →
   delete_document document_id user w
   = (inl (HTTPException 404 "Document not found"), w)) ∧
  (∀ l1 x l2,
     documents (db w) = l1 ++ x :: l2 →
     find_one (has_id_and_owner document_id user) l1 = None →
     has_id_and_owner document_id user x = true →
     ∃ w',
       delete_document document_id user w = (inr "Document deleted successfully", w') ∧
       documents (db w') = l1 ++ l2 ∧
       users (db w') = users (db w) ∧ health_checks (db w') = health_checks (db w) ∧
       risk_registers (db w') = risk_registers (db w)) ∧
  List.filter (fun x => negb (String.eqb (doc_user_id x) (user_id user)))
    (documents (db (snd (delete_document document_id user w))))
  = List.filter (fun x => negb (String.eqb (doc_user_id x) (user_id user)))
      (documents (db w)).
Proof.
  split; [|split].
  - intros H. unfold delete_document, mbind, Handler_bind, read_db.
    rewrite (delete_one_none _ _ H). cbn. unfold raise, set_documents. cbn.
    by rewrite world_eta.
  - intros l1 x l2 Hdocs Hl1 Hx. unfold delete_document, mbind, Handler_bind, read_db.
    rewrite Hdocs, (delete_one_first _ _ _ _ Hl1 Hx). cbn.
    eexists. split; [reflexivity|]. by repeat split.
  - unfold delete_document, mbind, Handler_bind, read_db.
    pose proof (delete_one_keeps (has_id_and_owner document_id user)
                  (fun x => negb (String.eqb (doc_user_id x) (user_id user)))
                  (documents (db w))) as H.
    destruct (delete_one _ _) as [rest n]. cbn [fst] in H.
    assert (Hk : List.filter (fun x => negb (String.eqb (doc_user_id x) (user_id user))) rest
               = List.filter (fun x => negb (String.eqb (doc_user_id x) (user_id user)))
                   (documents (db w))).
    { apply H. intros x [_ ->]%andb_prop. done. }
    cbn. by destruct (n =? 0).
Qed.

Lemma delete_document_removes_one_witness :
  delete_document "uuid-" stranger uploaded_world
    = (inl (HTTPException 404 "Document not found"), uploaded_world) ∧
  ∃ w',
    delete_document "uuid-" example_user uploaded_world
      = (inr "Document deleted successfully", w') ∧
    documents (db w') = [].
Proof.
  split.
  - apply (proj1 (delete_document_removes_one "uuid-" stranger uploaded_world)).
    by vm_compute.
  - destruct (proj1 (proj2 (delete_document_removes_one "uuid-" example_user
                              uploaded_world)) [] uploaded_document [])
      as (w' & Hrun & Hdocs & _); [by vm_compute|done|by vm_compute|].
    by exists w'.
Defined.

Lemma analysis_touched_only_refl id x : analysis_touched_only id x x.
Proof. by repeat split. Qed.

Lemma update_one_analysis_touched id (f : Document → Document) docs :
  (∀ x, doc_id (f x) = doc_id x ∧ doc_user_id (f x) = doc_user_id x ∧
        filename (f x) = filename x ∧ file_type (f x) = file_type x ∧
        file_size (f x) = file_size x ∧ content (f x) = content x) →
  Forall2 (analysis_touched_only id) docs (update_one (has_id id) f docs).
Proof.
  intros Hf. induction docs as [|x docs IH]; simpl; [constructor|].
  destruct (has_id id x) eqn:E.
  - constructor; [|apply Forall2_refl_all, analysis_touched_only_refl].
    destruct (Hf x) as (? & ? & ? & ? & ? & ?). repeat split; try done.
    intros Hne. unfold has_id in E. by apply String.eqb_eq in E.
  - constructor; [apply analysis_touched_only_refl|exact IH].
Qed.

(** X17: an analysis never adds, removes or reorders documents and never
    changes an id, an owner, a file name, a media type, a size or the
    content; documents with another id are left exactly as they were, and
    so are the other collections.  When the caller owns no document with
    the id, it answers 404 and changes nothing, whatever the analyzer
    would have replied. *)
Theorem analyze_document_touches_analysis_fields_only jl completion document_id user w :
  let w' := snd (analyze_document jl completion document_id user w) in
  Forall2 (analysis_touched_only document_id) (documents (db w)) (documents (db w')) ∧
  users (db w') = users (db w) ∧ health_checks (db w') = health_checks (db w) ∧
  risk_registers (db w') = risk_registers (db w) ∧ uuid_drawn w' = uuid_drawn w ∧
  (find_one (has_id_and_owner document_id user) (documents (db w)) = None →
   analyze_document jl completion document_id user w
   = (inl (HTTPException 404 "Document not found"), w)).
Proof.
  unfold analyze_document, mbind, Handler_bind, read_db.
  destruct (find_one (has_id_and_owner document_id user) (documents (db w))) as [d|].
  - destruct (analysis_attempt jl completion) as [e|data]; cbn;
      (split; [apply update_one_analysis_touched; intros x; by repeat split|]);
      by repeat split.
  - cbn. split; [apply Forall2_refl_all, analysis_touched_only_refl|]. by repeat split.
Qed.

(** X18: an analysis writes the status and either the result or the
    error, and leaves the other one as it was: after a failure followed by
    a success the document is "completed" with the new result and still
    carries the error message of the failure, and after a success followed
    by a failure it is "failed" with the new message and still carries
    the earlier result. *)
Theorem analysis_keeps_the_other_field jl failing succeeding document_id user w d e data :
  find_one (has_id document_id) (documents (db w)) = Some d →
  doc_user_id d = user_id user →
  analysis_attempt jl failing = inl e →
  analysis_attempt jl succeeding = inr data →
  let fail_then_ok :=
    snd (analyze_document jl succeeding document_id user
           (snd (analyze_document jl failing document_id user w))) in
  let ok_then_fail :=
    snd (analyze_document jl failing document_id user
           (snd (analyze_document jl succeeding document_id user w))) in
  (∃ d1, find_one (has_id document_id) (documents (db fail_then_ok)) = Some d1 ∧
         analysis_status d1 = "completed" ∧ analysis_result d1 = Some data ∧
         analysis_error d1 = Some e) ∧
  (∃ d2, find_one (has_id document_id) (documents (db ok_then_fail)) = Some d2 ∧
         analysis_status d2 = "failed" ∧ analysis_error d2 = Some e ∧
         analysis_result d2 = Some data).
Proof.
  intros Hd Hu Hfail Hok fail_then_ok ok_then_fail.
  assert (Hid : has_id document_id d = true).
  { unfold find_one in Hd. by apply find_some in Hd as [_ ?]. }
  split.
  - exists (set_completed data (set_failed e d)). split; [|by repeat split].
    subst fail_then_ok.
    rewrite (analyze_document_failure jl failing document_id user w d e Hd Hu Hfail).
    cbn [snd].
    rewrite (analyze_document_success jl succeeding document_id user _ (set_failed e d) data);
      [|by apply find_one_update_one|exact Hu|exact Hok].
    cbn [snd db documents set_documents].
    apply find_one_update_one; [by apply find_one_update_one|exact Hid].
  - exists (set_failed e (set_completed data d)). split; [|by repeat split].
    subst ok_then_fail.
    rewrite (analyze_document_success jl succeeding document_id user w d data Hd Hu Hok).
    cbn [snd].
    rewrite (analyze_document_failure jl failing document_id user _ (set_completed data d) e);
      [|by apply find_one_update_one|exact Hu|exact Hfail].
    cbn [snd db documents set_documents].
    apply find_one_update_one; [by apply find_one_update_one|exact Hid].
Qed.

Lemma analysis_keeps_the_other_field_witness :
  ∃ d1,
    find_one (has_id "uuid-")
      (documents (db (snd (analyze_document json_loads_stub (inr "{}") "uuid-" example_user
                             (snd (analyze_document json_loads_stub (inl "Connection error.")
                                     "uuid-" example_user uploaded_world))))))
      = Some d1 ∧
    analysis_status d1 = "completed" ∧ analysis_error d1 = Some "Connection error.".
Proof.
  destruct (analysis_keeps_the_other_field json_loads_stub (inl "Connection error.")
              (inr "{}") "uuid-" example_user uploaded_world uploaded_document
              "Connection error." (JObject []))
    as [(d1 & Hfind & Hs & _ & He) _]; [by vm_compute|done|done|by vm_compute|].
  by exists d1.
Defined.

(** ** Dashboard *)

Lemma count_status_cons s r rs :
  count_status s (r :: rs) = (if String.eqb (status r) s then 1 else 0) + count_status s rs.
Proof.
  unfold count_status. cbn [List.filter].
  destruct (String.eqb (status r) s); cbn [length]; lia.
Qed.

Lemma foldl_count_risk rs : ∀ m,
  stat "total" (foldl count_risk m rs)
    = stat "total" m + Z.of_nat (length rs) + count_status "total" rs ∧
  ∀ s, s ≠ "total" →
    stat s (foldl count_risk m rs) = stat s m + count_status s rs.
Proof.
  induction rs as [|r rs IH]; intros m.
  - unfold count_status. simpl. split; [lia|intros; lia].
  - cbn [foldl]. destruct (IH (count_risk m r)) as [Ht Hs].
    rewrite Ht. rewrite !count_status_cons.
    assert (Hstep_t : stat "total" (count_risk m r)
              = stat "total" m + 1 + (if String.eqb (status r) "total" then 1 else 0)).
    { unfold stat, count_risk. rewrite lookup_insert_eq. cbn [default from_option id].
      destruct (String.eqb_spec (status r) "total") as [->|Hne].
      - rewrite lookup_insert_eq. cbn [default from_option id]. lia.
      - rewrite lookup_insert_ne by done. cbn [default from_option id]. lia. }
    split; [rewrite Hstep_t; cbn [length]; lia|].
    intros s Hs'. rewrite (Hs s Hs').
    assert (Hstep : stat s (count_risk m r)
              = stat s m + (if String.eqb (status r) s then 1 else 0)).
    { unfold stat, count_risk. rewrite lookup_insert_ne by done.
      destruct (String.eqb_spec (status r) s) as [->|Hne].
      - rewrite lookup_insert_eq. cbn [default from_option id]. lia.
      - rewrite lookup_insert_ne by done. cbn [default from_option id]. lia. }
    rewrite Hstep, count_status_cons. lia.
Qed.

Lemma count_status_partition rs :
  Forall (fun r => status r ∈ status_values) rs →
  count_status "identified" rs + count_status "mitigating" rs
  + count_status "resolved" rs + count_status "accepted" rs = Z.of_nat (length rs) ∧
  count_status "total" rs = 0.
Proof.
  induction 1 as [|r rs Hr _ IH]; [done|].
  rewrite !count_status_cons. cbn [length].
  unfold status_values in Hr.
  repeat (apply elem_of_cons in Hr as [->|Hr]); [| | | |by apply elem_of_nil in Hr];
    cbn; lia.
Qed.

Lemma initial_stats :
  stat "total" initial_risk_stats = 0 ∧ ∀ s, stat s initial_risk_stats = 0.
Proof.
  split; [by vm_compute|]. intros s. unfold stat, initial_risk_stats.
  destruct (list_to_map _ !! s) as [z|] eqn:E; [|done].
  apply elem_of_list_to_map_2 in E.
  repeat (apply elem_of_cons in E as [[= _ <-]|E]; [done|]).
  by apply elem_of_nil in E.
Qed.

(** X20: the status tally of the dashboard counts, for every status other
    than "total", the risks with that status; its "total" is the number
    of risks plus the number of risks whose status is the string "total",
    which [update_risk] can store; when every status is one of the four
    values, "total" is the number of risks and the four counts add up to
    it.  Without a register every count is 0. *)
Theorem risk_stats_tally latest r documents :
  let stats := d_risk_stats (dashboard_of latest (Some r) documents) in
  (∀ s, s ≠ "total" → stat s stats = count_status s (risks r)) ∧
  stat "total" stats = Z.of_nat (length (risks r)) + count_status "total" (risks r) ∧
  (Forall (fun x => status x ∈ status_values) (risks r) →
   stat "total" stats = Z.of_nat (length (risks r)) ∧
   stat "identified" stats + stat "mitigating" stats + stat "resolved" stats
   + stat "accepted" stats = stat "total" stats) ∧
  (∀ s, stat s (d_risk_stats (dashboard_of latest None documents)) = 0).
Proof.
  intros stats. subst stats. cbn [dashboard_of d_risk_stats].
  assert (E : risk_stats_of (Some r) = foldl count_risk initial_risk_stats (risks r)).
  { unfold risk_stats_of. by destruct (risks r). }
  rewrite E. destruct (foldl_count_risk (risks r) initial_risk_stats) as [Ht Hs].
  destruct initial_stats as [I0 Is].
  assert (Hs' : ∀ s, s ≠ "total" →
            stat s (foldl count_risk initial_risk_stats (risks r)) = count_status s (risks r)).
  { intros s Hne. rewrite (Hs s Hne), Is. lia. }
  split; [exact Hs'|]. split; [rewrite Ht, I0; lia|]. split.
  - intros Hall. destruct (count_status_partition _ Hall) as [Hsum H0].
    rewrite Ht, I0, H0, !Hs' by done. lia.
  - intros s. apply Is.
Qed.

Lemma risk_stats_tally_witness :
  stat "total" (d_risk_stats (dashboard_of None
     (Some (register_for {| rg_business_type := "Retail"; rg_industry := None |}
              example_user example_world)) [])) = 5 ∧
  stat "identified" (d_risk_stats (dashboard_of None
     (Some (register_for {| rg_business_type := "Retail"; rg_industry := None |}
              example_user example_world)) [])) = 5.
Proof.
  destruct (risk_stats_tally None
              (register_for {| rg_business_type := "Retail"; rg_industry := None |}
                 example_user example_world) []) as (Hs & _ & Hall & _).
  destruct Hall as [Ht _].
  - apply (bool_decide_unpack _). by vm_compute.
  - split; [exact Ht|]. by rewrite Hs.
Defined.

(** X21: the priority actions are the first five gaps of the latest
    assessment, in their order, followed by the first three pending
    documents, in their order: at most eight entries; the document
    entries all have category "Documents" and priority "medium"; the
    number of analyzed documents never exceeds the number of documents,
    and at most five recent documents are shown. *)
Theorem priority_actions_cap latest register documents :
  let d := dashboard_of latest register documents in
  d_priority_actions d =
    map gap_action (take 5 (from_option hc_gaps [] latest))
    ++ map pending_action (take 3 (List.filter (has_status "pending") documents)) ∧
  (length (d_priority_actions d) <= 8)%nat ∧
  (length (d_priority_actions d)
   = Nat.min 5 (length (from_option hc_gaps [] latest))
     + Nat.min 3 (length (List.filter (has_status "pending") documents)))%nat ∧
  Forall (fun a => pa_type a = "pending_analysis" →
                   pa_category a = "Documents" ∧ pa_priority a = "medium")
    (d_priority_actions d) ∧
  0 <= d_analyzed_documents d <= d_total_documents d ∧
  d_recent_documents d = take 5 documents.
Proof.
  intros d. subst d. cbn [dashboard_of d_priority_actions d_analyzed_documents
    d_total_documents d_recent_documents].
  assert (E : match latest with
              | Some hc => map gap_action (take 5 (hc_gaps hc))
              | None => []
              end = map gap_action (take 5 (from_option hc_gaps [] latest))).
  { by destruct latest. }
  rewrite E. split; [done|].
  rewrite length_app, !length_map, !length_take.
  split; [lia|]. split; [lia|]. split.
  - apply Forall_app. split.
    + apply Forall_forall. intros a (g & <- & _)%list_elem_of_In%in_map_iff. by cbn.
    + apply Forall_forall. intros a (x & <- & _)%list_elem_of_In%in_map_iff. by cbn.
  - split; [|done].
    pose proof (filter_length_le (has_status "completed") documents). lia.
Qed.

Lemma take_map {A B} (f : A → B) n l : take n (map f l) = map f (take n l).
Proof.
  revert l. induction n as [|n IH]; intros [|x l]; simpl; try done. by rewrite IH.
Qed.

(** X22: a dashboard built on the assessment a submission has just
    returned shows that assessment's scores and risk level, and its gap
    actions are the first five of the list "high gaps, then medium gaps,
    then low gaps" in catalog order, so no shown gap has a lower priority
    than a gap left out. *)
Theorem dashboard_shows_top_gaps rs user w register documents :
  ∃ hc w',
    submit_health_check {| responses := rs |} user w = (inr hc, w') ∧
    let d := dashboard_of (Some hc) register documents in
    d_compliance_score d = Some (hc_compliance_score hc) ∧
    d_gdpr_score d = Some (hc_gdpr_score hc) ∧
    d_cyber_essentials_score d = Some (hc_cyber_essentials_score hc) ∧
    d_risk_level d = Some (risk_level_of (hc_compliance_score hc)) ∧
    take 5 (d_priority_actions d)
      = take 5 (map gap_action
                  (failed_with "high" rs ++ failed_with "medium" rs ++ failed_with "low" rs)
                ++ map pending_action (take 3 (List.filter (has_status "pending") documents)))
    ∧
    List.filter (fun a => String.eqb (pa_type a) "compliance_gap") (d_priority_actions d)
      = map gap_action
          (take 5 (failed_with "high" rs ++ failed_with "medium" rs ++ failed_with "low" rs)).
Proof.
  destruct (submit_health_check_scores rs user w)
    as (hc & w' & Hrun & _ & _ & _ & Hrisk & Hgaps & _).
  rewrite sort_gaps_catalog in Hgaps.
  exists hc, w'. split; [exact Hrun|].
  cbn [dashboard_of d_compliance_score d_gdpr_score d_cyber_essentials_score d_risk_level
       d_priority_actions fmap option_fmap option_map].
  rewrite Hrisk, Hgaps.
  generalize (failed_with "high" rs ++ failed_with "medium" rs ++ failed_with "low" rs).
  intros gs. split; [done|]. split; [done|]. split; [done|]. split; [done|]. split.
  - rewrite <- take_map.
    generalize (map pending_action (take 3 (List.filter (has_status "pending") documents))).
    generalize (map gap_action gs). intros l l'.
    rewrite !take_app. rewrite take_take, Nat.min_id, length_take.
    f_equal. destruct (decide (5 <= length l)%nat).
    + replace (5 - 5 `min` length l)%nat with 0%nat by lia.
      replace (5 - length l)%nat with 0%nat by lia. done.
    + replace (5 `min` length l)%nat with (length l) by lia. done.
  - rewrite List.filter_app.
    assert (F1 : ∀ l, List.filter (fun a => String.eqb (pa_type a) "compliance_gap")
                        (map gap_action l) = map gap_action l).
    { intros l. induction l as [|x l IH]; [done|]. simpl. by rewrite IH. }
    assert (F2 : ∀ l, List.filter (fun a => String.eqb (pa_type a) "compliance_gap")
                        (map pending_action l) = []).
    { intros l. induction l as [|x l IH]; [done|]. simpl. by rewrite IH. }
    by rewrite F1, F2, app_nil_r.
Qed.

(** ** Sessions *)

Lemma substring_0_all s : substring 0 (String.length s) s = s.
Proof. induction s as [|c s IH]; [done|]. simpl. by rewrite IH. Qed.

Lemma bearer_header t :
  String.prefix "Bearer " (String.append "Bearer " t) = true ∧
  substring 7 (String.length (String.append "Bearer " t) - 7) (String.append "Bearer " t) = t.
Proof.
  split; [simpl; by destruct t|].
  simpl. rewrite Nat.sub_0_r. apply substring_0_all.
Qed.

Lemma session_token_of_cookie o :
  session_token_of {| cookie_session_token := o; header_authorization := None |} = o.
Proof. unfold session_token_of. cbn. by destruct (truthy o). Qed.

Lemma get_current_user_by_token request now a :
  get_current_user request now a =
  get_current_user {| cookie_session_token := session_token_of request;
                      header_authorization := None |} now a.
Proof. unfold get_current_user. by rewrite session_token_of_cookie. Qed.

Lemma get_current_user_cookie_first c h now a :
  truthy (Some c) = true →
  get_current_user {| cookie_session_token := Some c; header_authorization := h |} now a
  = get_current_user {| cookie_session_token := Some c; header_authorization := None |} now a.
Proof.
  intros Hc. rewrite get_current_user_by_token. symmetry.
  rewrite get_current_user_by_token. unfold session_token_of.
  cbn [cookie_session_token header_authorization]. by rewrite Hc.
Qed.

(** X23: the session token is taken from the cookie when the cookie is a
    non-empty string, whatever the Authorization header says; otherwise
    from an Authorization header of the form "Bearer <token>", which then
    works exactly like a cookie with that token; and without either the
    request is refused with 401 "Not authenticated". *)
Theorem session_token_sources now a :
  (∀ c h, truthy (Some c) = true →
     get_current_user {| cookie_session_token := Some c; header_authorization := h |} now a
     = get_current_user {| cookie_session_token := Some c; header_authorization := None |}
         now a) ∧
  (∀ cookie t, truthy cookie = false →
     get_current_user {| cookie_session_token := cookie;
                         header_authorization := Some (String.append "Bearer " t) |} now a
     = get_current_user {| cookie_session_token := Some t; header_authorization := None |}
         now a) ∧
  (∀ cookie h, truthy cookie = false →
     h = None ∨ (∃ x, h = Some x ∧ String.prefix "Bearer " x = false) ∨ h = Some "Bearer " →
     get_current_user {| cookie_session_token := cookie; header_authorization := h |} now a
     = inl (HTTPException 401 "Not authenticated")).
Proof.
  split; [|split].
  - intros c h Hc. by apply get_current_user_cookie_first.
  - intros cookie t Hc. rewrite get_current_user_by_token. symmetry.
    rewrite get_current_user_by_token. unfold session_token_of.
    cbn [cookie_session_token header_authorization]. rewrite Hc.
    destruct (bearer_header t) as [-> ->].
    destruct (truthy (Some t)) eqn:Et.
    + by destruct t.
    + destruct t; [|done]. unfold get_current_user. rewrite !session_token_of_cookie.
      reflexivity.
  - intros cookie h Hc Hh. unfold get_current_user, session_token_of.
    cbn [cookie_session_token header_authorization]. rewrite Hc.
    destruct Hh as [->|[(x & -> & Hx)| ->]].
    + destruct cookie as [t|]; [|done]. by rewrite Hc.
    + rewrite Hx, andb_false_r. destruct cookie as [t|]; [|done]. by rewrite Hc.
    + by cbn.
Qed.

Lemma session_token_sources_witness :
  get_current_user {| cookie_session_token := None;
                      header_authorization := Some "Basic dXNlcjpwdw==" |}
    0 {| acc_users := []; acc_sessions := [] |}
  = inl (HTTPException 401 "Not authenticated") ∧
  get_current_user {| cookie_session_token := Some "tok_3f9a";
                      header_authorization := Some "Bearer other" |}
    0 {| acc_users := []; acc_sessions := [] |}
  = get_current_user {| cookie_session_token := Some "tok_3f9a";
                        header_authorization := None |}
      0 {| acc_users := []; acc_sessions := [] |}.
Proof.
  split.
  - apply (proj2 (proj2 (session_token_sources 0 {| acc_users := []; acc_sessions := [] |})));
      [done|]. right. left. by eexists.
  - by apply (proj1 (session_token_sources 0 {| acc_users := []; acc_sessions := [] |})).
Defined.

(** X24: a request is authenticated only through a stored session that
    bears its token and has not expired, and as the first stored user
    with that session's user id; a session is valid up to and including
    its expiry time; and every refusal is a 401. *)
Theorem authentication_needs_live_session request now a :
  (∀ u, get_current_user request now a = inr u →
     ∃ t s,
       session_token_of request = Some t ∧ t ≠ EmptyString ∧
       find_one (has_token t) (acc_sessions a) = Some s ∧
       s_session_token s = t ∧ now <= s_expires_at s ∧
       find_one (has_user_id (s_user_id s)) (acc_users a) = Some u ∧
       ud_user_id u = s_user_id s) ∧
  (∀ e, get_current_user request now a = inl e → ∃ detail, e = HTTPException 401 detail).
Proof.
  assert (Hrefused : ∀ detail,
    (∀ u : UserDoc, @inl Raised UserDoc (HTTPException 401 detail) = inr u →
       ∃ t s,
         session_token_of request = Some t ∧ t ≠ EmptyString ∧
         find_one (has_token t) (acc_sessions a) = Some s ∧
         s_session_token s = t ∧ now <= s_expires_at s ∧
         find_one (has_user_id (s_user_id s)) (acc_users a) = Some u ∧
         ud_user_id u = s_user_id s) ∧
    (∀ e, @inl Raised UserDoc (HTTPException 401 detail) = inl e →
       ∃ detail, e = HTTPException 401 detail)).
  { intros detail. split; [intros u H; discriminate H|].
    intros e H. injection H as <-. by eexists. }
  unfold get_current_user.
  destruct (session_token_of request) as [t|]; [|apply Hrefused].
  destruct (truthy (Some t)) eqn:Et; cbn [negb]; [|apply Hrefused].
  destruct (find_one (has_token t) (acc_sessions a)) as [s|] eqn:Es; [|apply Hrefused].
  destruct (Z.ltb_spec (s_expires_at s) now) as [Hlt|Hge]; [apply Hrefused|].
  destruct (find_one (has_user_id (s_user_id s)) (acc_users a)) as [u0|] eqn:Eu;
    [|apply Hrefused].
  split; [|intros e H; discriminate H]. intros u [= <-]. exists t, s.
  split; [done|]. split; [by destruct t|]. split; [done|].
  pose proof Es as Hs. pose proof Eu as Hu. unfold find_one in Hs, Hu.
  apply find_some in Hs as [_ Hs]. apply find_some in Hu as [_ Hu].
  apply String.eqb_eq in Hs, Hu. by repeat split.
Qed.

Lemma find_one_exists {A} (p : A → bool) l x :
  x ∈ l → p x = true → is_Some (find_one p l).
Proof.
  unfold find_one. induction l as [|y l IH]; intros Hx Hp; [by apply elem_of_nil in Hx|].
  simpl. destruct (p y) eqn:E; [by eexists|].
  apply elem_of_cons in Hx as [->|Hx]; [congruence|by apply IH].
Qed.

Lemma update_one_elem {A} (p : A → bool) (f : A → A) l x :
  find_one p l = Some x → f x ∈ update_one p f l.
Proof.
  unfold find_one. induction l as [|y l IH]; simpl; [done|].
  destruct (p y); [intros [= ->]; by left|]. intros H. right. by apply IH.
Qed.

Lemma create_session_run auth_data now w :
  ∃ users1 drawn1 u,
    create_session (AuthAnswered 200 auth_data) now w =
    (inr {| sc_message := "Session created"; sc_user := Some u;
            sc_cookie := issued_token auth_data w |},
     {| accounts :=
          {| acc_users := users1;
             acc_sessions :=
               delete_many (session_of (signed_in_id auth_data w))
                 (acc_sessions (accounts w))
               ++ [ {| s_user_id := signed_in_id auth_data w;
                       s_session_token := issued_token auth_data w;
                       s_expires_at := now + seven_days |} ] |};
        hex_source := hex_source w; hex_drawn := drawn1 |}) ∧
    find_one (has_user_id (signed_in_id auth_data w)) users1 = Some u ∧
    match find_one (has_email (ad_email auth_data)) (acc_users (accounts w)) with
    | Some existing_user =>
        users1 = update_one (has_email (ad_email auth_data)) (set_name_picture auth_data)
                   (acc_users (accounts w)) ∧
        drawn1 = S (hex_drawn w)
    | None =>
        users1 = acc_users (accounts w)
                 ++ [ {| ud_user_id := signed_in_id auth_data w;
                         ud_email := ad_email auth_data; ud_name := ad_name auth_data;
                         ud_picture := ad_picture auth_data; ud_company_name := None;
                         ud_business_type := None; ud_employee_count := None;
                         ud_industry := None |} ] ∧
        drawn1 = S (S (hex_drawn w))
    end.
Proof.
  unfold create_session, signed_in_id, issued_token. cbn [Z.eqb Pos.eqb negb].
  destruct (find_one (has_email (ad_email auth_data)) (acc_users (accounts w)))
    as [eu|] eqn:E.
  - destruct (find_one_exists (has_user_id (ud_user_id eu))
                (update_one (has_email (ad_email auth_data)) (set_name_picture auth_data)
                   (acc_users (accounts w))) (set_name_picture auth_data eu))
      as [u Hu].
    { by apply update_one_elem. }
    { unfold has_user_id. cbn. apply String.eqb_refl. }
    eexists _, _, u. rewrite Hu. split; [reflexivity|]. by split.
  - set (nu := {| ud_user_id := String.append "user_" _ |}).
    destruct (find_one_exists (has_user_id (ud_user_id nu))
                (insert_one nu (acc_users (accounts w))) nu) as [u Hu].
    { unfold insert_one. apply elem_of_app. right. by left. }
    { unfold has_user_id. apply String.eqb_refl. }
    eexists _, _, u. cbn [ud_user_id nu] in Hu. rewrite Hu. split; [reflexivity|].
    by split.
Qed.

Lemma find_one_none_iff {A} (p : A → bool) l :
  find_one p l = None ↔ Forall (fun x => p x = false) l.
Proof.
  unfold find_one. induction l as [|x l IH]; simpl; [by split; [constructor|]|].
  destruct (p x) eqn:E.
  - split; [done|]. intros H. apply Forall_cons in H as [? _]. congruence.
  - rewrite IH. split; [by constructor|]. by intros [_ ?]%Forall_cons.
Qed.

Lemma find_one_delete_many_none {A} (p q : A → bool) l :
  find_one p l = None → find_one p (delete_many q l) = None.
Proof.
  rewrite !find_one_none_iff. unfold delete_many. intros H.
  apply Forall_forall. intros x [Hx _]%list_elem_of_In%filter_In.
  rewrite Forall_forall in H. by apply H, list_elem_of_In.
Qed.

(** X25: signing in and then presenting the issued cookie authenticates
    as the user the sign-in returned, at any time up to seven days later,
    provided the token is a non-empty string that no stored session
    already bears. *)
Theorem sign_in_then_authenticate auth_data now w later h :
  issued_token auth_data w ≠ EmptyString →
  find_one (has_token (issued_token auth_data w)) (acc_sessions (accounts w)) = None →
  later <= now + seven_days →
  ∃ created u w',
    create_session (AuthAnswered 200 auth_data) now w = (inr created, w') ∧
    sc_user created = Some u ∧
    ud_user_id u = signed_in_id auth_data w ∧
    get_current_user {| cookie_session_token := Some (sc_cookie created);
                        header_authorization := h |} later (accounts w')
    = inr u.
Proof.
  intros Htok Hfresh Hlater.
  destruct (create_session_run auth_data now w) as (users1 & drawn1 & u & Hrun & Hu & _).
  eexists _, u, _. split; [exact Hrun|]. cbn [sc_user sc_cookie accounts].
  split; [done|]. split.
  { unfold find_one in Hu. apply find_some in Hu as [_ Hu]. by apply String.eqb_eq. }
  assert (Ht : truthy (Some (issued_token auth_data w)) = true).
  { by destruct (issued_token auth_data w). }
  rewrite (get_current_user_cookie_first _ h later _ Ht).
  unfold get_current_user. rewrite session_token_of_cookie, Ht. cbn [negb acc_sessions acc_users].
  rewrite find_one_app_r by (by apply find_one_delete_many_none).
  unfold find_one at 1. cbn [find]. unfold has_token at 1. cbn [s_session_token].
  rewrite String.eqb_refl. cbn [s_expires_at s_user_id].
  destruct (Z.ltb_spec (now + seven_days) later); [lia|]. by rewrite Hu.
Qed.

Lemma sign_in_then_authenticate_witness :
  ∃ created u w',
    create_session first_reply 1000 empty_auth_world = (inr created, w') ∧
    sc_cookie created = "tok_3f9a" ∧
    get_current_user {| cookie_session_token := Some "tok_3f9a";
                        header_authorization := None |} (1000 + seven_days) (accounts w')
    = inr u ∧
    ud_email u = "owner@example.org".
Proof.
  destruct (sign_in_then_authenticate
              {| ad_email := "owner@example.org"; ad_name := "Owner"; ad_picture := None;
                 ad_session_token := Some "tok_3f9a" |}
              1000 empty_auth_world (1000 + seven_days) None)
    as (created & u & w' & Hrun & Hu & _ & Hget); [done|done|lia|].
  exists created, u, w'. split; [exact Hrun|].
  assert (Hc : sc_cookie created = "tok_3f9a").
  { unfold first_reply in Hrun. by injection Hrun as <- _. }
  split; [exact Hc|]. rewrite Hc in Hget. split; [exact Hget|].
  unfold first_reply in Hrun. injection Hrun as <- _. cbn in Hu. by injection Hu as <-.
Defined.

Lemma authentication_needs_live_session_witness :
  ∃ t s,
    find_one (has_token t) (acc_sessions signed_in_accounts) = Some s ∧
    t = "tok_3f9a" ∧ 2000 <= s_expires_at s.
Proof.
  destruct (proj1 (authentication_needs_live_session
                     {| cookie_session_token := Some "tok_3f9a";
                        header_authorization := None |} 2000 signed_in_accounts)
              owner_doc) as (t & s & Ht & _ & Hs & _ & Hexp & _); [by vm_compute|].
  exists t, s. split; [exact Hs|]. split; [|exact Hexp].
  rewrite session_token_of_cookie in Ht. by injection Ht as <-.
Defined.

(** X26: a sign-in that the identity service does not answer gives 500,
    one that it answers with another status than 200 gives 401, and both
    change nothing.  A successful sign-in leaves the user with exactly one
    session, the new one, which expires seven days (604800 seconds) after
    the sign-in, and leaves the sessions of the other users as they were. *)
Theorem sign_in_replaces_sessions now w :
  create_session AuthUnreachable now w
    = (inl (HTTPException 500 "Authentication service unavailable"), w) ∧
  (∀ status_code auth_data, status_code ≠ 200 →
     create_session (AuthAnswered status_code auth_data) now w
     = (inl (HTTPException 401 "Invalid session ID"), w)) ∧
  (∀ auth_data,
     let w' := snd (create_session (AuthAnswered 200 auth_data) now w) in
     let id := signed_in_id auth_data w in
     List.filter (session_of id) (acc_sessions (accounts w'))
       = [ {| s_user_id := id; s_session_token := issued_token auth_data w;
              s_expires_at := now + 604800 |} ] ∧
     List.filter (fun s => negb (session_of id s)) (acc_sessions (accounts w'))
       = List.filter (fun s => negb (session_of id s)) (acc_sessions (accounts w))).
Proof.
  split; [done|]. split.
  - intros status_code auth_data Hne. unfold create_session.
    by destruct (Z.eqb_spec status_code 200).
  - intros auth_data w' id. subst w' id.
    destruct (create_session_run auth_data now w) as (users1 & drawn1 & u & -> & _).
    cbn [snd accounts acc_sessions]. rewrite !List.filter_app.
    rewrite filter_delete_many. cbn [List.filter app].
    assert (Hnew : ∀ tok exp,
      session_of (signed_in_id auth_data w)
        {| s_user_id := signed_in_id auth_data w; s_session_token := tok;
           s_expires_at := exp |} = true).
    { intros tok exp. unfold session_of. cbn. apply String.eqb_refl. }
    rewrite !Hnew. cbn [negb].
    split; [done|]. rewrite app_nil_r.
    unfold delete_many. rewrite filter_filter.
    apply filter_ext. intros s. fold (session_of (signed_in_id auth_data w) s).
    by destruct (session_of _ s).
Qed.

(** X27: a sign-in with an email that is already stored creates no user:
    the first user with that email keeps its id and its profile (company,
    business type, employee count, industry) and gets the name and the
    picture the identity service sent; a sign-in with a new email appends
    a user with that email, an id "user_" followed by twelve characters of
    a fresh uuid, and an empty profile. *)
Theorem sign_in_keeps_or_creates_user auth_data now w :
  let w' := snd (create_session (AuthAnswered 200 auth_data) now w) in
  (∀ eu, find_one (has_email (ad_email auth_data)) (acc_users (accounts w)) = Some eu →
     length (acc_users (accounts w')) = length (acc_users (accounts w)) ∧
     find_one (has_email (ad_email auth_data)) (acc_users (accounts w'))
       = Some (set_name_picture auth_data eu) ∧
     signed_in_id auth_data w = ud_user_id eu ∧
     ud_user_id (set_name_picture auth_data eu) = ud_user_id eu ∧
     ud_name (set_name_picture auth_data eu) = ad_name auth_data ∧
     ud_picture (set_name_picture auth_data eu) = ad_picture auth_data ∧
     ud_company_name (set_name_picture auth_data eu) = ud_company_name eu ∧
     ud_business_type (set_name_picture auth_data eu) = ud_business_type eu ∧
     ud_employee_count (set_name_picture auth_data eu) = ud_employee_count eu ∧
     ud_industry (set_name_picture auth_data eu) = ud_industry eu) ∧
  (find_one (has_email (ad_email auth_data)) (acc_users (accounts w)) = None →
     acc_users (accounts w')
     = acc_users (accounts w)
       ++ [ {| ud_user_id :=
                 String.append "user_" (substring 0 12 (hex_source w (hex_drawn w)));
               ud_email := ad_email auth_data; ud_name := ad_name auth_data;
               ud_picture := ad_picture auth_data; ud_company_name := None;
               ud_business_type := None; ud_employee_count := None;
               ud_industry := None |} ]).
Proof.
  intros w'. subst w'.
  destruct (create_session_run auth_data now w) as (users1 & drawn1 & u & -> & _ & H).
  cbn [snd accounts acc_users]. unfold signed_in_id in *. split.
  - intros eu E. rewrite E in H. destruct H as [-> _]. rewrite E.
    split; [apply update_one_length|]. split; [|by repeat split].
    apply find_one_update_one; [done|].
    unfold find_one in E. by apply find_some in E as [_ ?].
  - intros E. rewrite E in H. by destruct H as [-> _].
Qed.

Lemma sign_in_keeps_or_creates_user_witness :
  ∃ u,
    find_one (has_email "owner@example.org")
      (acc_users (accounts (snd (create_session
         (AuthAnswered 200 {| ad_email := "owner@example.org"; ad_name := "O. Wner";
                              ad_picture := Some "https://example.org/o.png";
                              ad_session_token := None |}) 5000
         (snd (create_session first_reply 1000 empty_auth_world)))))) = Some u ∧
    ud_user_id u = "user_0123456789ab" ∧ ud_name u = "O. Wner".
Proof.
  destruct (proj1 (sign_in_keeps_or_creates_user
              {| ad_email := "owner@example.org"; ad_name := "O. Wner";
                 ad_picture := Some "https://example.org/o.png";
                 ad_session_token := None |} 5000
              (snd (create_session first_reply 1000 empty_auth_world))) owner_doc)
    as (_ & Hfind & _ & Hid & Hname & _); [by vm_compute|].
  eexists. split; [exact Hfind|]. by split.
Defined.

(** X28: [logout] with a session cookie removes every session with that
    token, after which the token is refused with 401 "Invalid session",
    and leaves the sessions with other tokens and the users as they were;
    [logout] without a cookie changes nothing, so a session that is only
    presented in the Authorization header survives it. *)
Theorem logout_ends_cookie_session request now a :
  (∀ t h, request = {| cookie_session_token := Some t; header_authorization := h |} →
     t ≠ EmptyString →
     get_current_user {| cookie_session_token := Some t; header_authorization := None |}
       now (logout request a) = inl (HTTPException 401 "Invalid session") ∧
     List.filter (fun s => negb (has_token t s)) (acc_sessions (logout request a))
       = List.filter (fun s => negb (has_token t s)) (acc_sessions a) ∧
     acc_users (logout request a) = acc_users a) ∧
  (truthy (cookie_session_token request) = false →
     logout request a = a ∧
     get_current_user request now (logout request a) = get_current_user request now a).
Proof.
  split.
  - intros t h -> Ht.
    assert (Htr : truthy (Some t) = true) by (by destruct t).
    unfold logout. cbn [cookie_session_token]. rewrite Htr. cbn [default from_option id].
    split; [|split; [|done]].
    + unfold get_current_user. rewrite session_token_of_cookie, Htr. cbn [negb acc_sessions].
      rewrite find_one_filter. unfold delete_many. rewrite filter_filter.
      rewrite filter_none; [done|]. intros s _. by destruct (has_token t s).
    + cbn [acc_sessions]. unfold delete_many. rewrite filter_filter.
      apply filter_ext. intros s. by destruct (has_token t s).
  - intros H. unfold logout. by rewrite H.
Qed.

Lemma logout_ends_cookie_session_witness :
  get_current_user {| cookie_session_token := Some "tok_3f9a";
                      header_authorization := None |} 2000
    (logout {| cookie_session_token := Some "tok_3f9a"; header_authorization := None |}
       signed_in_accounts)
  = inl (HTTPException 401 "Invalid session") ∧
  logout {| cookie_session_token := None; header_authorization := Some "Bearer tok_3f9a" |}
    signed_in_accounts = signed_in_accounts.
Proof.
  split.
  - by apply (proj1 (logout_ends_cookie_session
                       {| cookie_session_token := Some "tok_3f9a";
                          header_authorization := None |} 2000 signed_in_accounts)
                "tok_3f9a" None).
  - by apply (proj2 (logout_ends_cookie_session
                       {| cookie_session_token := None;
                          header_authorization := Some "Bearer tok_3f9a" |}
                       2000 signed_in_accounts)).
Defined.

(** ** Profile *)

Lemma set_profile_fields_idempotent profile u :
  set_profile_fields profile (set_profile_fields profile u) = set_profile_fields profile u.
Proof.
  unfold set_profile_fields. cbn.
  by destruct (pu_company_name profile), (pu_business_type profile),
    (pu_employee_count profile), (pu_industry profile).
Qed.

Lemma profile_touched_only_refl profile id u : profile_touched_only profile id u u.
Proof. by repeat split. Qed.

Lemma profile_touched_only_set profile id u :
  has_user_id id u = true → profile_touched_only profile id u (set_profile_fields profile u).
Proof.
  intros H%String.eqb_eq. unfold profile_touched_only, set_profile_fields. cbn.
  repeat split; try done; try (by intros ->);
    by destruct (pu_company_name profile), (pu_business_type profile),
      (pu_employee_count profile), (pu_industry profile).
Qed.

(** X29: a profile update never erases a field: a field that is not sent
    keeps its stored value, and a stored value can only be replaced by
    another one; it changes at most the first stored user with the
    caller's id, never an id, an email, a name or a picture, and never a
    session; an update without any field changes nothing; and sending the
    same update again changes nothing more. *)
Theorem update_profile_never_erases profile user a :
  let a' := snd (update_profile profile user a) in
  Forall2 (profile_touched_only profile (ud_user_id user)) (acc_users a) (acc_users a') ∧
  acc_sessions a' = acc_sessions a ∧
  (nothing_to_set profile = true → a' = a) ∧
  fst (update_profile profile user a)
    = find_one (has_user_id (ud_user_id user)) (acc_users a') ∧
  update_profile profile user a' = (fst (update_profile profile user a), a').
Proof.
  intros a'. subst a'. unfold update_profile. cbn [fst snd].
  destruct (nothing_to_set profile) eqn:En.
  - split; [apply Forall2_refl_all, profile_touched_only_refl|]. by repeat split.
  - cbn [acc_users acc_sessions]. split; [|split; [done|split; [done|split; [done|]]]].
    + generalize (acc_users a). intros us. induction us as [|u us IH]; [constructor|].
      simpl. destruct (has_user_id (ud_user_id user) u) eqn:E.
      * constructor; [by apply profile_touched_only_set|].
        apply Forall2_refl_all, profile_touched_only_refl.
      * constructor; [apply profile_touched_only_refl|exact IH].
    + rewrite update_one_again; [done|]. intros x Hx. split; [done|].
      apply set_profile_fields_idempotent.
Qed.
